(** * Panoptes tiling pipeline: a shallow embedding and its properties

    The development follows the three scripts of [src/panoptes]:
    - [tileMaker.py]: [calculate_hash], [fits_to_tiles], [find_duplicates];
    - [reconstruct.py]: [reconstruct_image_from_tiles];
    - [grayscaler.py]: [hash_file_name], [create_merkle_root], and the batch
      of [apply_image_processing], [save_metadata_json],
      [process_fits_to_grayscale] and [main] over array operations that are
      parameters.

    Python integers are [Z], strings are [string], numpy arrays are a shape
    with a row-major buffer, JSON documents are an inductive type whose objects
    keep their keys in insertion order, the logger and the files written are an
    explicit world threaded through a small state-and-exception monad. *)

From Stdlib Require Import ZArith List String Ascii Bool Lia DecimalString DecimalZ.
From Stdlib Require Import PrimFloat FloatOps SpecFloat Uint63.
From stdpp Require Import base option list gmap strings.

Local Open Scope Z_scope.
Set Warnings "-register-all".

(** ** Python values and control *)

Inductive exn :=
| ZeroDivisionError
| ValueError
| KeyError
| TypeError
| AttributeError
| OSError
| RecursionError
| Cv2Error.

Inductive outcome (A : Type) :=
| Ok (a : A)
| Raise (e : exn).
Arguments Ok {A} a.
Arguments Raise {A} e.

(** JSON as [json.load] returns it and [json.dump] takes it. Numbers are
    integers (the manifests hold no other number); a [dict] keeps its keys in
    insertion order. *)
Inductive json :=
| JNull
| JInt (z : Z)
| JStr (s : string)
| JList (items : list json)
| JObj (fields : list (string * json)).

Module Py.

(** [range(n)]: empty when [n <= 0]. *)
Definition range (n : Z) : list Z := map Z.of_nat (seq 0 (Z.to_nat n)).

(** [range(0, n, 2)] over list indices. *)
Definition range_step2 (n : nat) : list nat := map (fun k => 2 * k)%nat (seq 0 (Nat.div2 (S n))).

(** [a // b] on integers: floor division, [ZeroDivisionError] on [b = 0]. *)
Definition floordiv (a b : Z) : outcome Z :=
  if b =? 0 then Raise ZeroDivisionError else Ok (a / b).

(** [x / n] with a float [x] and an integer [n]: only whether it raises
    matters to the callers, which log the quotient. *)
Definition truediv_raises (n : Z) : outcome unit :=
  if n =? 0 then Raise ZeroDivisionError else Ok tt.

(** [str(n)] for an integer. *)
Definition str (n : Z) : string := NilZero.string_of_int (Z.to_int n).

(** A slice bound [i] of [a[i:j]] against a length: negative bounds count
    from the end, and every bound is clamped to [0..len]. *)
Definition slice_index (len i : Z) : Z :=
  if i <? 0 then Z.max 0 (i + len) else Z.min i len.

(** The indices [a[start:stop]] selects, in order. *)
Definition slice_indices (len start stop : Z) : list Z :=
  let a := slice_index len start in
  let b := slice_index len stop in
  map (fun k => a + Z.of_nat k) (seq 0 (Z.to_nat (b - a))).

(** [d[k]] for a key [k]: [KeyError] when a dict lacks it, [TypeError] on a
    value that is no dict. *)
Fixpoint assoc (k : string) (kvs : list (string * json)) : option json :=
  match kvs with
  | [] => None
  | (k', v) :: rest => if String.eqb k k' then Some v else assoc k rest
  end.

Definition getitem (o : json) (k : string) : outcome json :=
  match o with
  | JObj kvs => match assoc k kvs with Some v => Ok v | None => Raise KeyError end
  | _ => Raise TypeError
  end.

(** [d.get(k, default)]: [AttributeError] on a value that is no dict. *)
Definition get_default (o : json) (k : string) (default : json) : outcome json :=
  match o with
  | JObj kvs => Ok (match assoc k kvs with Some v => v | None => default end)
  | _ => Raise AttributeError
  end.

(** What follows the last ["/"] of a path, when it has one. *)
Fixpoint after_last_slash (path : string) : option string :=
  match path with
  | EmptyString => None
  | String c rest =>
      match after_last_slash rest with
      | Some tail => Some tail
      | None => if Ascii.eqb c "/" then Some rest else None
      end
  end.

(** [os.path.basename(path)] of [posixpath]: [path[path.rfind('/') + 1:]]. *)
Definition basename (path : string) : string :=
  match after_last_slash path with
  | Some tail => tail
  | None => path
  end.

(** [for x in v]: a list yields its items, a dict its keys, a string its
    characters; [None] and integers are not iterable. *)
Definition iter (v : json) : outcome (list json) :=
  match v with
  | JList items => Ok items
  | JObj kvs => Ok (map (fun kv => JStr (fst kv)) kvs)
  | JStr s => Ok (map (fun c => JStr (String c EmptyString)) (list_ascii_of_string s))
  | JNull | JInt _ => Raise TypeError
  end.

End Py.

(** ** numpy arrays *)

(** An array is its shape and its C-contiguous (row-major) buffer. *)
Record ndarray := { shape : list Z; buffer : list Z }.

Module Np.

(** [a[y, x]] of a 2-D array of width [w]. *)
Definition item2 (a : ndarray) (w y x : Z) : Z :=
  nth (Z.to_nat (y * w + x)) (buffer a) 0.

(** [a[y0:y1, x0:x1]] of a 2-D array of shape [(h, w)]. *)
Definition slice2 (a : ndarray) (h w y0 y1 x0 x1 : Z) : ndarray :=
  let ys := Py.slice_indices h y0 y1 in
  let xs := Py.slice_indices w x0 x1 in
  {| shape := [Z.of_nat (length ys); Z.of_nat (length xs)];
     buffer := flat_map (fun y => map (fun x => item2 a w y x) xs) ys |}.

(** [np.min(a)] and [np.max(a)]: [ValueError] on a zero-size array. *)
Definition min (a : ndarray) : outcome Z :=
  match buffer a with
  | [] => Raise ValueError
  | v :: vs => Ok (fold_left Z.min vs v)
  end.

Definition max (a : ndarray) : outcome Z :=
  match buffer a with
  | [] => Raise ValueError
  | v :: vs => Ok (fold_left Z.max vs v)
  end.

(** [np.zeros(shape, dtype=np.uint16)]: [ValueError] on a negative
    dimension. *)
Definition zeros (shp : list Z) : outcome ndarray :=
  if existsb (fun d => d <? 0) shp then Raise ValueError
  else Ok {| shape := shp; buffer := repeat 0 (Z.to_nat (fold_right Z.mul 1 shp)) |}.

(** Conversion of an integer sample to [float64] (exact below [2^53]). *)
Definition float64 (z : Z) : float := PrimFloat.of_uint63 (Uint63.of_Z z).

(** The integer part of a [float64], rounded toward zero. *)
Definition trunc (f : float) : Z :=
  match Prim2SF f with
  | S754_finite s m e =>
      let a := if 0 <=? e then Z.pos m * 2 ^ e else Z.pos m / 2 ^ (- e) in
      if s then - a else a
  | _ => 0
  end.

(** [x.astype(np.uint16)] of a [float64]: the fraction is dropped (a C
    cast), and the integer part is kept modulo [2^16]. *)
Definition astype_uint16 (f : float) : Z := trunc f mod 65536.

(** [a.tobytes()] of a [uint16] array: two bytes per sample, low byte
    first, in buffer order. *)
Definition tobytes (a : ndarray) : list Z :=
  flat_map (fun v => [v mod 256; (v / 256) mod 256]) (buffer a).

End Np.

(** ** The logger and the files written *)

Inductive levelname := ERROR | WARNING | INFO.

(** One constructor per [logger] call of the three scripts, with the values
    its message formats (elapsed times are left out of the message). *)
Inductive log_record :=
| Error_opening_fits
| Error_no_image_data
| Error_not_2d
| Warning_uniform_tile (i j : Z)
| Info_completed (total_tiles : Z)
| Info_metadata_saved (json_file : string)
| Error_reading_metadata (file_path : string)
| Info_duplicates_found (n : nat)
| Info_duplicate (d : json * json * json * json)
| Info_no_duplicates
| Error_reading_tile (tile_filename : string)
| Info_reconstructed_saved (output_filename : string)
| Error_saving_tile (tile_filename : string)
| Error_saving_metadata
| Error_saving_reconstructed (output_filename : string).

Definition level (r : log_record) : levelname :=
  match r with
  | Error_opening_fits | Error_no_image_data | Error_not_2d
  | Error_reading_metadata _ | Error_reading_tile _
  | Error_saving_tile _ | Error_saving_metadata | Error_saving_reconstructed _ => ERROR
  | Warning_uniform_tile _ _ => WARNING
  | _ => INFO
  end.

Inductive file :=
| Png (image : ndarray)
| JsonFile (document : json).

(** What a run leaves behind: the log and the files written, oldest first. *)
Record world := { logs : list log_record; written : list (string * file) }.

Definition start : world := {| logs := []; written := [] |}.

(** A computation reads and updates a state ([world], or the objects a
    function mutates in place) and returns or raises; what was done before an
    exception stays done. *)
Definition M (St A : Type) : Type := St -> outcome A * St.

Definition ret {St A} (a : A) : M St A := fun w => (Ok a, w).

Definition bind {St A B} (m : M St A) (k : A -> M St B) : M St B :=
  fun w => match m w with
           | (Ok a, w') => k a w'
           | (Raise e, w') => (Raise e, w')
           end.

Notation "'let*' x ':=' m 'in' k" := (bind m (fun x => k))
  (at level 10, x name, m at level 100, k at level 200).

Definition lift {St A} (o : outcome A) : M St A := fun w => (o, w).

Definition raise {St A} (e : exn) : M St A := lift (Raise e).

Definition log (r : log_record) : M world unit :=
  fun w => (Ok tt, {| logs := logs w ++ [r]; written := written w |}).

(** A file written into the output directory. The directory is taken to
    be writable: a write by itself does not raise. *)
Definition write (name : string) (f : file) : M world unit :=
  fun w => (Ok tt, {| logs := logs w; written := written w ++ [(name, f)] |}).

(** [try: body / except Exception as e: handler]. *)
Definition try_except {St A} (body : M St A) (handler : exn -> M St A) : M St A :=
  fun w => match body w with
           | (Ok a, w') => (Ok a, w')
           | (Raise e, w') => handler e w'
           end.

(** [cv2.imwrite(name, image)]: [cv2.error] on an image without samples,
    whatever the directory; any other image is written. *)
Definition imwrite (name : string) (image : ndarray) : M world unit :=
  match buffer image with
  | [] => raise Cv2Error
  | _ :: _ => write name (Png image)
  end.

(** [for x in xs: s = body(x, s)]. *)
Fixpoint for_each {St A S} (xs : list A) (body : A -> S -> M St S) (s : S) : M St S :=
  match xs with
  | [] => ret s
  | x :: rest => let* s' := body x s in for_each rest body s'
  end.

(** ** tileMaker.py *)

Section TileMaker.

(** [hashlib.sha256(data).hexdigest()], a function of the bytes hashed. *)
Variable sha256_hexdigest : list Z -> string.

Definition calculate_hash (image : ndarray) : string :=
  sha256_hexdigest (Np.tobytes image).

(** What [fits.open(fits_file)] gives: an exception, or the primary HDU with
    its [data] ([None], or an array). *)
Inductive fits_open :=
| OpenFails
| PrimaryHDU (data : option ndarray).

(** One sample of [((tile - tile_min) / (tile_max - tile_min) * 65535)
    .astype(np.uint16)]. The differences are taken in the raster's own
    integer type; [tile_min <= v <= tile_max], so they are the exact
    differences for every unsigned type, and for a signed type as long as
    [tile_max - tile_min] fits it. The quotient and the product are
    [float64]. *)
Definition normalize_sample (tile_min tile_max v : Z) : Z :=
  Np.astype_uint16
    (PrimFloat.mul
       (PrimFloat.div (Np.float64 (v - tile_min))
                      (Np.float64 (tile_max - tile_min)))
       (Np.float64 65535)).

Definition normalize (tile : ndarray) (tile_min tile_max : Z) : ndarray :=
  {| shape := shape tile;
     buffer := map (normalize_sample tile_min tile_max) (buffer tile) |}.

(** The dict [tile_metadata] of lines 142-152. *)
Definition tile_metadata (tile_id tile_filename tile_hash : string)
    (i j tile_size : Z) : json :=
  JObj [("tile_id", JStr tile_id);
        ("filename", JStr tile_filename);
        ("hash", JStr tile_hash);
        ("position", JObj [("x_start", JInt (j * tile_size));
                          ("y_start", JInt (i * tile_size));
                          ("x_end", JInt ((j + 1) * tile_size));
                          ("y_end", JInt ((i + 1) * tile_size))])].

(** The dict [metadata] of lines 102-106 with the tiles appended so far. *)
Definition metadata_dict (fits_basename : string) (tile_size : Z)
    (tiles : list json) : json :=
  JObj [("fits_file", JStr fits_basename);
        ("tile_size", JInt tile_size);
        ("tiles", JList tiles)].

Definition tile_id_of (fits_basename : string) (i j : Z) : string :=
  fits_basename +:+ "_tile_" +:+ Py.str i +:+ "_" +:+ Py.str j.

(** The body of the inner loop (lines 115-153) for the cell of row [i] and
    column [j]; [tiles] is [metadata["tiles"]]. Files are named by their
    base name inside [output_dir]. *)
Definition process_tile (fits_basename : string) (image_data : ndarray)
    (height width tile_size i j : Z) (tiles : list json) : M world (list json) :=
  let tile := Np.slice2 image_data height width
                (i * tile_size) ((i + 1) * tile_size)
                (j * tile_size) ((j + 1) * tile_size) in
  let* tile_min := lift (Np.min tile) in
  let* tile_max := lift (Np.max tile) in
  let* normalized_tile :=
    (if tile_max =? tile_min
     then let* _ := log (Warning_uniform_tile i j) in
          lift (Np.zeros [tile_size; tile_size])
     else ret (normalize tile tile_min tile_max)) in
  let tile_hash := calculate_hash normalized_tile in
  let tile_id := tile_id_of fits_basename i j in
  let tile_filename := tile_id +:+ ".png" in
  let* _ := try_except (imwrite tile_filename normalized_tile)
                        (fun e => log (Error_saving_tile tile_filename)) in
  ret (tiles ++ [tile_metadata tile_id tile_filename tile_hash i j tile_size]).

(** [fits_to_tiles(fits_file, output_dir, tile_size)]; [fits_basename] is
    [os.path.basename(fits_file)] and [hdul] what opening the file gives. *)
Definition fits_to_tiles (fits_basename : string) (hdul : fits_open)
    (tile_size : Z) : M world unit :=
  match hdul with
  | OpenFails => log Error_opening_fits
  | PrimaryHDU None => log Error_no_image_data
  | PrimaryHDU (Some image_data) =>
      match shape image_data with
      | [height; width] =>
          let* num_tiles_x := lift (Py.floordiv width tile_size) in
          let* num_tiles_y := lift (Py.floordiv height tile_size) in
          let total_tiles := num_tiles_x * num_tiles_y in
          let* tiles :=
            for_each (Py.range num_tiles_y)
              (fun i =>
                 for_each (Py.range num_tiles_x)
                   (fun j => process_tile fits_basename image_data
                               height width tile_size i j))
              [] in
          (* avg_time_per_tile = elapsed_time / total_tiles *)
          let* _ := lift (Py.truediv_raises total_tiles) in
          let* _ := log (Info_completed total_tiles) in
          let json_file := fits_basename +:+ "_metadata.json" in
          try_except
            (let* _ := write json_file
                         (JsonFile (metadata_dict fits_basename tile_size tiles)) in
             log (Info_metadata_saved json_file))
            (fun e => log Error_saving_metadata)
      | _ => log Error_not_2d
      end
  end.

End TileMaker.

(** *** [find_duplicates] *)

(** The values a manifest can hold under ["hash"] that Python can use as a
    dict key: [None], an integer or a string (lists and dicts are unhashable). *)
Abbreviation dict_key := (unit + Z + string)%type.

Definition hashable (v : json) : outcome dict_key :=
  match v with
  | JNull => Ok (inl (inl tt))
  | JInt z => Ok (inl (inr z))
  | JStr s => Ok (inr s)
  | JList _ | JObj _ => Raise TypeError
  end.

(** A reported pair: the current tile's id and file name, then the
    first-seen tile's id and file name. *)
Definition duplicate : Type := json * json * json * json.

(** The objects [find_duplicates] mutates in place, and its log. *)
Record scan := {
  hash_dict : gmap dict_key (json * json);
  duplicates : list duplicate;
  scan_logs : list log_record
}.

Definition scan_start : scan :=
  {| hash_dict := ∅; duplicates := []; scan_logs := [] |}.

Definition scan_log (r : log_record) : M scan unit :=
  fun s => (Ok tt, {| hash_dict := hash_dict s; duplicates := duplicates s;
                      scan_logs := scan_logs s ++ [r] |}).

(** Lines 190-195 for one tile of a manifest. *)
Definition scan_tile (tile : json) : M scan unit :=
  let* tile_hash := lift (Py.getitem tile "hash") in
  let* tile_id := lift (Py.getitem tile "tile_id") in
  let* key := lift (hashable tile_hash) in
  fun s =>
    match hash_dict s !! key with
    | Some first_seen =>
        match Py.getitem tile "filename" with
        | Ok filename =>
            (Ok tt, {| hash_dict := hash_dict s;
                       duplicates := duplicates s
                                     ++ [(tile_id, filename, first_seen.1, first_seen.2)];
                       scan_logs := scan_logs s |})
        | Raise e => (Raise e, s)
        end
    | None =>
        match Py.getitem tile "filename" with
        | Ok filename =>
            (Ok tt, {| hash_dict := <[key := (tile_id, filename)]> (hash_dict s);
                       duplicates := duplicates s;
                       scan_logs := scan_logs s |})
        | Raise e => (Raise e, s)
        end
    end.

(** What [open(file_path)] and [json.load] give for a manifest file: the
    document, or an exception. *)
Definition load (content : option json) : outcome json :=
  match content with
  | Some document => Ok document
  | None => Raise OSError
  end.

(** Lines 185-197 for one file whose name ends in [_metadata.json]. *)
Definition scan_file (entry : string * option json) : M scan unit :=
  try_except
    (let* metadata := lift (load entry.2) in
     let* tiles := lift (Py.get_default metadata "tiles" (JList [])) in
     let* items := lift (Py.iter tiles) in
     for_each items (fun tile _ => scan_tile tile) tt)
    (fun e => scan_log (Error_reading_metadata entry.1)).

(** [find_duplicates(metadata_dir)]; [metadata_files] are the files
    [os.walk] finds whose name ends in [_metadata.json], in its order, each
    with what loading it gives. *)
Definition find_duplicates (metadata_files : list (string * option json)) : M scan unit :=
  let* _ := for_each metadata_files (fun entry _ => scan_file entry) tt in
  fun s =>
    match duplicates s with
    | [] => scan_log Info_no_duplicates s
    | ds => (let* _ := scan_log (Info_duplicates_found (length ds)) in
             for_each ds (fun d _ => scan_log (Info_duplicate d)) tt) s
    end.

(** ** reconstruct.py *)

(** [[f(x) for x in xs]] with an [f] that may raise. *)
Fixpoint comprehension {A B} (f : A -> outcome B) (xs : list A) : outcome (list B) :=
  match xs with
  | [] => Ok []
  | x :: rest =>
      match f x with
      | Ok y => match comprehension f rest with
                | Ok ys => Ok (y :: ys)
                | Raise e => Raise e
                end
      | Raise e => Raise e
      end
  end.

Definition as_int (v : json) : outcome Z :=
  match v with JInt z => Ok z | _ => Raise TypeError end.

Definition as_str (v : json) : outcome string :=
  match v with JStr s => Ok s | _ => Raise TypeError end.

(** [max(coords)] as the dimension [np.zeros] then takes: [ValueError] on
    an empty list; a coordinate that is no integer ends in [TypeError], in
    [max] or in [np.zeros]. *)
Definition max_coord (coords : list json) : outcome Z :=
  match coords with
  | [] => Raise ValueError
  | _ => match comprehension as_int coords with
         | Ok (z :: zs) => Ok (fold_left Z.max zs z)
         | Ok [] => Raise ValueError
         | Raise e => Raise e
         end
  end.

(** A JSON value as a slice bound: an integer, or [None] for the default
    bound; anything else is a [TypeError]. *)
Definition slice_bound (v : json) : outcome (option Z) :=
  match v with
  | JInt z => Ok (Some z)
  | JNull => Ok None
  | _ => Raise TypeError
  end.

(** The range [lo <= k < hi] that [a[start:stop]] selects on an axis of
    length [len]. *)
Definition slice_range (len : Z) (start stop : option Z) : Z * Z :=
  (match start with Some i => Py.slice_index len i | None => 0 end,
   match stop with Some i => Py.slice_index len i | None => len end).

(** Leading dimensions of size 1 are dropped while a value has more
    dimensions than the target of an assignment. *)
Fixpoint squeeze_leading (shp : list Z) : list Z :=
  match shp with
  | 1 :: ((_ :: _ :: _) as rest) => squeeze_leading rest
  | _ => shp
  end.

(** The rows and columns of a value as broadcast against a target of shape
    [(th, tw)]: a dimension matches when it is the target's or 1. *)
Definition broadcast2 (shp : list Z) (th tw : Z) : option (Z * Z) :=
  let fits (d t : Z) := (d =? t) || (d =? 1) in
  match squeeze_leading shp with
  | [] => Some (1, 1)
  | [sw] => if fits sw tw then Some (1, sw) else None
  | [sh; sw] => if fits sh th && fits sw tw then Some (sh, sw) else None
  | _ => None
  end.

(** The sample of a value, broadcast as [sh] rows and [sw] columns, that
    lands on the sample [(dy, dx)] of the target region. *)
Definition broadcast_item (value : ndarray) (sh sw dy dx : Z) : Z :=
  nth (Z.to_nat ((if sh =? 1 then 0 else dy) * sw + (if sw =? 1 then 0 else dx)))
      (buffer value) 0.

(** The array once the region [y0 <= y < y1], [x0 <= x < x1] has taken the
    samples of the value, each cast to [uint16]. *)
Definition assign_region (full_image : ndarray) (width y0 y1 x0 x1 : Z)
    (value : ndarray) (sh sw : Z) : ndarray :=
  {| shape := shape full_image;
     buffer :=
       imap (fun k old =>
               let y := Z.of_nat k / width in
               let x := Z.of_nat k mod width in
               if (y0 <=? y) && (y <? y1) && (x0 <=? x) && (x <? x1)
               then broadcast_item value sh sw (y - y0) (x - x0) mod 65536
               else old)
            (buffer full_image) |}.

(** [full_image[y_start:y_end, x_start:x_end] = value] on a [uint16] array
    of shape [(height, width)]: [ValueError] when the value cannot be
    broadcast to the selected region. *)
Definition setitem2 (full_image : ndarray) (height width : Z)
    (y_start y_end x_start x_end : option Z) (value : ndarray) : outcome ndarray :=
  let '(y0, y1) := slice_range height y_start y_end in
  let '(x0, x1) := slice_range width x_start x_end in
  match broadcast2 (shape value) (Z.max 0 (y1 - y0)) (Z.max 0 (x1 - x0)) with
  | None => Raise ValueError
  | Some (sh, sw) => Ok (assign_region full_image width y0 y1 x0 x1 value sh sw)
  end.

(** Lines 76-88 for one tile; [imread] is [cv2.imread] on a tile file of
    the manifest's directory ([None] when the file cannot be read). *)
Definition place_tile (imread : string -> option ndarray) (height width : Z)
    (tile : json) (full_image : ndarray) : M world ndarray :=
  let* tile_filename := lift (match Py.getitem tile "filename" with
                              | Ok v => as_str v
                              | Raise e => Raise e
                              end) in
  let* position := lift (Py.getitem tile "position") in
  let* x_start := lift (Py.getitem position "x_start") in
  let* y_start := lift (Py.getitem position "y_start") in
  let* x_end := lift (Py.getitem position "x_end") in
  let* y_end := lift (Py.getitem position "y_end") in
  try_except
    (match imread tile_filename with
     | None => raise ValueError
     | Some tile_image =>
         let* ys := lift (slice_bound y_start) in
         let* ye := lift (slice_bound y_end) in
         let* xs := lift (slice_bound x_start) in
         let* xe := lift (slice_bound x_end) in
         lift (setitem2 full_image height width ys ye xs xe tile_image)
     end)
    (fun e => let* _ := log (Error_reading_tile tile_filename) in ret full_image).

Definition coord (name : string) (tile : json) : outcome json :=
  match Py.getitem tile "position" with
  | Ok position => Py.getitem position name
  | Raise e => Raise e
  end.

(** [reconstruct_image_from_tiles(metadata_file, output_dir)]; [content]
    is what loading [metadata_file] gives. *)
Definition reconstruct_image_from_tiles (metadata_file : string)
    (content : option json) (imread : string -> option ndarray) : M world unit :=
  match content with
  | None => log (Error_reading_metadata metadata_file)
  | Some metadata =>
      let* tile_size := lift (Py.getitem metadata "tile_size") in
      let* tiles_value := lift (Py.getitem metadata "tiles") in
      let* tiles := lift (Py.iter tiles_value) in
      let* x_coords := lift (comprehension (coord "x_end") tiles) in
      let* y_coords := lift (comprehension (coord "y_end") tiles) in
      let* width := lift (max_coord x_coords) in
      let* height := lift (max_coord y_coords) in
      let* full_image := lift (Np.zeros [height; width]) in
      let* full_image := for_each tiles (place_tile imread height width) full_image in
      let* fits_file := lift (match Py.getitem metadata "fits_file" with
                              | Ok v => as_str v
                              | Raise e => Raise e
                              end) in
      let fits_basename := Py.basename fits_file in
      let output_filename := "reconstructed_" +:+ fits_basename +:+ ".png" in
      try_except
        (let* _ := imwrite output_filename full_image in
         log (Info_reconstructed_saved output_filename))
        (fun e => log (Error_saving_reconstructed output_filename))
  end.

(** ** grayscaler.py *)

Section Grayscaler.

Variable sha256_hexdigest : list Z -> string.

(** [content.encode()]: the bytes of the string. *)
Definition encode (content : string) : list Z :=
  map (fun c => Z.of_N (N_of_ascii c)) (list_ascii_of_string content).

Definition hash_file_name (content : string) : string :=
  sha256_hexdigest (encode content).

(** [create_merkle_root(hashes)]; [depth] is the number of frames the
    interpreter still allows (its recursion limit), and running out of them
    is [RecursionError]. *)
Fixpoint create_merkle_root (depth : nat) (hashes : list string) : outcome string :=
  match depth with
  | O => Raise RecursionError
  | S depth' =>
      if (length hashes =? 1)%nat then Ok (nth 0 hashes "")
      else
        let new_hashes :=
          map (fun i => hash_file_name
                          (nth i hashes "" +:+
                           (if (i + 1 <? length hashes)%nat
                            then nth (i + 1) hashes "" else "")))
              (Py.range_step2 (length hashes)) in
        create_merkle_root depth' new_hashes
  end.

End Grayscaler.

(** *** The batch of [process_fits_to_grayscale] *)

(** [s.endswith(suffix)]. *)
Definition endswith (s suffix : string) : bool :=
  (String.length suffix <=? String.length s)%nat
  && String.eqb (substring (String.length s - String.length suffix)
                   (String.length suffix) s) suffix.

(** The UTF-8 bytes of a code point below 256. *)
Definition utf8 (code : Z) : list Z :=
  if code <? 128 then [code] else [192 + code / 64; 128 + code mod 64].

(** [data.decode('ISO-8859-1')]: one character for each byte, its code
    point the byte; a string is held as its UTF-8 bytes, which are what
    [encode] gives back. *)
Definition decode_latin1 (data : list Z) : string :=
  string_of_list_ascii (map (fun b => ascii_of_N (Z.to_N b)) (flat_map utf8 data)).

(** The entries of [config] that steer the control flow; the percentiles,
    the clip limit and the scale belong to the array operations. *)
Record settings := {
  num_images : Z;
  apply_log_scale : bool;
  apply_clipping : bool;
  apply_clahe : bool
}.

Definition config : settings :=
  {| num_images := 1; apply_log_scale := true; apply_clipping := true;
     apply_clahe := true |}.

(** One constructor per [logging] call of grayscaler.py that the level
    [INFO] lets through. *)
Inductive gray_record :=
| Info_initiating
| Info_found_fits (n : nat)
| Info_output_directory (output_directory : string)
| Info_configured (num : Z)
| Info_log_scaling_applied
| Info_clipping_applied
| Info_clahe_applied
| Info_grayscale_saved (image_name : string)
| Info_metadata_json_saved
| Error_no_data (fits_file : string)
| Info_merkle_root (root : string).

Section GrayscaleBatch.

Variable sha256_hexdigest : list Z -> string.

(** The arrays of the batch and the numpy and skimage operations of
    [apply_image_processing] on them: [np.log1p(a * log_scale)], the clip
    to the two percentiles, the scaling to [0..255] with its cast to
    [uint8], and [exposure.equalize_adapthist]; any of them may raise.
    [tobytes] is [a.tobytes()]. *)
Variable array : Type.
Variables log1p_scaled clipped scaled_to_uint8 equalized : array -> outcome array.
Variable tobytes : array -> list Z.

(** What [fits.open(fits_file)] gives. *)
Inductive hdul :=
| Unopened
| Opened (data : option array).

(** The files of a run: the image saved under its hash, and the
    [metadata.json] beside it (its time stamp and settings left out). *)
Inductive saved :=
| Saved_image (image_name : string) (image : array)
| Saved_metadata (processed_file image_path : string).

Record gray_world := { gray_logs : list gray_record; gray_saved : list saved }.

Definition gray_start : gray_world := {| gray_logs := []; gray_saved := [] |}.

Definition gray_log (r : gray_record) : M gray_world unit :=
  fun w => (Ok tt, {| gray_logs := gray_logs w ++ [r]; gray_saved := gray_saved w |}).

Definition gray_save (f : saved) : M gray_world unit :=
  fun w => (Ok tt, {| gray_logs := gray_logs w; gray_saved := gray_saved w ++ [f] |}).

Definition apply_image_processing (image_data : array) (cfg : settings)
  : M gray_world array :=
  let* image_data :=
    (if apply_log_scale cfg
     then let* scaled := lift (log1p_scaled image_data) in
          let* _ := gray_log Info_log_scaling_applied in
          ret scaled
     else ret image_data) in
  let* image_data :=
    (if apply_clipping cfg
     then let* clip := lift (clipped image_data) in
          let* _ := gray_log Info_clipping_applied in
          ret clip
     else ret image_data) in
  let* processed_image := lift (scaled_to_uint8 image_data) in
  if apply_clahe cfg
  then let* processed_image := lift (equalized processed_image) in
       let* _ := gray_log Info_clahe_applied in
       ret processed_image
  else ret processed_image.

Definition save_metadata_json (processed_file image_path : string) : M gray_world unit :=
  let* _ := gray_save (Saved_metadata processed_file image_path) in
  gray_log Info_metadata_json_saved.

(** [hash_file_name(processed_data.tobytes().decode('ISO-8859-1'))]. *)
Definition image_hash_of (processed_data : array) : string :=
  hash_file_name sha256_hexdigest (decode_latin1 (tobytes processed_data)).

(** The body of the loop of lines 109-133 for one file; [hashes] is the
    list the loop appends to. *)
Definition process_file (cfg : settings) (entry : string * hdul) (hashes : list string)
  : M gray_world (list string) :=
  match entry.2 with
  | Unopened => raise OSError
  | Opened None =>
      let* _ := gray_log (Error_no_data entry.1) in
      ret hashes
  | Opened (Some image_data) =>
      let* processed_data := apply_image_processing image_data cfg in
      let image_hash := image_hash_of processed_data in
      let image_path := image_hash +:+ ".png" in
      let* _ := gray_save (Saved_image image_path processed_data) in
      let* _ := gray_log (Info_grayscale_saved image_path) in
      let* _ := save_metadata_json entry.1 image_path in
      ret (hashes ++ [image_hash])
  end.

(** [process_fits_to_grayscale(fits_files, output_directory, config)];
    each file comes with what opening it gives, and [depth] is the
    recursion depth left for [create_merkle_root]. *)
Definition process_fits_to_grayscale (depth : nat) (fits_files : list (string * hdul))
    (output_directory : string) (cfg : settings) : M gray_world unit :=
  let* _ := gray_log (Info_output_directory output_directory) in
  let num := if 0 <? num_images cfg then num_images cfg
             else Z.of_nat (length fits_files) in
  let* _ := gray_log (Info_configured num) in
  let* hashes := for_each (take (Z.to_nat num) fits_files) (process_file cfg) [] in
  let* merkle_root := lift (create_merkle_root sha256_hexdigest depth hashes) in
  gray_log (Info_merkle_root merkle_root).

(** [main()]; [listing] is [os.listdir(image_directory)], each name with
    what opening the file gives. *)
Definition grayscaler_main (depth : nat) (listing : list (string * hdul))
  : M gray_world unit :=
  let fits_files := List.filter (fun entry => endswith entry.1 ".FIT") listing in
  let* _ := gray_log Info_initiating in
  let* _ := gray_log (Info_found_fits (length fits_files)) in
  process_fits_to_grayscale depth fits_files "processed_images" config.

End GrayscaleBatch.

Arguments Unopened {array}.
Arguments Opened {array} data.
Arguments Saved_image {array} image_name image.
Arguments Saved_metadata {array} processed_file image_path.
Arguments gray_logs {array} g.
Arguments gray_saved {array} g.
Arguments gray_start {array}.
Arguments gray_log {array} r _.
Arguments gray_save {array} f _.

(** ** Reference definitions of the statements *)

(** The Merkle accumulator as the specification words it: one level pairs
    the hashes left to right, the unpaired last hash of an odd level is
    hashed with the empty string on its right; levels repeat until one hash
    is left. *)
Section MerkleReference.

Variable sha256_hexdigest : list Z -> string.

Fixpoint pair_level (level : list string) : list string :=
  match level with
  | [] => []
  | [lhs] => [hash_file_name sha256_hexdigest (lhs +:+ "")]
  | lhs :: rhs :: rest =>
      hash_file_name sha256_hexdigest (lhs +:+ rhs) :: pair_level rest
  end.

Inductive merkle_root : list string -> string -> Prop :=
| root_single h : merkle_root [h] h
| root_level level root :
    (2 <= length level)%nat ->
    merkle_root (pair_level level) root ->
    merkle_root level root.

End MerkleReference.

(** The grid of [fits_to_tiles]: its cells in row-major order, the window
    of the raster a cell covers, and what the loop body makes of it. *)
Definition grid_cells (rows cols : Z) : list (Z * Z) :=
  flat_map (fun i => map (fun j => (i, j)) (Py.range cols)) (Py.range rows).

Definition tile_at (image_data : ndarray) (height width tile_size i j : Z) : ndarray :=
  Np.slice2 image_data height width
    (i * tile_size) ((i + 1) * tile_size) (j * tile_size) ((j + 1) * tile_size).

(** A tile is uniform (degenerate) when its minimum is its maximum. *)
Definition uniform (tile : ndarray) : bool :=
  match Np.min tile, Np.max tile with
  | Ok tile_min, Ok tile_max => tile_max =? tile_min
  | _, _ => false
  end.

Definition zero_tile (tile_size : Z) : ndarray :=
  {| shape := [tile_size; tile_size];
     buffer := repeat 0 (Z.to_nat (tile_size * (tile_size * 1))) |}.

Definition normalized_tile (tile : ndarray) (tile_size : Z) : ndarray :=
  match Np.min tile, Np.max tile with
  | Ok tile_min, Ok tile_max =>
      if tile_max =? tile_min then zero_tile tile_size
      else normalize tile tile_min tile_max
  | _, _ => zero_tile tile_size
  end.

Section Cells.

Variable sha256_hexdigest : list Z -> string.
Variables (fits_basename : string) (image_data : ndarray).
Variables height width tile_size : Z.

Definition cell_image (cell : Z * Z) : ndarray :=
  normalized_tile (tile_at image_data height width tile_size cell.1 cell.2) tile_size.

Definition cell_filename (cell : Z * Z) : string :=
  tile_id_of fits_basename cell.1 cell.2 +:+ ".png".

Definition cell_record (cell : Z * Z) : json :=
  tile_metadata (tile_id_of fits_basename cell.1 cell.2) (cell_filename cell)
    (calculate_hash sha256_hexdigest (cell_image cell)) cell.1 cell.2 tile_size.

Definition cell_file (cell : Z * Z) : string * file :=
  (cell_filename cell, Png (cell_image cell)).

Definition cell_warning (cell : Z * Z) : list log_record :=
  if uniform (tile_at image_data height width tile_size cell.1 cell.2)
  then [Warning_uniform_tile cell.1 cell.2] else [].

End Cells.

(** The fields of a manifest. *)

Fixpoint keys_are (names : list string) (fields : list (string * json)) : bool :=
  match names, fields with
  | [], [] => true
  | name :: names', (key, _) :: fields' => String.eqb name key && keys_are names' fields'
  | _, _ => false
  end.

Definition is_str (v : json) : bool := match v with JStr _ => true | _ => false end.

Definition is_int (v : json) : bool := match v with JInt _ => true | _ => false end.

Definition position_schema (v : json) : bool :=
  match v with
  | JObj fields =>
      keys_are ["x_start"; "y_start"; "x_end"; "y_end"] fields
      && forallb (fun kv => is_int kv.2) fields
  | _ => false
  end.

Definition tile_schema (v : json) : bool :=
  match v with
  | JObj ([(_, tile_id); (_, filename); (_, tile_hash); (_, position)] as fields) =>
      keys_are ["tile_id"; "filename"; "hash"; "position"] fields
      && is_str tile_id && is_str filename && is_str tile_hash
      && position_schema position
  | _ => false
  end.

(** A manifest of exactly three fields: [name_field] (a string), then
    [tile_size] (an integer), then [tiles] (a list of tile records). *)
Definition manifest_schema (name_field : string) (v : json) : bool :=
  match v with
  | JObj ([(_, name); (_, size); (_, JList tiles)] as fields) =>
      keys_are [name_field; "tile_size"; "tiles"] fields
      && is_str name && is_int size && forallb tile_schema tiles
  | _ => false
  end.

Definition is_png (f : string * file) : Prop := exists image, f.2 = Png image.

Definition tiles_invariant (tiles : list json) (w : world) : Prop :=
  forallb tile_schema tiles = true /\ Forall is_png (written w).

(** The manifest a run has written: its last file. *)
Definition manifest_written (w : world) : option json :=
  match last (written w) with
  | Some (_, JsonFile document) => Some document
  | _ => None
  end.

(** Typed records and the duplicate pairs of a sequence of them. *)

(** A tile record and a manifest as typed values, and the JSON
    [fits_to_tiles] writes for them. *)
Record tile_record := {
  rec_tile_id : string;
  rec_filename : string;
  rec_hash : string;
  rec_x_start : Z;
  rec_y_start : Z;
  rec_x_end : Z;
  rec_y_end : Z
}.

Definition tile_json (t : tile_record) : json :=
  JObj [("tile_id", JStr (rec_tile_id t));
        ("filename", JStr (rec_filename t));
        ("hash", JStr (rec_hash t));
        ("position", JObj [("x_start", JInt (rec_x_start t));
                          ("y_start", JInt (rec_y_start t));
                          ("x_end", JInt (rec_x_end t));
                          ("y_end", JInt (rec_y_end t))])].

Record manifest := {
  m_fits_file : string;
  m_tile_size : Z;
  m_tiles : list tile_record
}.

Definition manifest_json (m : manifest) : json :=
  metadata_dict (m_fits_file m) (m_tile_size m) (map tile_json (m_tiles m)).

(** The first record seen with a hash. *)
Definition first_seen (seen : list tile_record) (h : string) : option tile_record :=
  find (fun t => String.eqb (rec_hash t) h) seen.

(** The duplicate pairs of a sequence of records, as the specification
    words them: each record whose hash is the hash of an earlier record
    gives one pair, with the first earlier record of that hash. *)
Definition reference_pairs (records : list tile_record) : list (tile_record * tile_record) :=
  flat_map
    (fun k => match records !! k with
              | Some t => match first_seen (take k records) (rec_hash t) with
                          | Some first => [(t, first)]
                          | None => []
                          end
              | None => []
              end)
    (seq 0 (length records)).

Definition pair_json (p : tile_record * tile_record) : duplicate :=
  (JStr (rec_tile_id p.1), JStr (rec_filename p.1),
   JStr (rec_tile_id p.2), JStr (rec_filename p.2)).

(** The same pairs, with the records seen so far as an accumulator. *)
Fixpoint pairs_after (seen rest : list tile_record) : list (tile_record * tile_record) :=
  match rest with
  | [] => []
  | t :: rest' =>
      match first_seen seen (rec_hash t) with
      | Some first => (t, first) :: pairs_after (seen ++ [t]) rest'
      | None => pairs_after (seen ++ [t]) rest'
      end
  end.

(** What [hash_dict] holds once the records [seen] have been scanned: under
    each hash, the id and the file name of the first record of that hash. *)
Definition index_of (seen : list tile_record) (s : scan) : Prop :=
  forall key,
    hash_dict s !! key =
    match key with
    | inr h => (fun first => (JStr (rec_tile_id first), JStr (rec_filename first)))
                 <$> first_seen seen h
    | inl _ => None
    end.

(** A corpus: the manifest files found, each readable as a manifest or not. *)
Definition corpus_files (corpus : list (string * option manifest)) : list (string * option json) :=
  map (fun entry => (entry.1, manifest_json <$> entry.2)) corpus.

(** The records of the readable manifests of a corpus, in scan order. *)
Definition corpus_records (corpus : list (string * option manifest)) : list tile_record :=
  flat_map (fun entry => match entry.2 with Some m => m_tiles m | None => [] end) corpus.

(** Samples of a window and their normalization. *)

(** The sample of the raster under the sample [(dy, dx)] of the tile. *)
Definition window_sample (image_data : ndarray) (width tile_size i j dy dx : Z) : Z :=
  Np.item2 image_data width (i * tile_size + dy) (j * tile_size + dx).

(** The sample the specification asks for: the nearest integer to
    [(v - min) / (max - min) * 65535], as an exact quotient. *)
Definition rounded_sample (tile_min tile_max v : Z) : Z :=
  (2 * ((v - tile_min) * 65535) + (tile_max - tile_min)) / (2 * (tile_max - tile_min)).

(** The integer part of the exact quotient [(v - min) * 65535 / (max - min)]. *)
Definition floor_sample (tile_min tile_max v : Z) : Z :=
  (v - tile_min) * 65535 / (tile_max - tile_min).

(** The differences [a <= d] of 8-bit samples on which the [float64]
    computation gives the integer part of the exact quotient. *)
Definition float64_is_floor_upto (bound : nat) : bool :=
  forallb
    (fun d => forallb (fun a => normalize_sample 0 d a =? floor_sample 0 d a)
                      (map Z.of_nat (seq 0 (S (Z.to_nat d)))))
    (map Z.of_nat (seq 1 bound)).

(** Rectangles of a manifest on the canvas. *)

(** The pixel block of a tile's file as it fits the tile's rectangle: the
    image read and its broadcast rows and columns, or nothing when the file
    cannot be read or its shape cannot be broadcast to the rectangle. *)
Definition tile_block (imread : string -> option ndarray) (t : tile_record)
  : option (ndarray * (Z * Z)) :=
  match imread (rec_filename t) with
  | Some tile_image =>
      match broadcast2 (shape tile_image)
              (rec_y_end t - rec_y_start t) (rec_x_end t - rec_x_start t) with
      | Some dims => Some (tile_image, dims)
      | None => None
      end
  | None => None
  end.

Definition unusable (imread : string -> option ndarray) (t : tile_record) : bool :=
  match tile_block imread t with Some _ => false | None => true end.

(** The rectangle of a record. *)
Definition inside (t : tile_record) (y x : Z) : Prop :=
  rec_y_start t <= y < rec_y_end t /\ rec_x_start t <= x < rec_x_end t.

Definition well_placed (t : tile_record) : Prop :=
  0 <= rec_y_start t <= rec_y_end t /\ 0 <= rec_x_start t <= rec_x_end t.

Fixpoint non_overlapping (tiles : list tile_record) : Prop :=
  match tiles with
  | [] => True
  | t :: rest =>
      (forall u y x, In u rest -> inside t y x -> ~ inside u y x)
      /\ non_overlapping rest
  end.

(** The greatest value of a coordinate over a non-empty list of records. *)
Definition greatest (f : tile_record -> Z) (tiles : list tile_record) (bound : Z) : Prop :=
  (forall t, In t tiles -> f t <= bound) /\ exists t, In t tiles /\ f t = bound.

(** The canvas once a record's tile has been placed, or skipped. *)
Definition painted (imread : string -> option ndarray) (width : Z)
    (c : ndarray) (t : tile_record) : ndarray :=
  match tile_block imread t with
  | Some (tile_image, (sh, sw)) =>
      assign_region c width (rec_y_start t) (rec_y_end t)
        (rec_x_start t) (rec_x_end t) tile_image sh sw
  | None => c
  end.

Definition fits_canvas (height width : Z) (t : tile_record) : Prop :=
  well_placed t /\ rec_y_end t <= height /\ rec_x_end t <= width.

Definition read_errors (imread : string -> option ndarray)
    (tiles : list tile_record) : list log_record :=
  map (fun t => Error_reading_tile (rec_filename t)) (filter (unusable imread) tiles).

(** ** Samples, records of cells and files read back *)

(** A sample of [np.uint16]. *)
Definition is_uint16 (v : Z) : Prop := 0 <= v <= 65535.

(** [p] holds on [count] consecutive integers from [d] on. *)
Fixpoint holds_from (p : Z -> bool) (d : Z) (count : nat) : bool :=
  match count with
  | O => true
  | S count' => p d && holds_from p (d + 1) count'
  end.

(** With a difference [d] of maximum and minimum, the minimum is written as
    0 and the maximum as 65535. *)
Definition ends_of_range (d : Z) : bool :=
  (normalize_sample 0 d 0 =? 0) && (normalize_sample 0 d d =? 65535).

(** Whether a character occurs in a string. *)
Fixpoint has_char (c : ascii) (s : string) : bool :=
  match s with
  | EmptyString => false
  | String a rest => Ascii.eqb a c || has_char c rest
  end.

(** The typed record of a grid cell. *)
Definition cell_tile_record (sha256_hexdigest : list Z -> string)
    (fits_basename : string) (image_data : ndarray) (height width tile_size : Z)
    (cell : Z * Z) : tile_record :=
  {| rec_tile_id := tile_id_of fits_basename cell.1 cell.2;
     rec_filename := cell_filename fits_basename cell;
     rec_hash := calculate_hash sha256_hexdigest
                   (cell_image image_data height width tile_size cell);
     rec_x_start := cell.2 * tile_size;
     rec_y_start := cell.1 * tile_size;
     rec_x_end := (cell.2 + 1) * tile_size;
     rec_y_end := (cell.1 + 1) * tile_size |}.


(** [cv2.imread(name, cv2.IMREAD_UNCHANGED)] in a directory that holds the
    files written: the array of the image file of that name (the last one
    written under it), [None] when there is no such image. *)
Definition read_png (files : list (string * file)) (tile_filename : string)
  : option ndarray :=
  match find (fun f => String.eqb f.1 tile_filename) (rev files) with
  | Some (_, Png image) => Some image
  | _ => None
  end.

(** The canvas [np.zeros((height, width), dtype=np.uint16)]. *)
Definition blank_canvas (height width : Z) : ndarray :=
  {| shape := [height; width];
     buffer := repeat 0 (Z.to_nat (height * (width * 1))) |}.

(** What [find_duplicates] logs at the end for the pairs it has collected. *)
Definition duplicates_report (ds : list duplicate) : list log_record :=
  match ds with
  | [] => [Info_no_duplicates]
  | _ => Info_duplicates_found (length ds) :: map Info_duplicate ds
  end.




(** The batch of [process_fits_to_grayscale] as its statements word it. *)
Section BatchReference.

Variable sha256_hexdigest : list Z -> string.
Variable array : Type.
Variables log1p_scaled clipped scaled_to_uint8 equalized : array -> outcome array.
Variable tobytes : array -> list Z.

Local Abbreviation image_hash := (image_hash_of sha256_hexdigest array tobytes).

(** The array [apply_image_processing] returns, and what it logs when no
    operation raises. *)
Definition processed_of (cfg : settings) (image_data : array) : outcome array :=
  let after (step : array -> outcome array) (enabled : bool) (previous : outcome array) :=
    match previous with
    | Ok a => if enabled then step a else Ok a
    | Raise e => Raise e
    end in
  after equalized (apply_clahe cfg)
    (after scaled_to_uint8 true
       (after clipped (apply_clipping cfg)
          (after log1p_scaled (apply_log_scale cfg) (Ok image_data)))).

Definition processing_logs (cfg : settings) : list gray_record :=
  (if apply_log_scale cfg then [Info_log_scaling_applied] else [])
  ++ (if apply_clipping cfg then [Info_clipping_applied] else [])
  ++ (if apply_clahe cfg then [Info_clahe_applied] else []).

(** The files of a batch as the loop meets them: without data, or with the
    array their data is processed to. *)
Inductive batch_file :=
| No_data (fits_file : string)
| With_data (fits_file : string) (image_data processed_data : array).

Definition batch_entry (f : batch_file) : string * hdul array :=
  match f with
  | No_data fits_file => (fits_file, Opened None)
  | With_data fits_file image_data _ => (fits_file, Opened (Some image_data))
  end.

Definition batch_hashes (files : list batch_file) : list string :=
  flat_map (fun f => match f with
                     | No_data _ => []
                     | With_data _ _ processed_data => [image_hash processed_data]
                     end) files.

Definition batch_logs (cfg : settings) (files : list batch_file) : list gray_record :=
  flat_map (fun f => match f with
                     | No_data fits_file => [Error_no_data fits_file]
                     | With_data _ _ processed_data =>
                         processing_logs cfg
                         ++ [Info_grayscale_saved (image_hash processed_data +:+ ".png");
                             Info_metadata_json_saved]
                     end) files.

Definition batch_saved (files : list batch_file) : list (saved array) :=
  flat_map (fun f => match f with
                     | No_data _ => []
                     | With_data fits_file _ processed_data =>
                         [Saved_image (image_hash processed_data +:+ ".png")
                            processed_data;
                          Saved_metadata fits_file
                            (image_hash processed_data +:+ ".png")]
                     end) files.

Definition well_processed (cfg : settings) (f : batch_file) : Prop :=
  match f with
  | No_data _ => True
  | With_data _ image_data processed_data =>
      processed_of cfg image_data = Ok processed_data
  end.

End BatchReference.

Arguments No_data {array} fits_file.
Arguments With_data {array} fits_file image_data processed_data.
Arguments batch_entry {array} f.

(** A byte. *)
Definition is_byte (b : Z) : Prop := 0 <= b <= 255.

(** ** Values of the examples *)

(** A stand-in for SHA-256 where an example runs the code: the decimal sum
    of the bytes hashed. *)
Definition byte_sum_digest (data : list Z) : string :=
  Py.str (fold_left Z.add data 0).

(** A 3 x 3 raster, smaller than a tile of 500. *)
Definition small_raster : ndarray :=
  {| shape := [3; 3]; buffer := [1; 2; 3; 4; 5; 6; 7; 8; 9] |}.

(** A 2 x 2 raster of minimum 0 and maximum 4. *)
Definition ramp_raster : ndarray :=
  {| shape := [2; 2]; buffer := [0; 1; 4; 4] |}.

(** A 2 x 4 raster: its left tile of size 2 varies, its right tile is
    uniform. *)
Definition half_flat_raster : ndarray :=
  {| shape := [2; 4]; buffer := [0; 1; 5; 5; 2; 2; 5; 5] |}.

(** A 3-dimensional array (a data cube of one plane). *)
Definition cube : ndarray :=
  {| shape := [1; 2; 2]; buffer := [1; 2; 3; 4] |}.

(** A manifest of two tiles of size 2 side by side, and a tile store that
    holds the first tile only. *)
Definition two_tiles : manifest :=
  {| m_fits_file := "a.fits";
     m_tile_size := 2;
     m_tiles :=
       [{| rec_tile_id := "a.fits_tile_0_0"; rec_filename := "a.fits_tile_0_0.png";
           rec_hash := "h0";
           rec_x_start := 0; rec_y_start := 0; rec_x_end := 2; rec_y_end := 2 |};
        {| rec_tile_id := "a.fits_tile_0_1"; rec_filename := "a.fits_tile_0_1.png";
           rec_hash := "h1";
           rec_x_start := 2; rec_y_start := 0; rec_x_end := 4; rec_y_end := 2 |}] |}.

Definition first_tile_only (tile_filename : string) : option ndarray :=
  if String.eqb tile_filename "a.fits_tile_0_0.png"
  then Some {| shape := [2; 2]; buffer := [10; 20; 30; 40] |}
  else None.

(** A manifest of one tile of size 2, and a tile store whose file for it is
    a 1 x 1 image. *)
Definition one_tile : manifest :=
  {| m_fits_file := "b.fits";
     m_tile_size := 2;
     m_tiles :=
       [{| rec_tile_id := "b.fits_tile_0_0"; rec_filename := "b.fits_tile_0_0.png";
           rec_hash := "h0";
           rec_x_start := 0; rec_y_start := 0; rec_x_end := 2; rec_y_end := 2 |}] |}.

Definition one_pixel_store (tile_filename : string) : option ndarray :=
  Some {| shape := [1; 1]; buffer := [7] |}.

(** A 2 x 4 raster of one value: both its tiles of size 2 are uniform. *)
Definition blank_frame : ndarray :=
  {| shape := [2; 4]; buffer := [7; 7; 7; 7; 7; 7; 7; 7] |}.

(** A manifest whose two tiles of size 2 cover the same rectangle, and a
    tile store that holds both. *)
Definition stacked_tiles : manifest :=
  {| m_fits_file := "s.fits";
     m_tile_size := 2;
     m_tiles :=
       [{| rec_tile_id := "s.fits_tile_0_0"; rec_filename := "lower.png";
           rec_hash := "h0";
           rec_x_start := 0; rec_y_start := 0; rec_x_end := 2; rec_y_end := 2 |};
        {| rec_tile_id := "s.fits_tile_0_0"; rec_filename := "upper.png";
           rec_hash := "h1";
           rec_x_start := 0; rec_y_start := 0; rec_x_end := 2; rec_y_end := 2 |}] |}.

Definition stacked_store (tile_filename : string) : option ndarray :=
  if String.eqb tile_filename "lower.png"
  then Some {| shape := [2; 2]; buffer := [1; 2; 3; 4] |}
  else Some {| shape := [2; 2]; buffer := [5; 6; 7; 8] |}.

(** A manifest object that names its source [source_name]. *)
Definition renamed_manifest : list (string * json) :=
  [("source_name", JStr "b.fits"); ("tile_size", JInt 2);
   ("tiles", JList (map tile_json (m_tiles one_tile)))].

(** A tile entry without a hash. *)
Definition hashless_tile : json :=
  JObj [("tile_id", JStr "b.fits_tile_0_1"); ("filename", JStr "b.fits_tile_0_1.png")].

(** An array operation that changes nothing, and settings that switch
    the optional operations off and select every file. *)
Definition unchanged (a : ndarray) : outcome ndarray := Ok a.

Definition every_file : settings :=
  {| num_images := 0; apply_log_scale := false; apply_clipping := false;
     apply_clahe := false |}.

(** A 1 x 1 image whose sample has a low byte of 200. *)
Definition bright_pixel : ndarray := {| shape := [1; 1]; buffer := [200] |}.

(** * Properties *)

(** ** The Merkle root *)

Section MerkleFacts.

Variable sha256_hexdigest : list Z -> string.

Local Abbreviation Hash := (hash_file_name sha256_hexdigest).
Local Abbreviation create := (create_merkle_root sha256_hexdigest).
Local Abbreviation level_of := (pair_level sha256_hexdigest).
Local Abbreviation root_of := (merkle_root sha256_hexdigest).

Lemma range_step2_SS n :
  Py.range_step2 (S (S n)) = 0%nat :: map (fun i => S (S i)) (Py.range_step2 n).
Proof.
  unfold Py.range_step2.
  change (Nat.div2 (S (S (S n)))) with (S (Nat.div2 (S n))).
  cbn [seq map]. f_equal.
  rewrite <- seq_shift, !map_map.
  apply map_ext. intros k. lia.
Qed.

(** The loop of lines 93-96 builds the next level of the reference. *)
Lemma new_hashes_pair_level (hashes : list string) :
  map (fun i => Hash (nth i hashes "" +:+
                   (if (i + 1 <? length hashes)%nat then nth (i + 1) hashes "" else "")))
      (Py.range_step2 (length hashes))
  = level_of hashes.
Proof.
  induction hashes as [hashes IH] using (induction_ltof1 _ (@length string)).
  unfold ltof in IH.
  destruct hashes as [|a [|b rest]]; [reflexivity | reflexivity |].
  cbn [length]. rewrite range_step2_SS. cbn [map pair_level].
  f_equal.
  rewrite map_map. rewrite <- (IH rest) by (cbn; lia).
  apply map_ext. intros i. cbn [nth length Nat.add].
  replace (S (S i) + 1)%nat with (S (S (i + 1))) by lia.
  cbn [nth]. reflexivity.
Qed.

Lemma pair_level_length (level : list string) :
  length (level_of level) = Nat.div2 (S (length level)).
Proof.
  induction level as [level IH] using (induction_ltof1 _ (@length string)).
  unfold ltof in IH.
  destruct level as [|a [|b rest]]; [reflexivity | reflexivity |].
  cbn [pair_level length]. rewrite (IH rest) by (cbn; lia). reflexivity.
Qed.

Lemma div2_S_bounds n : (2 <= n -> 1 <= Nat.div2 (S n) < n)%nat.
Proof.
  intros Hn. pose proof (Nat.div2_odd (S n)) as Ho.
  destruct (Nat.odd (S n)); cbn [Nat.b2n] in Ho; lia.
Qed.

Lemma merkle_root_functional hashes r1 r2 :
  root_of hashes r1 -> root_of hashes r2 -> r1 = r2.
Proof.
  intros D1. revert r2.
  induction D1 as [h | level root Hlen _ IH]; intros r2 D2.
  - inversion D2; subst; [reflexivity | cbn in *; lia].
  - inversion D2; subst; [cbn in *; lia | auto].
Qed.

(** The next level of [n >= 2] hashes is one level less deep. *)
Lemma log2_up_next_level n :
  (2 <= n -> S (Nat.log2_up (Nat.div2 (S n))) <= Nat.log2_up n)%nat.
Proof.
  intros Hn.
  destruct (Nat.log2_up_spec n) as [_ Hup]; [lia |].
  assert (0 < Nat.log2_up n)%nat as Hpos by (apply Nat.log2_up_pos; lia).
  destruct (Nat.log2_up n) as [|k]; [lia |].
  rewrite Nat.pow_succ_r' in Hup.
  apply le_n_S, Nat.log2_up_le_pow2.
  - pose proof (div2_S_bounds n Hn). lia.
  - pose proof (Nat.div2_odd (S n)) as Ho.
    destruct (Nat.odd (S n)); cbn [Nat.b2n] in Ho; lia.
Qed.

Lemma create_merkle_root_runs depth :
  forall hashes, (1 <= length hashes)%nat -> (Nat.log2_up (length hashes) < depth)%nat ->
    exists root, create depth hashes = Ok root /\ root_of hashes root.
Proof.
  induction depth as [|depth IH]; intros hashes Hlen Hdepth; [lia |].
  cbn [create_merkle_root].
  destruct (Nat.eqb_spec (length hashes) 1) as [H1 | H1].
  - destruct hashes as [|h [|? ?]]; try discriminate.
    exists h. split; [reflexivity | constructor].
  - rewrite new_hashes_pair_level.
    assert (2 <= length hashes)%nat as H2 by lia.
    destruct (IH (level_of hashes)) as (root & Hrun & Hroot).
    { rewrite pair_level_length. pose proof (div2_S_bounds _ H2). lia. }
    { rewrite pair_level_length. pose proof (log2_up_next_level _ H2). lia. }
    exists root. split; [exact Hrun | now apply root_level].
Qed.

(** C4. On a non-empty list of [n] hashes the recursion returns, with any
    recursion limit above [ceil(log2 n)], the root of the reference
    algorithm, and that root is unique; the root of a one-element list is
    its element. *)
Theorem create_merkle_root_reference (hashes : list string) :
  hashes <> [] ->
  exists root,
    merkle_root sha256_hexdigest hashes root
    /\ (forall root', merkle_root sha256_hexdigest hashes root' -> root' = root)
    /\ (forall depth, (Nat.log2_up (length hashes) < depth)%nat ->
          create_merkle_root sha256_hexdigest depth hashes = Ok root)
    /\ (forall h, hashes = [h] -> root = h).
Proof.
  intros Hne.
  assert (1 <= length hashes)%nat as H1 by (destruct hashes; [congruence | cbn; lia]).
  destruct (create_merkle_root_runs (S (Nat.log2_up (length hashes))) hashes)
    as (root & _ & Hroot); [lia | lia |].
  exists root. repeat split.
  - exact Hroot.
  - intros root' Hroot'. eapply merkle_root_functional; eassumption.
  - intros depth Hd.
    destruct (create_merkle_root_runs depth hashes) as (root' & Hrun & Hroot'); [lia | lia |].
    rewrite Hrun. f_equal. eapply merkle_root_functional; eassumption.
  - intros h ->. eapply merkle_root_functional; [exact Hroot | constructor].
Qed.

(** C7. On the empty list the recursion never reaches its base case: the
    next level of [[]] is [[]] again, so whatever the recursion limit the
    call ends in [RecursionError], with no result. *)
Theorem create_merkle_root_empty_exhausts_stack (depth : nat) :
  create_merkle_root sha256_hexdigest depth [] = Raise RecursionError.
Proof.
  induction depth as [|depth IH]; [reflexivity |].
  cbn [create_merkle_root length Nat.eqb]. exact IH.
Qed.

End MerkleFacts.

(** ** The tile splitter *)

Lemma slice_index_inside len i : 0 <= i <= len -> Py.slice_index len i = i.
Proof.
  intros Hi. unfold Py.slice_index.
  destruct (Z.ltb_spec i 0); lia.
Qed.

Lemma slice_indices_window len a n :
  0 <= a -> 0 <= n -> a + n <= len ->
  Py.slice_indices len a (a + n) = map (fun k => a + Z.of_nat k) (seq 0 (Z.to_nat n)).
Proof.
  intros Ha Hn Hlen. unfold Py.slice_indices.
  rewrite !slice_index_inside by lia.
  replace (a + n - a) with n by lia. reflexivity.
Qed.

(** A cell of the grid lies inside the raster. *)
Lemma cell_inside len tile_size i :
  0 < tile_size -> 0 <= i < len / tile_size ->
  0 <= i * tile_size /\ i * tile_size + tile_size <= len.
Proof.
  intros HT Hi. split; [nia |].
  pose proof (Z.mul_div_le len tile_size HT). nia.
Qed.

Lemma tile_at_window image_data height width tile_size i j :
  0 < tile_size -> 0 <= i < height / tile_size -> 0 <= j < width / tile_size ->
  tile_at image_data height width tile_size i j =
  {| shape := [tile_size; tile_size];
     buffer := flat_map (fun y => map (fun x => Np.item2 image_data width y x)
                                      (map (fun k => j * tile_size + Z.of_nat k)
                                           (seq 0 (Z.to_nat tile_size))))
                        (map (fun k => i * tile_size + Z.of_nat k)
                             (seq 0 (Z.to_nat tile_size))) |}.
Proof.
  intros HT Hi Hj. unfold tile_at, Np.slice2.
  destruct (cell_inside height tile_size i HT Hi) as [Hi0 Hi1].
  destruct (cell_inside width tile_size j HT Hj) as [Hj0 Hj1].
  replace ((i + 1) * tile_size) with (i * tile_size + tile_size) by lia.
  replace ((j + 1) * tile_size) with (j * tile_size + tile_size) by lia.
  rewrite !slice_indices_window by lia.
  rewrite !length_map, !length_seq, Z2Nat.id by lia. reflexivity.
Qed.

Lemma tile_at_nonempty image_data height width tile_size i j :
  0 < tile_size -> 0 <= i < height / tile_size -> 0 <= j < width / tile_size ->
  exists v vs, buffer (tile_at image_data height width tile_size i j) = v :: vs.
Proof.
  intros HT Hi Hj. rewrite tile_at_window by assumption. cbn [buffer].
  destruct (Z.to_nat tile_size) as [|n] eqn:En; [lia |].
  cbn [seq map flat_map app]. eauto.
Qed.

(** An image with a sample is written, and the handler of the [try] is not
    run. *)
Lemma try_imwrite name image (handler : exn -> M world unit) w :
  buffer image <> [] ->
  try_except (imwrite name image) handler w = write name (Png image) w.
Proof.
  intros Hbuf. unfold try_except, imwrite.
  destruct (buffer image); [congruence | reflexivity].
Qed.

Lemma repeat_nonempty {A} (a : A) (n : Z) : 0 < n -> repeat a (Z.to_nat n) <> [].
Proof.
  intros Hn. destruct (Z.to_nat n) eqn:En; [lia | discriminate].
Qed.

Section SplitterFacts.

Variable sha256_hexdigest : list Z -> string.
Variables (fits_basename : string) (image_data : ndarray).
Variables height width tile_size : Z.

Local Abbreviation record := (cell_record sha256_hexdigest fits_basename image_data height width tile_size).
Local Abbreviation tile_file := (cell_file fits_basename image_data height width tile_size).
Local Abbreviation warning := (cell_warning image_data height width tile_size).
Local Abbreviation body := (process_tile sha256_hexdigest fits_basename image_data height width tile_size).

(** Inside the grid the loop body raises nothing: it logs the warning of a
    uniform tile, writes the tile file and appends the tile's record. *)
Lemma process_tile_in_grid i j tiles w :
  0 < tile_size -> 0 <= i < height / tile_size -> 0 <= j < width / tile_size ->
  body i j tiles w =
  (Ok (tiles ++ [record (i, j)]),
   {| logs := logs w ++ warning (i, j); written := written w ++ [tile_file (i, j)] |}).
Proof.
  intros HT Hi Hj.
  destruct (tile_at_nonempty image_data height width tile_size i j HT Hi Hj)
    as (v & vs & Hbuf).
  unfold process_tile, cell_record, cell_file, cell_warning, cell_image,
    cell_filename, normalized_tile, uniform.
  cbn [fst snd].
  change (Np.slice2 image_data height width (i * tile_size) ((i + 1) * tile_size)
            (j * tile_size) ((j + 1) * tile_size))
    with (tile_at image_data height width tile_size i j).
  set (tile := tile_at image_data height width tile_size i j) in *.
  unfold Np.min, Np.max. rewrite Hbuf.
  unfold bind, lift, ret, log.
  destruct (fold_left Z.max vs v =? fold_left Z.min vs v) eqn:Eu.
  - unfold Np.zeros. cbn [existsb].
    destruct (Z.ltb_spec tile_size 0); [lia |]. cbn [orb].
    rewrite try_imwrite by (cbn [buffer fold_right]; apply repeat_nonempty; nia).
    unfold write. cbn [logs written fold_right]. reflexivity.
  - rewrite try_imwrite by (unfold normalize; cbn [buffer]; now rewrite Hbuf).
    unfold write. cbn [logs written]. rewrite app_nil_r. reflexivity.
Qed.

Lemma range_bounds n k : In k (Py.range n) -> 0 <= k < n.
Proof.
  unfold Py.range. rewrite in_map_iff. intros (m & <- & Hm).
  apply in_seq in Hm. lia.
Qed.

(** One row of the grid: the inner loop of lines 114-153. *)
Lemma inner_loop_in_grid i js :
  0 < tile_size -> 0 <= i < height / tile_size ->
  (forall j, In j js -> 0 <= j < width / tile_size) ->
  forall tiles w,
    for_each js (body i) tiles w =
    (Ok (tiles ++ map (fun j => record (i, j)) js),
     {| logs := logs w ++ flat_map (fun j => warning (i, j)) js;
        written := written w ++ map (fun j => tile_file (i, j)) js |}).
Proof.
  intros HT Hi. induction js as [|j js IH]; intros Hjs tiles w.
  - cbn. rewrite !app_nil_r. destruct w; reflexivity.
  - cbn [for_each]. unfold bind at 1.
    rewrite process_tile_in_grid by (auto using in_eq).
    rewrite IH by (intros; apply Hjs; now right).
    cbn [logs written map flat_map].
    rewrite <- !app_assoc. reflexivity.
Qed.

(** The whole grid: the nested loops of lines 113-153. *)
Lemma outer_loop_in_grid rows cols :
  0 < tile_size ->
  (forall i, In i rows -> 0 <= i < height / tile_size) ->
  (forall j, In j cols -> 0 <= j < width / tile_size) ->
  forall tiles w,
    for_each rows (fun i => for_each cols (body i)) tiles w =
    (Ok (tiles ++ map record (flat_map (fun i => map (fun j => (i, j)) cols) rows)),
     {| logs := logs w ++ flat_map warning
                            (flat_map (fun i => map (fun j => (i, j)) cols) rows);
        written := written w ++ map tile_file
                                  (flat_map (fun i => map (fun j => (i, j)) cols) rows) |}).
Proof.
  intros HT Hrows Hcols. induction rows as [|i rows IH]; intros tiles w.
  - cbn. rewrite !app_nil_r. destruct w; reflexivity.
  - cbn [for_each]. unfold bind at 1.
    rewrite inner_loop_in_grid by (auto using in_eq).
    rewrite IH by (intros; apply Hrows; now right).
    cbn [logs written flat_map].
    rewrite !map_app, !flat_map_app, !map_map, <- !app_assoc.
    rewrite (flat_map_concat_map warning (map _ cols)), map_map.
    rewrite <- flat_map_concat_map. reflexivity.
Qed.

(** The run of [fits_to_tiles] on a 2-D raster in which at least one full
    tile fits: every cell of the grid, in row-major order, gives a tile file
    and a record, and the manifest is written last. *)
Lemma fits_to_tiles_grid :
  shape image_data = [height; width] ->
  0 < tile_size -> tile_size <= height -> tile_size <= width ->
  fits_to_tiles sha256_hexdigest fits_basename (PrimaryHDU (Some image_data))
    tile_size start =
  let cells := grid_cells (height / tile_size) (width / tile_size) in
  (Ok tt,
   {| logs := flat_map warning cells
              ++ [Info_completed (width / tile_size * (height / tile_size));
                  Info_metadata_saved (fits_basename +:+ "_metadata.json")];
      written := map tile_file cells
                 ++ [(fits_basename +:+ "_metadata.json",
                      JsonFile (metadata_dict fits_basename tile_size
                                  (map record cells)))] |}).
Proof.
  intros Hshape HT Hh Hw. unfold fits_to_tiles. rewrite Hshape.
  unfold Py.floordiv. destruct (Z.eqb_spec tile_size 0) as [|_]; [lia |].
  unfold bind at 1. unfold lift at 1. unfold bind at 1. unfold lift at 1.
  unfold bind at 1.
  rewrite outer_loop_in_grid by (auto using range_bounds).
  fold (grid_cells (height / tile_size) (width / tile_size)).
  assert (0 < height / tile_size) by (apply Z.div_str_pos; lia).
  assert (0 < width / tile_size) by (apply Z.div_str_pos; lia).
  unfold Py.truediv_raises.
  destruct (Z.eqb_spec (width / tile_size * (height / tile_size)) 0) as [|_]; [nia |].
  unfold try_except, bind, lift, log, write. cbn [logs written start app].
  rewrite <- app_assoc. reflexivity.
Qed.

End SplitterFacts.

(** *** Row-major indexing *)

Lemma flat_map_lookup_block {A B} (g : A -> list B) (n : nat) (l : list A)
    (r c : nat) (x : A) :
  (forall a, length (g a) = n) -> l !! r = Some x -> (c < n)%nat ->
  flat_map g l !! (r * n + c)%nat = g x !! c.
Proof.
  intros Hg. revert r. induction l as [|a l IH]; intros r Hr Hc; [done |].
  cbn [flat_map]. destruct r as [|r]; cbn in Hr.
  - injection Hr as ->. cbn [Nat.mul Nat.add]. apply lookup_app_l. now rewrite Hg.
  - rewrite lookup_app_r by (rewrite Hg; lia).
    rewrite Hg. replace (S r * n + c - n)%nat with (r * n + c)%nat by lia.
    now apply IH.
Qed.

Lemma flat_map_length_block {A B} (g : A -> list B) (n : nat) (l : list A) :
  (forall a, length (g a) = n) -> length (flat_map g l) = (length l * n)%nat.
Proof.
  intros Hg. induction l as [|a l IH]; [reflexivity |].
  cbn [flat_map length]. rewrite length_app, Hg, IH. lia.
Qed.

Lemma range_length n : length (Py.range n) = Z.to_nat n.
Proof. unfold Py.range. now rewrite length_map, length_seq. Qed.

Lemma range_lookup n k : (k < Z.to_nat n)%nat -> Py.range n !! k = Some (Z.of_nat k).
Proof.
  intros Hk. unfold Py.range.
  change (map Z.of_nat (seq 0 (Z.to_nat n))) with (Z.of_nat <$> seq 0 (Z.to_nat n)).
  rewrite list_lookup_fmap, lookup_seq_lt by assumption. reflexivity.
Qed.

Lemma grid_cells_length rows cols :
  0 <= rows -> 0 <= cols -> length (grid_cells rows cols) = Z.to_nat (rows * cols).
Proof.
  intros Hr Hc. unfold grid_cells.
  rewrite (flat_map_length_block _ (Z.to_nat cols)).
  - rewrite range_length. lia.
  - intros i. now rewrite length_map, range_length.
Qed.

Lemma grid_cells_lookup rows cols i j :
  0 <= i < rows -> 0 <= j < cols ->
  grid_cells rows cols !! Z.to_nat (i * cols + j) = Some (i, j).
Proof.
  intros Hi Hj. unfold grid_cells.
  replace (Z.to_nat (i * cols + j))
    with (Z.to_nat i * Z.to_nat cols + Z.to_nat j)%nat by nia.
  rewrite (flat_map_lookup_block _ (Z.to_nat cols) _ _ _ i).
  - change (map (fun j0 => (i, j0)) (Py.range cols))
      with ((fun j0 => (i, j0)) <$> Py.range cols).
    rewrite list_lookup_fmap, range_lookup by lia.
    cbn. now rewrite Z2Nat.id by lia.
  - intros a. now rewrite length_map, range_length.
  - rewrite range_lookup by lia. now rewrite Z2Nat.id by lia.
  - lia.
Qed.

Lemma grid_cells_in rows cols i j :
  In (i, j) (grid_cells rows cols) <-> 0 <= i < rows /\ 0 <= j < cols.
Proof.
  unfold grid_cells. rewrite in_flat_map. split.
  - intros (i' & Hi' & Hin). apply in_map_iff in Hin as (j' & [= <- <-] & Hj').
    split; now apply range_bounds.
  - intros [Hi Hj]. exists i. split.
    + apply list_elem_of_In, list_elem_of_lookup. exists (Z.to_nat i).
      rewrite range_lookup by lia. now rewrite Z2Nat.id by lia.
    + apply in_map. apply list_elem_of_In, list_elem_of_lookup. exists (Z.to_nat j).
      rewrite range_lookup by lia. now rewrite Z2Nat.id by lia.
Qed.

Section SplitterClaims.

Variable sha256_hexdigest : list Z -> string.
Variables (fits_basename : string) (image_data : ndarray).
Variables height width tile_size : Z.

Lemma empty_rows_loop {A} (body : Z -> Z -> list A -> M world (list A)) rows tiles w :
  for_each rows (fun i => for_each [] (body i)) tiles w = (Ok tiles, w).
Proof.
  induction rows as [|i rows IH]; [reflexivity |].
  cbn [for_each]. unfold bind at 1. cbn [for_each ret]. exact IH.
Qed.

(** C1, as the code runs it when no full tile fits (the raster is lower or
    narrower than a tile): the grid is empty, the loops make nothing, and
    the average time per tile divides by the zero tile count, so the call
    ends in [ZeroDivisionError] before any manifest is written. *)
Theorem fits_to_tiles_without_full_tile :
  shape image_data = [height; width] ->
  0 <= height -> 0 <= width -> 0 < tile_size ->
  height < tile_size \/ width < tile_size ->
  fits_to_tiles sha256_hexdigest fits_basename (PrimaryHDU (Some image_data))
    tile_size start
  = (Raise ZeroDivisionError, start).
Proof.
  intros Hshape Hh Hw HT Hsmall. unfold fits_to_tiles. rewrite Hshape.
  unfold Py.floordiv. destruct (Z.eqb_spec tile_size 0) as [|_]; [lia |].
  unfold bind at 1. unfold lift at 1. unfold bind at 1. unfold lift at 1.
  unfold bind at 1.
  assert (for_each (Py.range (height / tile_size))
            (fun i => for_each (Py.range (width / tile_size))
                        (fun j => process_tile sha256_hexdigest fits_basename
                                    image_data height width tile_size i j))
            [] start = (Ok [], start)
          /\ width / tile_size * (height / tile_size) = 0) as [-> Htotal].
  { destruct Hsmall as [Hs | Hs].
    - rewrite (Z.div_small height) by lia. split; [reflexivity | lia].
    - rewrite (Z.div_small width) by lia. split; [apply empty_rows_loop | lia]. }
  rewrite Htotal. reflexivity.
Qed.

(** C9. A raster that is not 2-dimensional is refused: the run logs the
    error "FITS file does not contain 2D image data" and returns at once,
    with no tile file and no manifest written. *)
Theorem fits_to_tiles_rejects_non_2d (w : world) :
  length (shape image_data) <> 2%nat ->
  fits_to_tiles sha256_hexdigest fits_basename (PrimaryHDU (Some image_data))
    tile_size w
  = (Ok tt, {| logs := logs w ++ [Error_not_2d]; written := written w |})
  /\ level Error_not_2d = ERROR.
Proof.
  intros Hdim. split; [| reflexivity]. unfold fits_to_tiles.
  destruct (shape image_data) as [|a [|b [|c rest]]]; cbn in Hdim;
    try reflexivity; congruence.
Qed.

Lemma cell_fits len i : 0 < tile_size -> 0 <= i < len / tile_size -> tile_size <= len.
Proof.
  intros HT Hi. pose proof (Z.mul_div_le len tile_size HT). nia.
Qed.


(** Grid coverage where at least one full tile fits: the run returns, the
    manifest is the last file written, it holds [floor(W/T) * floor(H/T)]
    records, and the record of the cell of row [r] and column [c] stands at
    the row-major index [r * floor(W/T) + c], with the position
    [x_start = c*T], [y_start = r*T], [x_end = (c+1)*T], [y_end = (r+1)*T]. *)
Theorem grid_coverage_when_a_tile_fits :
  shape image_data = [height; width] ->
  0 < tile_size -> tile_size <= height -> tile_size <= width ->
  exists w tiles,
    fits_to_tiles sha256_hexdigest fits_basename (PrimaryHDU (Some image_data))
      tile_size start = (Ok tt, w)
    /\ manifest_written w = Some (metadata_dict fits_basename tile_size tiles)
    /\ length tiles = Z.to_nat (width / tile_size * (height / tile_size))
    /\ (forall r c,
          0 <= r < height / tile_size -> 0 <= c < width / tile_size ->
          exists tile_hash,
            tiles !! Z.to_nat (r * (width / tile_size) + c)
            = Some (JObj [("tile_id", JStr (tile_id_of fits_basename r c));
                          ("filename", JStr (tile_id_of fits_basename r c +:+ ".png"));
                          ("hash", JStr tile_hash);
                          ("position", JObj [("x_start", JInt (c * tile_size));
                                            ("y_start", JInt (r * tile_size));
                                            ("x_end", JInt ((c + 1) * tile_size));
                                            ("y_end", JInt ((r + 1) * tile_size))])])).
Proof.
  intros Hshape HT Hh Hw.
  rewrite (fits_to_tiles_grid _ _ _ _ _ _ Hshape HT Hh Hw). cbv zeta.
  assert (0 < height / tile_size) by (apply Z.div_str_pos; lia).
  assert (0 < width / tile_size) by (apply Z.div_str_pos; lia).
  eexists _, _. split; [reflexivity |]. split; [| split].
  - unfold manifest_written. cbn [written]. now rewrite last_snoc.
  - rewrite length_map, grid_cells_length by lia. f_equal. lia.
  - intros r c Hr Hc. eexists.
    change (map ?f ?l) with (f <$> l).
    rewrite list_lookup_fmap, grid_cells_lookup by lia. reflexivity.
Qed.

End SplitterClaims.

(** *** The manifest's fields *)

Lemma for_each_invariant {St A S} (I : S -> St -> Prop) (Q : St -> Prop)
    (body : A -> S -> M St S) (xs : list A) :
  (forall x s w, I s w ->
     match body x s w with (Ok s', w') => I s' w' | (Raise _, w') => Q w' end) ->
  forall s w, I s w ->
    match for_each xs body s w with (Ok s', w') => I s' w' | (Raise _, w') => Q w' end.
Proof.
  intros Hbody. induction xs as [|x xs IH]; intros s w HI; [exact HI |].
  cbn [for_each]. unfold bind. specialize (Hbody x s w HI).
  destruct (body x s w) as [[s' | e] w']; [now apply IH | exact Hbody].
Qed.

Section ManifestFields.

Variable sha256_hexdigest : list Z -> string.
Variables (fits_basename : string) (tile_size : Z).

Lemma process_tile_invariant image_data height width i j tiles w :
  tiles_invariant tiles w ->
  match process_tile sha256_hexdigest fits_basename image_data height width
          tile_size i j tiles w with
  | (Ok tiles', w') => tiles_invariant tiles' w'
  | (Raise _, w') => Forall is_png (written w')
  end.
Proof.
  intros [Htiles Hfiles].
  assert (forall image w0, Forall is_png (written w0) ->
            tiles_invariant
              (tiles ++ [tile_metadata (tile_id_of fits_basename i j)
                           (tile_id_of fits_basename i j +:+ ".png")
                           (calculate_hash sha256_hexdigest image) i j tile_size])
              w0) as Hrecord.
  { intros image w0 H0. split; [| exact H0].
    rewrite forallb_app, Htiles. reflexivity. }
  assert (forall (name : string) image files,
            Forall is_png files -> Forall is_png (files ++ [(name, Png image)]))
    as Hfile.
  { intros name image files H0. apply Forall_app. split; [exact H0 |].
    constructor; [now exists image | constructor]. }
  unfold process_tile, bind, lift, ret, log, try_except, imwrite, raise, lift, write.
  destruct (Np.min _) as [mn | e]; [| exact Hfiles].
  destruct (Np.max _) as [mx | e]; [| exact Hfiles].
  destruct (mx =? mn).
  - destruct (Np.zeros _) as [zeros | e]; cbn [logs written]; [| exact Hfiles].
    destruct (buffer zeros); cbn [logs written]; apply Hrecord; cbn [written]; auto.
  - destruct (buffer (normalize _ mn mx)); cbn [logs written]; apply Hrecord;
      cbn [written]; auto.
Qed.

(** C8, as the code names the fields. Every JSON document a run of
    [fits_to_tiles] writes is a manifest of exactly the fields [fits_file] (a
    string), [tile_size] (an integer) and [tiles], a list of records of
    exactly the fields [tile_id], [filename], [hash] (strings) and
    [position], itself of exactly the integer fields [x_start], [y_start],
    [x_end], [y_end]. *)
Theorem manifest_written_has_schema (hdul : fits_open) (r : outcome unit)
    (w : world) (path : string) (document : json) :
  fits_to_tiles sha256_hexdigest fits_basename hdul tile_size start = (r, w) ->
  In (path, JsonFile document) (written w) ->
  manifest_schema "fits_file" document = true.
Proof.
  unfold fits_to_tiles.
  destruct hdul as [| [image |]];
    [intros [= <- <-] [] | | intros [= <- <-] []].
  destruct (shape image) as [|h [|w0 [|? ?]]]; try (intros [= <- <-] []).
  unfold bind at 1. unfold lift at 1.
  destruct (Py.floordiv w0 tile_size) as [cols | e]; [| intros [= <- <-] []].
  unfold bind at 1. unfold lift at 1.
  destruct (Py.floordiv h tile_size) as [rows | e]; [| intros [= <- <-] []].
  unfold bind at 1.
  pose proof (for_each_invariant tiles_invariant (fun w => Forall is_png (written w))
                (fun i => for_each (Py.range cols)
                            (fun j => process_tile sha256_hexdigest fits_basename
                                        image h w0 tile_size i j))
                (Py.range rows)) as Hloop.
  specialize (Hloop (fun i tiles w Hinv =>
                       for_each_invariant tiles_invariant _ _ _
                         (fun j => process_tile_invariant image h w0 i j) tiles w Hinv)).
  assert (tiles_invariant [] start) as Hstart by (split; [reflexivity | constructor]).
  specialize (Hloop [] start Hstart).
  destruct (for_each (Py.range rows) _ [] start) as [[tiles | e] w1].
  - destruct Hloop as [Htiles Hfiles].
    unfold bind at 1. unfold lift at 1.
    destruct (Py.truediv_raises _) as [[] | e].
    + unfold try_except, bind, log, write. cbn [logs written]. intros [= <- <-].
      cbn [written].
      intros Hin. apply in_app_or in Hin as [Hin | [[= <- <-] | []]].
      * rewrite Forall_forall in Hfiles.
        apply list_elem_of_In, Hfiles in Hin as [image' Himg]. discriminate.
      * cbn. exact Htiles.
    + intros [= <- <-] Hin. rewrite Forall_forall in Hfiles.
      apply list_elem_of_In, Hfiles in Hin as [image' Himg]. discriminate.
  - intros [= <- <-] Hin. rewrite Forall_forall in Hloop.
    apply list_elem_of_In, Hloop in Hin as [image' Himg]. discriminate.
Qed.

End ManifestFields.

(** ** The duplicate detector *)

Lemma pairs_after_index seen rest :
  pairs_after seen rest =
  flat_map
    (fun k => match rest !! k with
              | Some t => match first_seen (seen ++ take k rest) (rec_hash t) with
                          | Some first => [(t, first)]
                          | None => []
                          end
              | None => []
              end)
    (seq 0 (length rest)).
Proof.
  revert seen. induction rest as [|t rest IH]; intros seen; [reflexivity |].
  cbn [pairs_after length seq flat_map lookup list_lookup take].
  rewrite app_nil_r. rewrite <- seq_shift, flat_map_concat_map, map_map.
  rewrite <- flat_map_concat_map.
  assert (flat_map
            (fun k => match (t :: rest) !! S k with
                      | Some t0 =>
                          match first_seen (seen ++ take (S k) (t :: rest)) (rec_hash t0) with
                          | Some first => [(t0, first)]
                          | None => []
                          end
                      | None => []
                      end) (seq 0 (length rest))
          = pairs_after (seen ++ [t]) rest) as ->.
  { rewrite IH. apply flat_map_ext. intros k. cbn [lookup list_lookup take].
    now rewrite <- app_assoc. }
  destruct (first_seen seen (rec_hash t)); reflexivity.
Qed.

Lemma reference_pairs_after records : reference_pairs records = pairs_after [] records.
Proof. now rewrite pairs_after_index. Qed.

Lemma first_seen_app seen t h :
  first_seen (seen ++ [t]) h =
  match first_seen seen h with
  | Some first => Some first
  | None => if String.eqb (rec_hash t) h then Some t else None
  end.
Proof.
  unfold first_seen. induction seen as [|u seen IH]; [reflexivity |].
  cbn [app find]. destruct (String.eqb (rec_hash u) h); [reflexivity | exact IH].
Qed.

Lemma first_seen_hash seen h first : first_seen seen h = Some first -> rec_hash first = h.
Proof.
  unfold first_seen. intros Hf. apply find_some in Hf as [_ Hf].
  now apply String.eqb_eq.
Qed.


Lemma pairs_after_distinct seen rest :
  NoDup (map rec_hash (seen ++ rest)) -> pairs_after seen rest = [].
Proof.
  revert seen. induction rest as [|t rest IH]; intros seen Hnd; [reflexivity |].
  cbn [pairs_after].
  replace (seen ++ t :: rest) with ((seen ++ [t]) ++ rest) in Hnd
    by now rewrite <- app_assoc.
  destruct (first_seen seen (rec_hash t)) as [first |] eqn:Hf; [| now apply IH].
  exfalso. pose proof (first_seen_hash _ _ _ Hf) as Hh.
  unfold first_seen in Hf. apply find_some in Hf as [Hin _].
  rewrite !map_app in Hnd. apply NoDup_app in Hnd as (Hnd & _ & _).
  apply NoDup_app in Hnd as (_ & Hdisj & _).
  apply (Hdisj (rec_hash t)).
  - apply list_elem_of_In. rewrite <- Hh. now apply in_map.
  - cbn. left.
Qed.

Lemma scan_tile_record seen (t : tile_record) (s : scan) :
  index_of seen s ->
  exists s',
    scan_tile (tile_json t) s = (Ok tt, s')
    /\ index_of (seen ++ [t]) s'
    /\ duplicates s' = duplicates s ++ map pair_json (pairs_after seen [t])
    /\ scan_logs s' = scan_logs s.
Proof.
  intros Hidx. unfold scan_tile, bind, lift. cbn [tile_json Py.getitem Py.assoc String.eqb].
  cbn. rewrite (Hidx (inr (rec_hash t))).
  destruct (first_seen seen (rec_hash t)) as [first |] eqn:Hf; cbn.
  - eexists. split; [reflexivity |]. cbn. repeat split.
    intros key. cbn [hash_dict]. rewrite (Hidx key).
    destruct key as [k | h]; [reflexivity |].
    rewrite first_seen_app. destruct (first_seen seen h) eqn:Hh; [reflexivity |].
    destruct (String.eqb_spec (rec_hash t) h); [congruence | reflexivity].
  - eexists. split; [reflexivity |]. cbn. repeat split; [| now rewrite app_nil_r].
    intros key. cbn [hash_dict].
    destruct (decide (key = inr (rec_hash t))) as [-> | Hne].
    + rewrite lookup_insert_eq, first_seen_app, Hf, String.eqb_refl. reflexivity.
    + rewrite lookup_insert_ne by congruence. rewrite (Hidx key).
      destruct key as [k | h]; [reflexivity |].
      rewrite first_seen_app. destruct (first_seen seen h); [reflexivity |].
      destruct (String.eqb_spec (rec_hash t) h); [congruence | reflexivity].
Qed.

Lemma scan_tiles_records (records : list tile_record) :
  forall seen s,
    index_of seen s ->
    exists s',
      for_each (map tile_json records) (fun tile _ => scan_tile tile) tt s = (Ok tt, s')
      /\ index_of (seen ++ records) s'
      /\ duplicates s' = duplicates s ++ map pair_json (pairs_after seen records)
      /\ scan_logs s' = scan_logs s.
Proof.
  induction records as [|t records IH]; intros seen s Hidx.
  - exists s. cbn. rewrite !app_nil_r. auto.
  - destruct (scan_tile_record seen t s Hidx) as (s1 & Hrun1 & Hidx1 & Hdup1 & Hlog1).
    destruct (IH (seen ++ [t]) s1 Hidx1) as (s2 & Hrun2 & Hidx2 & Hdup2 & Hlog2).
    exists s2. cbn [map for_each]. unfold bind. rewrite Hrun1, Hrun2.
    split; [reflexivity |]. rewrite <- app_assoc in Hidx2. split; [exact Hidx2 |].
    split; [| congruence].
    rewrite Hdup2, Hdup1, <- app_assoc, <- map_app. f_equal. f_equal.
    cbn [pairs_after]. destruct (first_seen seen (rec_hash t)); reflexivity.
Qed.

Lemma scan_files_corpus (corpus : list (string * option manifest)) :
  forall seen s,
    index_of seen s ->
    exists s',
      for_each (corpus_files corpus) (fun entry _ => scan_file entry) tt s = (Ok tt, s')
      /\ index_of (seen ++ corpus_records corpus) s'
      /\ duplicates s' = duplicates s
                          ++ map pair_json (pairs_after seen (corpus_records corpus)).
Proof.
  induction corpus as [|[path [m |]] corpus IH]; intros seen s Hidx.
  - exists s. cbn. rewrite !app_nil_r. auto.
  - destruct (scan_tiles_records (m_tiles m) seen s Hidx)
      as (s1 & Hrun1 & Hidx1 & Hdup1 & _).
    destruct (IH (seen ++ m_tiles m) s1 Hidx1) as (s2 & Hrun2 & Hidx2 & Hdup2).
    exists s2. cbn [corpus_files map for_each fst snd fmap option_fmap option_map].
    unfold bind at 1.
    assert (scan_file (path, Some (manifest_json m)) s = (Ok tt, s1)) as ->.
    { unfold scan_file, try_except, bind, lift. cbn. now rewrite Hrun1. }
    fold (corpus_files corpus). rewrite Hrun2. split; [reflexivity |].
    cbn [corpus_records flat_map snd]. fold (corpus_records corpus).
    rewrite app_assoc. split; [exact Hidx2 |].
    rewrite Hdup2, Hdup1, <- app_assoc, <- map_app. f_equal. f_equal.
    clear. revert seen. induction (m_tiles m) as [|t ts IHt]; intros seen.
    + cbn. now rewrite app_nil_r.
    + cbn [app pairs_after]. rewrite <- IHt, <- app_assoc. cbn [app].
      destruct (first_seen seen (rec_hash t)); reflexivity.
  - destruct (IH seen
                {| hash_dict := hash_dict s; duplicates := duplicates s;
                   scan_logs := scan_logs s ++ [Error_reading_metadata path] |})
      as (s2 & Hrun2 & Hidx2 & Hdup2); [exact Hidx |].
    exists s2. cbn [corpus_files map for_each fst snd fmap option_fmap option_map].
    unfold bind at 1.
    assert (scan_file (path, None) s
            = (Ok tt, {| hash_dict := hash_dict s; duplicates := duplicates s;
                         scan_logs := scan_logs s ++ [Error_reading_metadata path] |}))
      as -> by reflexivity.
    fold (corpus_files corpus). rewrite Hrun2.
    split; [reflexivity |]. split; [exact Hidx2 | exact Hdup2].
Qed.

Lemma scan_log_each (ds : list duplicate) (s : scan) :
  exists s',
    for_each ds (fun d _ => scan_log (Info_duplicate d)) tt s = (Ok tt, s')
    /\ duplicates s' = duplicates s.
Proof.
  revert s. induction ds as [|d ds IH]; intros s; [now exists s |].
  cbn [for_each]. unfold bind, scan_log at 1.
  destruct (IH {| hash_dict := hash_dict s; duplicates := duplicates s;
                  scan_logs := scan_logs s ++ [Info_duplicate d] |})
    as (s' & Hrun & Hdup).
  exists s'. now rewrite Hrun.
Qed.

(** The run of [find_duplicates] over a corpus of manifests written by
    [fits_to_tiles]: it returns, and the pairs it has collected are those of
    the records in scan order. *)
Lemma find_duplicates_corpus (corpus : list (string * option manifest)) :
  exists s,
    find_duplicates (corpus_files corpus) scan_start = (Ok tt, s)
    /\ duplicates s = map pair_json (pairs_after [] (corpus_records corpus)).
Proof.
  destruct (scan_files_corpus corpus [] scan_start) as (s1 & Hrun & _ & Hdup).
  { intros [k | h]; cbn; apply lookup_empty. }
  unfold find_duplicates, bind. rewrite Hrun.
  destruct (duplicates s1) as [|d ds] eqn:Hds.
  - eexists. split; [reflexivity |]. cbn. now rewrite Hds, Hdup.
  - unfold scan_log at 1.
    destruct (scan_log_each (d :: ds)
                {| hash_dict := hash_dict s1; duplicates := duplicates s1;
                   scan_logs := scan_logs s1 ++ [Info_duplicates_found (length (d :: ds))] |})
      as (s' & Hrun' & Hdup').
    exists s'. split; [exact Hrun' |]. rewrite Hdup'. cbn [duplicates].
    rewrite Hds. exact Hdup.
Qed.

(** C3. Over any corpus of manifests the scan returns and reports exactly
    the reference pairs of the records it has seen, in order: one pair for
    every record whose hash is the hash of an earlier record, made with the
    first record of that hash; with all hashes distinct it reports none. *)
Theorem find_duplicates_reports_later_occurrences (corpus : list (string * option manifest)) :
  exists s,
    find_duplicates (corpus_files corpus) scan_start = (Ok tt, s)
    /\ duplicates s = map pair_json (reference_pairs (corpus_records corpus))
    /\ (NoDup (map rec_hash (corpus_records corpus)) -> duplicates s = []).
Proof.
  destruct (find_duplicates_corpus corpus) as (s & Hrun & Hdup).
  exists s. split; [exact Hrun |]. rewrite reference_pairs_after. split; [exact Hdup |].
  intros Hnd. rewrite Hdup, pairs_after_distinct; [reflexivity | exact Hnd].
Qed.

(** ** Uniform tiles and their hash *)

Lemma fold_min_constant c vs : Forall (eq c) vs -> fold_left Z.min vs c = c.
Proof.
  induction vs as [|v vs IH]; intros Hall; [reflexivity |].
  apply Forall_cons in Hall as [<- Hall]. cbn [fold_left].
  rewrite Z.min_id. now apply IH.
Qed.

Lemma fold_max_constant c vs : Forall (eq c) vs -> fold_left Z.max vs c = c.
Proof.
  induction vs as [|v vs IH]; intros Hall; [reflexivity |].
  apply Forall_cons in Hall as [<- Hall]. cbn [fold_left].
  rewrite Z.max_id. now apply IH.
Qed.

(** A window of one constant value is a uniform tile. *)
Lemma constant_window_uniform image_data height width tile_size i j c :
  0 < tile_size -> 0 <= i < height / tile_size -> 0 <= j < width / tile_size ->
  (forall dy dx, 0 <= dy < tile_size -> 0 <= dx < tile_size ->
     Np.item2 image_data width (i * tile_size + dy) (j * tile_size + dx) = c) ->
  uniform (tile_at image_data height width tile_size i j) = true.
Proof.
  intros HT Hi Hj Hconst.
  destruct (tile_at_nonempty image_data height width tile_size i j HT Hi Hj)
    as (v & vs & Hbuf).
  assert (Forall (eq c) (buffer (tile_at image_data height width tile_size i j)))
    as Hall.
  { rewrite tile_at_window by assumption. cbn [buffer].
    apply Forall_forall. intros s Hin. apply list_elem_of_In in Hin.
    apply in_flat_map in Hin as (y & Hy & Hin).
    apply in_map_iff in Hin as (x & <- & Hx).
    apply in_map_iff in Hy as (ky & <- & Hky). apply in_seq in Hky.
    apply in_map_iff in Hx as (kx & <- & Hkx). apply in_seq in Hkx.
    symmetry. apply Hconst; lia. }
  unfold uniform, Np.min, Np.max. rewrite Hbuf in *.
  apply Forall_cons in Hall as [<- Hall].
  rewrite fold_min_constant, fold_max_constant by assumption.
  apply Z.eqb_refl.
Qed.

Lemma uniform_normalized_zero tile tile_size :
  uniform tile = true -> normalized_tile tile tile_size = zero_tile tile_size.
Proof.
  unfold uniform, normalized_tile.
  destruct (Np.min tile) as [mn |]; [| discriminate].
  destruct (Np.max tile) as [mx |]; [| discriminate].
  now intros ->.
Qed.





Section SplitManifest.

Variable sha256_hexdigest : list Z -> string.
Variables (fits_basename : string) (image_data : ndarray).
Variables height width tile_size : Z.

Lemma cell_tile_record_json cells :
  map (cell_record sha256_hexdigest fits_basename image_data height width tile_size) cells
  = map tile_json
      (map (cell_tile_record sha256_hexdigest fits_basename image_data height width
              tile_size) cells).
Proof. rewrite map_map. apply map_ext. intros [i j]. reflexivity. Qed.



End SplitManifest.

Section UniformTiles.

Variable sha256_hexdigest : list Z -> string.


End UniformTiles.

(** ** Normalization *)

Lemma fold_min_spec vs : forall v,
  In (fold_left Z.min vs v) (v :: vs) /\ forall x, In x (v :: vs) -> fold_left Z.min vs v <= x.
Proof.
  induction vs as [|u vs IH]; intros v.
  - cbn. split; [now left | intros x [<- | []]; lia].
  - cbn [fold_left]. destruct (IH (Z.min v u)) as [Hin Hle]. split.
    + destruct Hin as [Hin | Hin]; [| now right; right].
      rewrite <- Hin. destruct (Z.min_spec v u) as [[_ ->] | [_ ->]]; cbn; auto.
    + intros x [<- | [<- | Hx]].
      * specialize (Hle (Z.min v u) (or_introl eq_refl)). lia.
      * specialize (Hle (Z.min v u) (or_introl eq_refl)). lia.
      * apply Hle. now right.
Qed.

Lemma fold_max_spec vs : forall v,
  In (fold_left Z.max vs v) (v :: vs) /\ forall x, In x (v :: vs) -> x <= fold_left Z.max vs v.
Proof.
  induction vs as [|u vs IH]; intros v.
  - cbn. split; [now left | intros x [<- | []]; lia].
  - cbn [fold_left]. destruct (IH (Z.max v u)) as [Hin Hle]. split.
    + destruct Hin as [Hin | Hin]; [| now right; right].
      rewrite <- Hin. destruct (Z.max_spec v u) as [[_ ->] | [_ ->]]; cbn; auto.
    + intros x [<- | [<- | Hx]].
      * specialize (Hle (Z.max v u) (or_introl eq_refl)). lia.
      * specialize (Hle (Z.max v u) (or_introl eq_refl)). lia.
      * apply Hle. now right.
Qed.

Section Window.

Variables (image_data : ndarray) (height width tile_size i j : Z).
Hypothesis tile_size_pos : 0 < tile_size.
Hypothesis row_in_grid : 0 <= i < height / tile_size.
Hypothesis column_in_grid : 0 <= j < width / tile_size.

Lemma tile_at_lookup dy dx :
  0 <= dy < tile_size -> 0 <= dx < tile_size ->
  buffer (tile_at image_data height width tile_size i j) !! Z.to_nat (dy * tile_size + dx)
  = Some (window_sample image_data width tile_size i j dy dx).
Proof.
  intros Hdy Hdx. rewrite tile_at_window by assumption. cbn [buffer].
  replace (Z.to_nat (dy * tile_size + dx))
    with (Z.to_nat dy * Z.to_nat tile_size + Z.to_nat dx)%nat by nia.
  rewrite (flat_map_lookup_block _ (Z.to_nat tile_size) _ _ _ (i * tile_size + dy)).
  - change (map ?f (map ?g ?l)) with (f <$> (g <$> l)).
    rewrite !list_lookup_fmap, lookup_seq_lt by lia. cbn.
    unfold window_sample. now rewrite Z2Nat.id by lia.
  - intros y. now rewrite !length_map, length_seq.
  - change (map ?g ?l) with (g <$> l).
    rewrite list_lookup_fmap, lookup_seq_lt by lia. cbn. now rewrite Z2Nat.id by lia.
  - lia.
Qed.

Lemma tile_at_samples s :
  In s (buffer (tile_at image_data height width tile_size i j)) <->
  exists dy dx, 0 <= dy < tile_size /\ 0 <= dx < tile_size /\ s = window_sample image_data width tile_size i j dy dx.
Proof.
  rewrite tile_at_window by assumption. cbn [buffer]. rewrite in_flat_map. split.
  - intros (y & Hy & Hin). apply in_map_iff in Hin as (x & <- & Hx).
    apply in_map_iff in Hy as (ky & <- & Hky). apply in_seq in Hky.
    apply in_map_iff in Hx as (kx & <- & Hkx). apply in_seq in Hkx.
    exists (Z.of_nat ky), (Z.of_nat kx). unfold window_sample. repeat split; lia.
  - intros (dy & dx & Hdy & Hdx & ->).
    exists (i * tile_size + dy). split.
    + apply in_map_iff. exists (Z.to_nat dy). split; [lia | apply in_seq; lia].
    + apply in_map_iff. exists (j * tile_size + dx). split; [reflexivity |].
      apply in_map_iff. exists (Z.to_nat dx). split; [lia | apply in_seq; lia].
Qed.

(** The minimum and maximum [np.min] and [np.max] find are the least and
    the greatest sample of the window. *)
Lemma tile_at_range tile_min tile_max :
  (forall dy dx, 0 <= dy < tile_size -> 0 <= dx < tile_size ->
     tile_min <= window_sample image_data width tile_size i j dy dx <= tile_max) ->
  (exists dy dx, 0 <= dy < tile_size /\ 0 <= dx < tile_size
                 /\ window_sample image_data width tile_size i j dy dx = tile_min) ->
  (exists dy dx, 0 <= dy < tile_size /\ 0 <= dx < tile_size
                 /\ window_sample image_data width tile_size i j dy dx = tile_max) ->
  Np.min (tile_at image_data height width tile_size i j) = Ok tile_min
  /\ Np.max (tile_at image_data height width tile_size i j) = Ok tile_max.
Proof.
  intros Hbounds (y0 & x0 & Hy0 & Hx0 & Hmin) (y1 & x1 & Hy1 & Hx1 & Hmax).
  destruct (tile_at_nonempty image_data height width tile_size i j
              tile_size_pos row_in_grid column_in_grid) as (v & vs & Hbuf).
  pose proof tile_at_samples as Hsamples. rewrite Hbuf in Hsamples.
  unfold Np.min, Np.max. rewrite Hbuf.
  destruct (fold_min_spec vs v) as [Hmin_in Hmin_le].
  destruct (fold_max_spec vs v) as [Hmax_in Hmax_le].
  split; f_equal.
  - apply Z.le_antisymm.
    + apply Hmin_le, Hsamples. eauto 6.
    + apply Hsamples in Hmin_in as (dy & dx & Hdy & Hdx & ->). now apply Hbounds.
  - apply Z.le_antisymm.
    + apply Hsamples in Hmax_in as (dy & dx & Hdy & Hdx & ->). now apply Hbounds.
    + apply Hmax_le, Hsamples. eauto 6.
Qed.

End Window.

Section NormalizationFacts.

Variable sha256_hexdigest : list Z -> string.
Variables (fits_basename : string) (image_data : ndarray).
Variables height width tile_size : Z.

(** C2, as the code computes it. In the tile file of a cell whose window
    has a minimum strictly below its maximum, every sample is the [float64]
    value [(v - min) / (max - min) * 65535] of the raster's sample [v] under
    it, cast by [astype(np.uint16)]: the fraction is dropped, the value is
    not rounded to the nearest integer. *)
Theorem normalized_sample_is_truncated (i j tile_min tile_max : Z) :
  shape image_data = [height; width] ->
  0 < tile_size -> 0 <= i < height / tile_size -> 0 <= j < width / tile_size ->
  (forall dy dx, 0 <= dy < tile_size -> 0 <= dx < tile_size ->
     0 <= window_sample image_data width tile_size i j dy dx <= 65535
     /\ tile_min <= window_sample image_data width tile_size i j dy dx <= tile_max) ->
  (exists dy dx, 0 <= dy < tile_size /\ 0 <= dx < tile_size
                 /\ window_sample image_data width tile_size i j dy dx = tile_min) ->
  (exists dy dx, 0 <= dy < tile_size /\ 0 <= dx < tile_size
                 /\ window_sample image_data width tile_size i j dy dx = tile_max) ->
  tile_min < tile_max ->
  exists w tile,
    fits_to_tiles sha256_hexdigest fits_basename (PrimaryHDU (Some image_data))
      tile_size start = (Ok tt, w)
    /\ In (tile_id_of fits_basename i j +:+ ".png", Png tile) (written w)
    /\ shape tile = [tile_size; tile_size]
    /\ forall dy dx, 0 <= dy < tile_size -> 0 <= dx < tile_size ->
         Np.item2 tile tile_size dy dx
         = Np.astype_uint16
             (PrimFloat.mul
                (PrimFloat.div
                   (Np.float64 (window_sample image_data width tile_size i j dy dx
                                - tile_min))
                   (Np.float64 (tile_max - tile_min)))
                (Np.float64 65535)).
Proof.
  intros Hshape HT Hi Hj Hbounds Hmin Hmax Hlt.
  pose proof (cell_fits tile_size height i HT Hi) as Hh.
  pose proof (cell_fits tile_size width j HT Hj) as Hw.
  rewrite (fits_to_tiles_grid _ _ _ _ _ _ Hshape HT Hh Hw). cbv zeta.
  destruct (tile_at_range image_data height width tile_size i j HT Hi Hj
              tile_min tile_max) as [Emin Emax]; [apply Hbounds | exact Hmin | exact Hmax |].
  assert (cell_image image_data height width tile_size (i, j)
          = normalize (tile_at image_data height width tile_size i j) tile_min tile_max)
    as Himage.
  { unfold cell_image, normalized_tile. cbn [fst snd]. rewrite Emin, Emax.
    destruct (Z.eqb_spec tile_max tile_min); [lia | reflexivity]. }
  eexists _, _. split; [reflexivity |]. cbn [written]. split; [| split].
  - apply in_or_app. left. apply in_map_iff. exists (i, j). split.
    + unfold cell_file, cell_filename. cbn [fst snd]. rewrite Himage. reflexivity.
    + apply grid_cells_in. lia.
  - cbn [normalize shape]. now rewrite tile_at_window.
  - intros dy dx Hdy Hdx. unfold Np.item2. cbn [normalize buffer].
    rewrite nth_lookup.
    change (map ?f ?l) with (f <$> l).
    rewrite list_lookup_fmap, (tile_at_lookup _ _ _ _ _ _ HT Hi Hj) by assumption.
    cbn [fmap option_fmap option_map default]. reflexivity.
Qed.

End NormalizationFacts.

(** ** Reconstruction *)

Lemma comprehension_coord (name : string) (f : tile_record -> Z) tiles :
  (forall t, coord name (tile_json t) = Ok (JInt (f t))) ->
  comprehension (coord name) (map tile_json tiles) = Ok (map (fun t => JInt (f t)) tiles).
Proof.
  intros Hf. induction tiles as [|t tiles IH]; [reflexivity |].
  cbn [map comprehension]. now rewrite Hf, IH.
Qed.

Lemma comprehension_as_int (zs : list Z) : comprehension as_int (map JInt zs) = Ok zs.
Proof.
  induction zs as [|z zs IH]; [reflexivity |].
  cbn [map comprehension as_int]. now rewrite IH.
Qed.

Lemma max_coord_greatest (f : tile_record -> Z) tiles :
  tiles <> [] ->
  exists bound,
    max_coord (map (fun t => JInt (f t)) tiles) = Ok bound /\ greatest f tiles bound.
Proof.
  intros Hne. destruct tiles as [|t tiles]; [congruence |].
  rewrite <- (map_map f JInt). unfold max_coord.
  destruct (map JInt (map f (t :: tiles))) as [|c cs] eqn:E; [discriminate |].
  rewrite <- E, comprehension_as_int. cbn [map].
  eexists. split; [reflexivity |].
  destruct (fold_max_spec (map f tiles) (f t)) as [Hin Hle]. split.
  - intros u Hu. apply Hle. change (f t :: map f tiles) with (map f (t :: tiles)).
    now apply in_map.
  - change (f t :: map f tiles) with (map f (t :: tiles)) in Hin.
    apply in_map_iff in Hin as (u & Hu & Hin). eauto.
Qed.

Section Canvas.

Variable imread : string -> option ndarray.
Variables height width : Z.

Lemma assign_region_item c y0 y1 x0 x1 value sh sw y x :
  length (buffer c) = Z.to_nat (height * width) ->
  0 <= y < height -> 0 <= x < width ->
  Np.item2 (assign_region c width y0 y1 x0 x1 value sh sw) width y x =
  if (y0 <=? y) && (y <? y1) && (x0 <=? x) && (x <? x1)
  then broadcast_item value sh sw (y - y0) (x - x0) mod 65536
  else Np.item2 c width y x.
Proof.
  intros Hlen Hy Hx. unfold Np.item2, assign_region. cbn [buffer].
  rewrite !nth_lookup, list_lookup_imap.
  assert (Z.to_nat (y * width + x) < length (buffer c))%nat as Hk by nia.
  destruct (lookup_lt_is_Some_2 (buffer c) _ Hk) as [v Hv]. rewrite Hv.
  cbn [fmap option_fmap option_map default].
  rewrite Z2Nat.id by nia.
  rewrite Z.div_add_l, (Z.div_small x), Z.add_0_r by lia.
  rewrite Z.add_comm, Z.mod_add, (Z.mod_small x) by lia.
  reflexivity.
Qed.

Lemma place_tile_record c w t :
  fits_canvas height width t ->
  place_tile imread height width (tile_json t) c w =
  (Ok (painted imread width c t),
   {| logs := logs w ++ (if unusable imread t
                         then [Error_reading_tile (rec_filename t)] else []);
      written := written w |}).
Proof.
  intros ([Hy Hx] & Hye & Hxe).
  unfold place_tile, painted, unusable, tile_block, bind, lift, try_except, raise.
  cbn [tile_json Py.getitem Py.assoc]. cbn.
  destruct (imread (rec_filename t)) as [tile_image |]; cbn.
  - unfold setitem2, slice_range. rewrite !slice_index_inside by lia.
    rewrite !Z.max_r by lia.
    destruct (broadcast2 _ _ _) as [[sh sw] |]; cbn.
    + rewrite app_nil_r. destruct w; reflexivity.
    + unfold log. reflexivity.
  - unfold log. reflexivity.
Qed.

Lemma place_tiles_records tiles :
  forall c w,
    (forall t, In t tiles -> fits_canvas height width t) ->
    for_each (map tile_json tiles) (place_tile imread height width) c w =
    (Ok (fold_left (painted imread width) tiles c),
     {| logs := logs w ++ read_errors imread tiles; written := written w |}).
Proof.
  induction tiles as [|t tiles IH]; intros c w Hfit.
  - cbn. unfold read_errors. cbn. rewrite app_nil_r. destruct w; reflexivity.
  - cbn [map for_each]. unfold bind.
    rewrite place_tile_record by (apply Hfit; now left).
    rewrite IH by (intros; apply Hfit; now right).
    cbn [logs written fold_left]. f_equal. f_equal.
    rewrite <- app_assoc. f_equal. unfold read_errors.
    cbn [filter]. unfold filter. cbn [list_filter].
    destruct (unusable imread t); cbn; reflexivity.
Qed.

Lemma painted_length c t : length (buffer (painted imread width c t)) = length (buffer c).
Proof.
  unfold painted. destruct (tile_block imread t) as [[tile_image [sh sw]] |]; [| reflexivity].
  cbn [assign_region buffer]. apply length_imap.
Qed.

Lemma painted_shape c t : shape (painted imread width c t) = shape c.
Proof.
  unfold painted. now destruct (tile_block imread t) as [[tile_image [sh sw]] |].
Qed.

Lemma fold_painted_length tiles : forall c,
  length (buffer (fold_left (painted imread width) tiles c)) = length (buffer c).
Proof.
  induction tiles as [|t tiles IH]; intros c; [reflexivity |].
  cbn [fold_left]. now rewrite IH, painted_length.
Qed.

Lemma fold_painted_shape tiles : forall c,
  shape (fold_left (painted imread width) tiles c) = shape c.
Proof.
  induction tiles as [|t tiles IH]; intros c; [reflexivity |].
  cbn [fold_left]. now rewrite IH, painted_shape.
Qed.

Lemma inside_test t y x :
  (rec_y_start t <=? y) && (y <? rec_y_end t) && (rec_x_start t <=? x) && (x <? rec_x_end t)
  = true <-> inside t y x.
Proof.
  unfold inside. rewrite !andb_true_iff, !Z.leb_le, !Z.ltb_lt. tauto.
Qed.

Lemma painted_item c t y x :
  length (buffer c) = Z.to_nat (height * width) ->
  0 <= y < height -> 0 <= x < width ->
  Np.item2 (painted imread width c t) width y x =
  match tile_block imread t with
  | Some (tile_image, (sh, sw)) =>
      if (rec_y_start t <=? y) && (y <? rec_y_end t)
         && (rec_x_start t <=? x) && (x <? rec_x_end t)
      then broadcast_item tile_image sh sw (y - rec_y_start t) (x - rec_x_start t)
           mod 65536
      else Np.item2 c width y x
  | None => Np.item2 c width y x
  end.
Proof.
  intros Hlen Hy Hx. unfold painted.
  destruct (tile_block imread t) as [[tile_image [sh sw]] |]; [| reflexivity].
  now apply assign_region_item.
Qed.

(** A sample no rectangle covers stays as it was. *)
Lemma canvas_outside tiles y x :
  0 <= y < height -> 0 <= x < width ->
  (forall u, In u tiles -> ~ inside u y x) ->
  forall c, length (buffer c) = Z.to_nat (height * width) ->
    Np.item2 (fold_left (painted imread width) tiles c) width y x = Np.item2 c width y x.
Proof.
  intros Hy Hx. induction tiles as [|t tiles IH]; intros Hout c Hlen; [reflexivity |].
  cbn [fold_left]. rewrite IH.
  - rewrite painted_item by assumption.
    destruct (tile_block imread t) as [[tile_image [sh sw]] |]; [| reflexivity].
    destruct (_ && _) eqn:Hin; [| reflexivity].
    apply inside_test in Hin. exfalso. apply (Hout t); [now left | exact Hin].
  - intros u Hu. apply Hout. now right.
  - now rewrite painted_length.
Qed.

(** A sample inside the rectangle of a record takes the sample of that
    record's block, when the rectangles do not overlap. *)
Lemma canvas_inside tiles t y x :
  0 <= y < height -> 0 <= x < width ->
  non_overlapping tiles -> In t tiles -> inside t y x ->
  forall c, length (buffer c) = Z.to_nat (height * width) ->
    Np.item2 (fold_left (painted imread width) tiles c) width y x =
    match tile_block imread t with
    | Some (tile_image, (sh, sw)) =>
        broadcast_item tile_image sh sw (y - rec_y_start t) (x - rec_x_start t)
        mod 65536
    | None => Np.item2 c width y x
    end.
Proof.
  intros Hy Hx. induction tiles as [|u tiles IH]; intros Hno Hin Hinside c Hlen; [destruct Hin |].
  destruct Hno as [Hhead Hrest]. cbn [fold_left].
  destruct Hin as [-> | Hin'].
  - rewrite canvas_outside; [| assumption | assumption | | now rewrite painted_length].
    + rewrite painted_item by assumption.
      destruct (tile_block imread t) as [[tile_image [sh sw]] |]; [| reflexivity].
      apply inside_test in Hinside. now rewrite Hinside.
    + intros v Hv. now apply Hhead.
  - rewrite IH; [| assumption | assumption | assumption | now rewrite painted_length].
    destruct (tile_block imread t) as [[tile_image [sh sw]] |] eqn:Hblock; [reflexivity |].
    rewrite painted_item by assumption.
    destruct (tile_block imread u) as [[tile_image [sh sw]] |]; [| reflexivity].
    destruct (_ && _) eqn:Htest; [| reflexivity].
    apply inside_test in Htest. exfalso. exact (Hhead t y x Hin' Htest Hinside).
Qed.

End Canvas.

Lemma zeros_item n width y x :
  Np.item2 {| shape := [n; width]; buffer := repeat 0 (Z.to_nat (n * (width * 1))) |}
    width y x = 0.
Proof. unfold Np.item2. cbn [buffer]. apply nth_repeat. Qed.

Lemma blank_canvas_item height width y x :
  Np.item2 (blank_canvas height width) width y x = 0.
Proof. apply zeros_item. Qed.

(** Lines 93-97 on the canvas of a reconstruction: a canvas with a sample
    is written and the save is logged; for a canvas without samples
    [cv2.imwrite] raises, the error is logged and nothing is written. *)
Lemma canvas_saved imread height width tiles (name : string) w :
  0 <= height -> 0 <= width ->
  try_except
    (let* _ := imwrite name (fold_left (painted imread width) tiles
                               (blank_canvas height width)) in
     log (Info_reconstructed_saved name))
    (fun e => log (Error_saving_reconstructed name)) w
  = (Ok tt,
     if (height =? 0) || (width =? 0)
     then {| logs := logs w ++ [Error_saving_reconstructed name]; written := written w |}
     else {| logs := logs w ++ [Info_reconstructed_saved name];
             written := written w
                        ++ [(name, Png (fold_left (painted imread width) tiles
                                          (blank_canvas height width)))] |}).
Proof.
  intros Hh Hw. unfold try_except, bind, imwrite.
  pose proof (fold_painted_length imread width tiles (blank_canvas height width)) as Hlen.
  cbn [blank_canvas buffer] in Hlen. rewrite repeat_length in Hlen.
  destruct (buffer (fold_left _ tiles _)) as [|v vs].
  - assert ((height =? 0) || (width =? 0) = true) as ->; [| reflexivity].
    cbn [length] in Hlen. apply orb_true_iff. rewrite !Z.eqb_eq. nia.
  - assert ((height =? 0) || (width =? 0) = false) as ->; [| reflexivity].
    cbn [length] in Hlen. apply orb_false_iff. rewrite !Z.eqb_neq. nia.
Qed.

(** The run of the reconstruction on a manifest object with a tile size
    and at least one well placed tile: every tile is placed or skipped,
    only then is the name of the source looked up, and the canvas is
    saved under the base name of the source. *)
Lemma reconstruct_places_tiles (metadata_file : string)
    (fields : list (string * json)) (tile_size_value : json)
    (tiles : list tile_record) (imread : string -> option ndarray) :
  Py.assoc "tile_size" fields = Some tile_size_value ->
  Py.assoc "tiles" fields = Some (JList (map tile_json tiles)) ->
  tiles <> [] ->
  (forall t, In t tiles -> well_placed t) ->
  exists height width,
    greatest rec_y_end tiles height
    /\ greatest rec_x_end tiles width
    /\ reconstruct_image_from_tiles metadata_file (Some (JObj fields)) imread start
       = let canvas := fold_left (painted imread width) tiles
                         (blank_canvas height width) in
         let placed := {| logs := read_errors imread tiles; written := [] |} in
         match Py.assoc "fits_file" fields with
         | Some (JStr fits_file) =>
             let name := "reconstructed_" +:+ Py.basename fits_file +:+ ".png" in
             (Ok tt,
              if (height =? 0) || (width =? 0)
              then {| logs := read_errors imread tiles
                              ++ [Error_saving_reconstructed name];
                      written := [] |}
              else {| logs := read_errors imread tiles
                              ++ [Info_reconstructed_saved name];
                      written := [(name, Png canvas)] |})
         | Some _ => (Raise TypeError, placed)
         | None => (Raise KeyError, placed)
         end.
Proof.
  intros Hsize Htiles Hne Hplaced.
  destruct (max_coord_greatest rec_x_end tiles Hne) as (width & Hmaxx & Hgx).
  destruct (max_coord_greatest rec_y_end tiles Hne) as (height & Hmaxy & Hgy).
  assert (0 <= height) as Hh.
  { destruct Hgy as [_ (t & Hin & <-)]. destruct (Hplaced t Hin) as [? ?]. lia. }
  assert (0 <= width) as Hw.
  { destruct Hgx as [_ (t & Hin & <-)]. destruct (Hplaced t Hin) as [? ?]. lia. }
  assert (forall t, In t tiles -> fits_canvas height width t) as Hfit.
  { intros t Hin. split; [now apply Hplaced |].
    split; [now apply Hgy | now apply Hgx]. }
  exists height, width. split; [exact Hgy |]. split; [exact Hgx |].
  unfold reconstruct_image_from_tiles, Py.getitem.
  rewrite Hsize, Htiles.
  unfold bind at 1. unfold lift at 1.
  unfold bind at 1. unfold lift at 1.
  unfold bind at 1. unfold lift at 1. cbn [Py.iter].
  unfold bind at 1. unfold lift at 1.
  rewrite (comprehension_coord "x_end" rec_x_end) by reflexivity.
  unfold bind at 1. unfold lift at 1.
  rewrite (comprehension_coord "y_end" rec_y_end) by reflexivity.
  unfold bind at 1. unfold lift at 1. rewrite Hmaxx.
  unfold bind at 1. unfold lift at 1. rewrite Hmaxy.
  unfold bind at 1. unfold lift at 1. unfold Np.zeros. cbn [existsb fold_right].
  destruct (Z.ltb_spec height 0); [lia |].
  destruct (Z.ltb_spec width 0); [lia |]. cbn [orb].
  fold (blank_canvas height width).
  unfold bind at 1. rewrite place_tiles_records by exact Hfit.
  unfold bind at 1. unfold lift at 1. cbv zeta. cbn [logs written start app].
  destruct (Py.assoc "fits_file" fields) as [[| | fits_file | |] |];
    cbn [as_str]; try reflexivity.
  rewrite canvas_saved by assumption. cbn [logs written app]. reflexivity.
Qed.

(** C5, as the code runs it. For a manifest of at least one tile whose
    rectangles start at non-negative coordinates and do not overlap, the
    reconstruction returns without a fatal error; the canvas has the height
    of the greatest [y_end] and the width of the greatest [x_end]; it logs
    one error for each tile whose file cannot be read or whose block cannot
    be broadcast to its rectangle, and for no other tile; the rectangle of
    such a tile is all zero, the rectangle of every other tile holds its
    block (broadcast along a dimension of size 1), and what no rectangle
    covers is zero. The canvas is written as
    [reconstructed_<base name of fits_file>.png] and the save is logged; a
    canvas without samples (a height or a width of 0) is not written, and
    the error of the save is logged instead. *)
Theorem reconstruct_tolerates_unusable_tiles
    (metadata_file : string) (m : manifest) (imread : string -> option ndarray) :
  m_tiles m <> [] ->
  (forall t, In t (m_tiles m) -> well_placed t) ->
  non_overlapping (m_tiles m) ->
  exists height width canvas,
    greatest rec_y_end (m_tiles m) height
    /\ greatest rec_x_end (m_tiles m) width
    /\ reconstruct_image_from_tiles metadata_file (Some (manifest_json m)) imread start
       = (Ok tt,
          if (height =? 0) || (width =? 0)
          then {| logs := read_errors imread (m_tiles m)
                          ++ [Error_saving_reconstructed
                                ("reconstructed_" +:+ Py.basename (m_fits_file m)
                                 +:+ ".png")];
                  written := [] |}
          else {| logs := read_errors imread (m_tiles m)
                          ++ [Info_reconstructed_saved
                                ("reconstructed_" +:+ Py.basename (m_fits_file m)
                                 +:+ ".png")];
                  written := [("reconstructed_" +:+ Py.basename (m_fits_file m)
                               +:+ ".png", Png canvas)] |})
    /\ shape canvas = [height; width]
    /\ (forall t y x, In t (m_tiles m) -> inside t y x ->
          Np.item2 canvas width y x =
          match tile_block imread t with
          | Some (tile_image, (sh, sw)) =>
              broadcast_item tile_image sh sw (y - rec_y_start t) (x - rec_x_start t)
              mod 65536
          | None => 0
          end)
    /\ (forall y x, 0 <= y < height -> 0 <= x < width ->
          (forall t, In t (m_tiles m) -> ~ inside t y x) ->
          Np.item2 canvas width y x = 0).
Proof.
  intros Hne Hplaced Hno.
  destruct (reconstruct_places_tiles metadata_file
              [("fits_file", JStr (m_fits_file m)); ("tile_size", JInt (m_tile_size m));
               ("tiles", JList (map tile_json (m_tiles m)))]
              (JInt (m_tile_size m)) (m_tiles m) imread eq_refl eq_refl Hne Hplaced)
    as (height & width & Hgy & Hgx & Hrun).
  assert (forall t, In t (m_tiles m) -> fits_canvas height width t) as Hfit.
  { intros t Hin. split; [now apply Hplaced |].
    split; [now apply Hgy | now apply Hgx]. }
  assert (length (buffer (blank_canvas height width)) = Z.to_nat (height * width))
    as Hlen.
  { cbn [blank_canvas buffer]. rewrite repeat_length. f_equal. lia. }
  exists height, width,
    (fold_left (painted imread width) (m_tiles m) (blank_canvas height width)).
  split; [exact Hgy |]. split; [exact Hgx |]. split; [| split; [| split]].
  - exact Hrun.
  - now rewrite fold_painted_shape.
  - intros t y x Hin Hinside.
    destruct (Hfit t Hin) as ([Hy Hx] & Hye & Hxe). destruct Hinside as [Hiy Hix].
    rewrite (canvas_inside imread height width (m_tiles m) t y x);
      try assumption; try lia; [| now split].
    destruct (tile_block imread t) as [[tile_image [sh sw]] |]; [reflexivity |].
    apply blank_canvas_item.
  - intros y x Hy Hx Hout.
    rewrite (canvas_outside imread height width); try assumption.
    apply blank_canvas_item.
Qed.

Lemma float64_is_floor_upto_spec (bound : nat) (a d : Z) :
  float64_is_floor_upto bound = true ->
  1 <= d <= Z.of_nat bound -> 0 <= a <= d ->
  normalize_sample 0 d a = floor_sample 0 d a.
Proof.
  unfold float64_is_floor_upto. intros Htable Hd Ha.
  rewrite forallb_forall in Htable.
  assert (In d (map Z.of_nat (seq 1 bound))) as Hind.
  { apply in_map_iff. exists (Z.to_nat d). split; [lia | apply in_seq; lia]. }
  specialize (Htable d Hind). rewrite forallb_forall in Htable.
  apply Z.eqb_eq, Htable.
  apply in_map_iff. exists (Z.to_nat a). split; [lia | apply in_seq; lia].
Qed.

Lemma float64_is_floor_upto_255 : float64_is_floor_upto 255 = true.
Proof. vm_compute. reflexivity. Qed.

(** On samples of at most 8 bits the [float64] computation is exact enough:
    the sample written is the integer part of the exact quotient (checked
    on every pair of differences). *)
Lemma normalize_sample_floor_8bit (tile_min tile_max v : Z) :
  0 <= tile_min <= v -> v <= tile_max <= 255 -> tile_min < tile_max ->
  normalize_sample tile_min tile_max v = floor_sample tile_min tile_max v.
Proof.
  intros Hmin Hmax Hlt.
  pose proof (float64_is_floor_upto_spec 255 (v - tile_min) (tile_max - tile_min)
                float64_is_floor_upto_255) as Hfloor.
  assert (normalize_sample tile_min tile_max v
          = normalize_sample 0 (tile_max - tile_min) (v - tile_min)) as ->.
  { unfold normalize_sample. now rewrite !Z.sub_0_r. }
  assert (floor_sample tile_min tile_max v
          = floor_sample 0 (tile_max - tile_min) (v - tile_min)) as ->.
  { unfold floor_sample. now rewrite !Z.sub_0_r. }
  apply Hfloor; lia.
Qed.

(** * Edge cases, invariants and round trips *)

(** ** The samples of a tile file *)

Lemma holds_from_spec p count : forall d k,
  holds_from p d count = true -> d <= k < d + Z.of_nat count -> p k = true.
Proof.
  induction count as [|count IH]; intros d k Hall Hk; [lia |].
  cbn [holds_from] in Hall. apply andb_true_iff in Hall as [Hd Hrest].
  destruct (Z.eq_dec k d) as [-> | Hne]; [exact Hd |].
  apply (IH (d + 1)); [exact Hrest | lia].
Qed.

(** Checked on every difference of two 16-bit samples. *)
Lemma ends_of_range_16bit : holds_from ends_of_range 1 (Z.to_nat 65535) = true.
Proof. vm_compute. reflexivity. Qed.

(** The minimum of a tile of 16-bit samples is written as 0 and its maximum
    as 65535. *)
Lemma normalize_sample_ends tile_min tile_max :
  0 <= tile_min -> tile_min < tile_max -> tile_max <= 65535 ->
  normalize_sample tile_min tile_max tile_min = 0
  /\ normalize_sample tile_min tile_max tile_max = 65535.
Proof.
  intros Hmin Hlt Hmax.
  pose proof (holds_from_spec ends_of_range _ 1 (tile_max - tile_min) ends_of_range_16bit)
    as Hends.
  unfold ends_of_range in Hends.
  rewrite andb_true_iff, !Z.eqb_eq in Hends.
  destruct Hends as [H0 H1]; [lia |].
  unfold normalize_sample in *.
  rewrite !Z.sub_0_r, Z.sub_diag in *.
  split; assumption.
Qed.

(** The tile of a cell has the shape of a tile. *)
Lemma cell_image_shape image_data height width tile_size i j :
  0 < tile_size -> 0 <= i < height / tile_size -> 0 <= j < width / tile_size ->
  shape (cell_image image_data height width tile_size (i, j)) = [tile_size; tile_size]
  /\ length (buffer (cell_image image_data height width tile_size (i, j)))
     = Z.to_nat (tile_size * tile_size).
Proof.
  intros HT Hi Hj. unfold cell_image, normalized_tile. cbn [fst snd].
  assert (shape (tile_at image_data height width tile_size i j) = [tile_size; tile_size]
          /\ length (buffer (tile_at image_data height width tile_size i j))
             = Z.to_nat (tile_size * tile_size)) as [Hshape Hlen].
  { rewrite tile_at_window by assumption. cbn [shape buffer]. split; [reflexivity |].
    rewrite (flat_map_length_block _ (Z.to_nat tile_size)).
    - rewrite length_map, length_seq. lia.
    - intros y. now rewrite !length_map, length_seq. }
  assert (shape (zero_tile tile_size) = [tile_size; tile_size]
          /\ length (buffer (zero_tile tile_size)) = Z.to_nat (tile_size * tile_size))
    as Hzero.
  { cbn [zero_tile shape buffer]. rewrite repeat_length. split; [reflexivity | f_equal; lia]. }
  destruct (Np.min _) as [mn |]; [| exact Hzero].
  destruct (Np.max _) as [mx |]; [| exact Hzero].
  destruct (mx =? mn); [exact Hzero |].
  cbn [normalize shape buffer]. now rewrite length_map.
Qed.

(** The samples of a normalized tile are [uint16] values. *)
Lemma normalized_tile_samples tile tile_size :
  Forall is_uint16 (buffer (normalized_tile tile tile_size)).
Proof.
  assert (Forall is_uint16 (buffer (zero_tile tile_size))) as Hzero.
  { cbn [zero_tile buffer]. apply Forall_forall. intros v Hv.
    apply list_elem_of_In, repeat_spec in Hv. subst. unfold is_uint16. lia. }
  unfold normalized_tile.
  destruct (Np.min tile) as [mn |]; [| exact Hzero].
  destruct (Np.max tile) as [mx |]; [| exact Hzero].
  destruct (mx =? mn); [exact Hzero |].
  cbn [normalize buffer]. apply Forall_forall. intros v Hv.
  apply list_elem_of_In, in_map_iff in Hv as (u & <- & _).
  unfold normalize_sample, Np.astype_uint16, is_uint16.
  pose proof (Z.mod_pos_bound (Np.trunc
    (PrimFloat.mul (PrimFloat.div (Np.float64 (u - mn))
       (Np.float64 (mx - mn))) (Np.float64 65535))) 65536).
  lia.
Qed.

Lemma div_nonneg_neg a b : 0 <= a -> b < 0 -> a / b <= 0.
Proof.
  intros Ha Hb.
  pose proof (Z.div_mod a b ltac:(lia)).
  pose proof (Z.mod_neg_bound a b Hb). nia.
Qed.

Lemma range_nonpositive n : n <= 0 -> Py.range n = [].
Proof. intros Hn. unfold Py.range. now replace (Z.to_nat n) with 0%nat by lia. Qed.

Section EmptyGrid.

Variable sha256_hexdigest : list Z -> string.
Variables (fits_basename : string) (image_data : ndarray).
Variables height width tile_size : Z.

(** The loops of a grid with no row or no column do nothing. *)
Lemma empty_grid_loop tiles w :
  height / tile_size <= 0 \/ width / tile_size <= 0 ->
  for_each (Py.range (height / tile_size))
    (fun i => for_each (Py.range (width / tile_size))
                (fun j => process_tile sha256_hexdigest fits_basename image_data
                            height width tile_size i j))
    tiles w = (Ok tiles, w).
Proof.
  intros [Hr | Hc].
  - now rewrite (range_nonpositive _ Hr).
  - rewrite (range_nonpositive _ Hc). apply empty_rows_loop.
Qed.

End EmptyGrid.

(** The sample [(dy, dx)] of the tile of a cell that is not uniform. *)
Lemma cell_image_item image_data height width tile_size i j tile_min tile_max dy dx :
  0 < tile_size -> 0 <= i < height / tile_size -> 0 <= j < width / tile_size ->
  Np.min (tile_at image_data height width tile_size i j) = Ok tile_min ->
  Np.max (tile_at image_data height width tile_size i j) = Ok tile_max ->
  tile_max <> tile_min ->
  0 <= dy < tile_size -> 0 <= dx < tile_size ->
  Np.item2 (cell_image image_data height width tile_size (i, j)) tile_size dy dx
  = normalize_sample tile_min tile_max
      (window_sample image_data width tile_size i j dy dx).
Proof.
  intros HT Hi Hj Emin Emax Hne Hdy Hdx.
  unfold cell_image, normalized_tile. cbn [fst snd]. rewrite Emin, Emax.
  destruct (Z.eqb_spec tile_max tile_min); [contradiction |].
  unfold Np.item2. cbn [normalize buffer]. rewrite nth_lookup.
  change (map ?f ?l) with (f <$> l).
  rewrite list_lookup_fmap, (tile_at_lookup _ _ _ _ _ _ HT Hi Hj) by assumption.
  reflexivity.
Qed.

Section FullRange.

Variable sha256_hexdigest : list Z -> string.
Variables (fits_basename : string) (image_data : ndarray).
Variables height width tile_size : Z.

(** In the tile file of a cell of 16-bit samples whose minimum is below its
    maximum, the samples under the minimum are 0 and the samples under the
    maximum are 65535: the tile spans the whole 16-bit range. *)
Theorem normalized_tile_spans_full_range (i j tile_min tile_max : Z) :
  shape image_data = [height; width] ->
  0 < tile_size -> 0 <= i < height / tile_size -> 0 <= j < width / tile_size ->
  (forall dy dx, 0 <= dy < tile_size -> 0 <= dx < tile_size ->
     0 <= window_sample image_data width tile_size i j dy dx <= 65535
     /\ tile_min <= window_sample image_data width tile_size i j dy dx <= tile_max) ->
  (exists dy dx, 0 <= dy < tile_size /\ 0 <= dx < tile_size
                 /\ window_sample image_data width tile_size i j dy dx = tile_min) ->
  (exists dy dx, 0 <= dy < tile_size /\ 0 <= dx < tile_size
                 /\ window_sample image_data width tile_size i j dy dx = tile_max) ->
  tile_min < tile_max ->
  exists w tile,
    fits_to_tiles sha256_hexdigest fits_basename (PrimaryHDU (Some image_data))
      tile_size start = (Ok tt, w)
    /\ In (tile_id_of fits_basename i j +:+ ".png", Png tile) (written w)
    /\ forall dy dx, 0 <= dy < tile_size -> 0 <= dx < tile_size ->
         (window_sample image_data width tile_size i j dy dx = tile_min ->
          Np.item2 tile tile_size dy dx = 0)
         /\ (window_sample image_data width tile_size i j dy dx = tile_max ->
             Np.item2 tile tile_size dy dx = 65535).
Proof.
  intros Hshape HT Hi Hj Hbounds Hmin Hmax Hlt.
  pose proof (cell_fits tile_size height i HT Hi) as Hh.
  pose proof (cell_fits tile_size width j HT Hj) as Hw.
  rewrite (fits_to_tiles_grid _ _ _ _ _ _ Hshape HT Hh Hw). cbv zeta.
  destruct (tile_at_range image_data height width tile_size i j HT Hi Hj
              tile_min tile_max) as [Emin Emax];
    [intros; now apply Hbounds | exact Hmin | exact Hmax |].
  assert (0 <= tile_min /\ tile_max <= 65535) as [Hlo Hhi].
  { destruct Hmin as (y0 & x0 & Hy0 & Hx0 & Hmin).
    destruct Hmax as (y1 & x1 & Hy1 & Hx1 & Hmax).
    pose proof (Hbounds y0 x0 Hy0 Hx0) as [Hmin16 _]. rewrite Hmin in Hmin16.
    pose proof (Hbounds y1 x1 Hy1 Hx1) as [Hmax16 _]. rewrite Hmax in Hmax16. lia. }
  destruct (normalize_sample_ends tile_min tile_max Hlo Hlt Hhi) as [Hzero Hfull].
  eexists _, _. split; [reflexivity |]. cbn [written]. split.
  - apply in_or_app. left. apply in_map_iff. exists (i, j). split.
    + reflexivity.
    + apply grid_cells_in. lia.
  - intros dy dx Hdy Hdx.
    rewrite (cell_image_item _ _ _ _ _ _ tile_min tile_max) by (assumption || lia).
    split; intros ->; assumption.
Qed.

End FullRange.

(** ** File names *)

Lemma uint_has_char c d :
  has_char c "0123456789" = false -> has_char c (NilEmpty.string_of_uint d) = false.
Proof.
  intros Hc. cbn in Hc. repeat (apply orb_false_iff in Hc as [? Hc]).
  induction d; cbn; rewrite ?IHd; auto using orb_false_iff; apply orb_false_iff; auto.
Qed.

(** [str(n)] is made of digits and a sign. *)
Lemma str_has_char c z :
  has_char c "-0123456789" = false -> has_char c (Py.str z) = false.
Proof.
  intros Hc. cbn [has_char] in Hc. apply orb_false_iff in Hc as [Hminus Hc].
  pose proof (uint_has_char c) as Huint.
  assert (has_char c "0" = false) as Hzero.
  { cbn in *. repeat (apply orb_false_iff in Hc as [? Hc]).
    apply orb_false_iff; auto. }
  unfold Py.str, NilZero.string_of_int, NilZero.string_of_uint.
  destruct (Z.to_int z) as [d | d]; destruct d; cbn [has_char]; rewrite ?Hminus;
    try exact Hzero; try (apply (Huint _ Hc)).
  all: cbn [orb]; try exact Hzero; apply (Huint _ Hc).
Qed.

Lemma str_injective z z' : Py.str z = Py.str z' -> z = z'.
Proof.
  unfold Py.str. intros Heq. apply to_int_inj.
  assert (forall n, Z.to_int n <> Decimal.Pos Decimal.Nil
                    /\ Z.to_int n <> Decimal.Neg Decimal.Nil) as Hnonnil.
  { intros [|p|p]; cbn; split; try discriminate;
      intros [= Hp]; pose proof (DecimalPos.Unsigned.to_uint_nonnil p); contradiction. }
  destruct (Hnonnil z) as [Hz1 Hz2]. destruct (Hnonnil z') as [Hz1' Hz2'].
  pose proof (NilZero.isi _ Hz1 Hz2) as H1.
  pose proof (NilZero.isi _ Hz1' Hz2') as H2.
  rewrite Heq in H1. congruence.
Qed.

Lemma append_cancel_l (p s s' : string) : p +:+ s = p +:+ s' -> s = s'.
Proof. induction p as [|a p IH]; cbn; [auto | intros [= H]; auto]. Qed.

Lemma string_app_assoc (a b c : string) : (a +:+ b) +:+ c = a +:+ (b +:+ c).
Proof.
  induction a as [|x a IH]; [reflexivity |].
  change (String x ((a +:+ b) +:+ c) = String x (a +:+ (b +:+ c))). now rewrite IH.
Qed.

(** Two strings free of a separator that agree once followed by it and a
    remainder are the same string, and so are the remainders. *)
Lemma split_at_separator (c : ascii) (a a' b b' : string) :
  has_char c a = false -> has_char c a' = false ->
  a +:+ String c b = a' +:+ String c b' -> a = a' /\ b = b'.
Proof.
  revert a'. induction a as [|x a IH]; intros [|x' a'] Ha Ha'; cbn in *.
  - intros [= H]. auto.
  - intros [= Hx _]. subst x'. rewrite Ascii.eqb_refl in Ha'. discriminate.
  - intros [= Hx _]. subst x. rewrite Ascii.eqb_refl in Ha. discriminate.
  - intros [= Hx Hrest]. subst x'.
    apply orb_false_iff in Ha as [_ Ha]. apply orb_false_iff in Ha' as [_ Ha'].
    destruct (IH a' Ha Ha' Hrest) as [-> ->]. auto.
Qed.

(** The file name of a tile names its cell. *)
Lemma cell_filename_injective fits_basename cell cell' :
  cell_filename fits_basename cell = cell_filename fits_basename cell' -> cell = cell'.
Proof.
  destruct cell as [i j], cell' as [i' j']. unfold cell_filename, tile_id_of. cbn [fst snd].
  rewrite !string_app_assoc. intros Heq. apply append_cancel_l in Heq.
  apply append_cancel_l in Heq.
  change ("_" +:+ ?s) with (String "_"%char s) in Heq.
  apply split_at_separator in Heq as [Hi Hj]; try (now apply str_has_char).
  change (?s +:+ ".png") with (s +:+ String "."%char "png") in Hj.
  apply split_at_separator in Hj as [Hj _]; try (now apply str_has_char).
  apply str_injective in Hi, Hj. now subst.
Qed.

Lemma cell_filename_not_manifest fits_basename cell :
  cell_filename fits_basename cell <> fits_basename +:+ "_metadata.json".
Proof.
  unfold cell_filename, tile_id_of. rewrite !string_app_assoc. intros Heq.
  apply append_cancel_l in Heq. cbn in Heq. discriminate.
Qed.

Lemma range_NoDup n : NoDup (Py.range n).
Proof.
  unfold Py.range. apply NoDup_fmap_2; [| apply NoDup_seq].
  intros a b. lia.
Qed.

Lemma grid_cells_NoDup rows cols : NoDup (grid_cells rows cols).
Proof.
  unfold grid_cells. pose proof (range_NoDup rows) as Hrows. revert Hrows.
  generalize (Py.range rows) as rs. induction rs as [|i rs IH]; intros Hnd; cbn.
  - constructor.
  - apply NoDup_cons in Hnd as [Hi Hnd]. apply NoDup_app. split; [| split].
    + apply NoDup_fmap_2; [| apply range_NoDup]. intros a b [= ->]. reflexivity.
    + intros [i' j'] Hin Hin'. apply list_elem_of_In in Hin, Hin'.
      apply in_map_iff in Hin as (j0 & [= <- <-] & _).
      apply in_flat_map in Hin' as (i0 & Hi0 & Hin').
      apply in_map_iff in Hin' as (j1 & [= <- <-] & _).
      apply Hi. now apply list_elem_of_In.
    + now apply IH.
Qed.

(** The files of distinct cells, followed or not by the manifest, have
    distinct names. *)
Lemma cell_files_NoDup fits_basename image_data height width tile_size cells rest :
  NoDup cells ->
  (rest = []
   \/ exists document, rest = [(fits_basename +:+ "_metadata.json", JsonFile document)]) ->
  NoDup (map fst (map (cell_file fits_basename image_data height width tile_size) cells
                  ++ rest)).
Proof.
  intros Hcells Hrest.
  rewrite map_app, map_map. cbn [cell_file fst].
  apply NoDup_app. split; [| split].
  - change (map ?f ?l) with (f <$> l). apply NoDup_fmap_2; [| exact Hcells].
    intros c c'. apply cell_filename_injective.
  - intros name Hin Hin'. apply list_elem_of_In in Hin, Hin'.
    apply in_map_iff in Hin as (c & <- & _).
    destruct Hrest as [-> | (document & ->)]; [destruct Hin' |].
    destruct Hin' as [Heq | []]. cbn in Heq.
    symmetry in Heq. now apply cell_filename_not_manifest in Heq.
  - destruct Hrest as [-> | (document & ->)]; cbn; [constructor |].
    apply NoDup_singleton.
Qed.

Section Written.

Variable sha256_hexdigest : list Z -> string.
Variables (fits_basename : string) (image_data : ndarray).
Variables height width tile_size : Z.

(** The files of a run on a 2-D raster, however it ends: the tile files of
    the grid cells, in row-major order, and then the manifest unless the
    run stops before. *)
Lemma fits_to_tiles_written (r : outcome unit) (w : world) :
  shape image_data = [height; width] -> 0 <= height -> 0 <= width ->
  fits_to_tiles sha256_hexdigest fits_basename (PrimaryHDU (Some image_data))
    tile_size start = (r, w) ->
  exists rest,
    written w = map (cell_file fits_basename image_data height width tile_size)
                  (grid_cells (height / tile_size) (width / tile_size)) ++ rest
    /\ (rest = []
        \/ exists document,
             rest = [(fits_basename +:+ "_metadata.json", JsonFile document)]).
Proof.
  intros Hshape Hh Hw.
  assert (height / tile_size <= 0 \/ width / tile_size <= 0 ->
          grid_cells (height / tile_size) (width / tile_size) = []) as Hempty.
  { unfold grid_cells. intros [Hr | Hc].
    - now rewrite (range_nonpositive _ Hr).
    - rewrite (range_nonpositive _ Hc). cbn. now induction (Py.range _). }
  destruct (Z_lt_le_dec 0 tile_size) as [HT | HT];
    [destruct (Z_le_gt_dec tile_size height) as [Hfh | Hfh];
     [destruct (Z_le_gt_dec tile_size width) as [Hfw | Hfw] |] |].
  - rewrite (fits_to_tiles_grid _ _ _ _ _ _ Hshape HT Hfh Hfw). cbv zeta.
    intros [= <- <-]. cbn [written]. eexists. split; [reflexivity |]. right. eauto.
  - rewrite Hempty by (right; rewrite Z.div_small; lia).
    unfold fits_to_tiles. rewrite Hshape. unfold Py.floordiv.
    destruct (Z.eqb_spec tile_size 0) as [|_]; [lia |].
    unfold bind at 1. unfold lift at 1. unfold bind at 1. unfold lift at 1.
    unfold bind at 1.
    rewrite empty_grid_loop by (right; rewrite Z.div_small; lia).
    rewrite (Z.div_small width) by lia. cbn. intros [= <- <-]. exists []. auto.
  - rewrite Hempty by (left; rewrite Z.div_small; lia).
    unfold fits_to_tiles. rewrite Hshape. unfold Py.floordiv.
    destruct (Z.eqb_spec tile_size 0) as [|_]; [lia |].
    unfold bind at 1. unfold lift at 1. unfold bind at 1. unfold lift at 1.
    unfold bind at 1.
    rewrite empty_grid_loop by (left; rewrite Z.div_small; lia).
    rewrite (Z.div_small height) by lia. rewrite Z.mul_0_r. cbn.
    intros [= <- <-]. exists []. auto.
  - unfold fits_to_tiles. rewrite Hshape. unfold Py.floordiv.
    destruct (Z.eqb_spec tile_size 0) as [-> | Hne].
    { cbn. intros [= <- <-]. exists []. rewrite Hempty; [auto |].
      left. now rewrite Z.div_0_r. }
    assert (height / tile_size <= 0) as Hrows by (apply div_nonneg_neg; lia).
    rewrite Hempty by now left.
    unfold bind at 1. unfold lift at 1. unfold bind at 1. unfold lift at 1.
    unfold bind at 1.
    rewrite empty_grid_loop by now left.
    unfold bind, lift, log, write.
    destruct (Py.truediv_raises _) as [[] | e]; cbn; intros [= <- <-].
    + cbn [written]. eexists. split; [reflexivity |]. right. eauto.
    + exists []. auto.
Qed.

(** Every tile file a run writes, however the run ends, is a
    [tile_size x tile_size] array of [uint16] samples. *)
Theorem tile_files_are_uint16_tiles (r : outcome unit) (w : world)
    (name : string) (image : ndarray) :
  shape image_data = [height; width] -> 0 <= height -> 0 <= width ->
  fits_to_tiles sha256_hexdigest fits_basename (PrimaryHDU (Some image_data))
    tile_size start = (r, w) ->
  In (name, Png image) (written w) ->
  shape image = [tile_size; tile_size]
  /\ length (buffer image) = Z.to_nat (tile_size * tile_size)
  /\ Forall is_uint16 (buffer image).
Proof.
  intros Hshape Hh Hw Hrun Hin.
  destruct (fits_to_tiles_written r w Hshape Hh Hw Hrun) as (rest & Hwritten & Hrest).
  rewrite Hwritten in Hin. apply in_app_or in Hin as [Hin | Hin].
  - apply in_map_iff in Hin as ([i j] & [= <- <-] & Hcell).
    apply grid_cells_in in Hcell as [Hi Hj].
    assert (0 < tile_size) as HT.
    { destruct (Z_lt_le_dec 0 tile_size) as [| HT]; [assumption |]. exfalso.
      destruct (Z.eq_dec tile_size 0) as [-> | Hne].
      - rewrite Z.div_0_r in Hi. lia.
      - pose proof (div_nonneg_neg height tile_size Hh ltac:(lia)). lia. }
    destruct (cell_image_shape image_data height width tile_size i j HT Hi Hj) as [Hs Hl].
    split; [exact Hs |]. split; [exact Hl |]. apply normalized_tile_samples.
  - destruct Hrest as [-> | (document & ->)]; [destruct Hin |].
    destruct Hin as [[=] | []].
Qed.

(** No two files of a run share a name: every tile has a file of its own,
    and none takes the name of the manifest. *)
Theorem written_file_names_distinct (r : outcome unit) (w : world) :
  shape image_data = [height; width] -> 0 <= height -> 0 <= width ->
  fits_to_tiles sha256_hexdigest fits_basename (PrimaryHDU (Some image_data))
    tile_size start = (r, w) ->
  NoDup (map fst (written w)).
Proof.
  intros Hshape Hh Hw Hrun.
  destruct (fits_to_tiles_written r w Hshape Hh Hw Hrun) as (rest & -> & Hrest).
  apply cell_files_NoDup; [apply grid_cells_NoDup | exact Hrest].
Qed.

End Written.

(** ** Reconstruction of a manifest *)

Lemma greatest_unique (f : tile_record -> Z) tiles b b' :
  greatest f tiles b -> greatest f tiles b' -> b = b'.
Proof.
  intros [Hle (t & Hin & Ht)] [Hle' (t' & Hin' & Ht')].
  pose proof (Hle t' Hin'). pose proof (Hle' t Hin). lia.
Qed.

(** ** The tiles of a split, read back *)

Lemma read_png_written files name image :
  NoDup (map fst files) -> In (name, Png image) files ->
  read_png files name = Some image.
Proof.
  intros Hnd Hin. unfold read_png.
  assert (forall f, In (name, f) files -> f = Png image) as Hunique.
  { clear - Hnd Hin. induction files as [|[n g] files IH]; [destruct Hin |].
    cbn [map fst] in Hnd. apply NoDup_cons in Hnd as [Hn Hnd].
    intros f [Hf | Hf]; destruct Hin as [Hg | Hg].
    - congruence.
    - injection Hf as -> ->. exfalso. apply Hn, list_elem_of_In.
      change name with (fst (name, Png image)). now apply in_map.
    - injection Hg as -> ->. exfalso. apply Hn, list_elem_of_In.
      change name with (fst (name, f)). now apply in_map.
    - now apply IH. }
  destruct (find _ (rev files)) as [[n f] |] eqn:Hfind.
  - apply find_some in Hfind as [Hf Hname]. cbn [fst] in Hname.
    apply String.eqb_eq in Hname. subst n. apply in_rev in Hf.
    now rewrite (Hunique f Hf).
  - apply in_rev in Hin. apply (find_none _ _ Hfind) in Hin.
    cbn [fst] in Hin. now rewrite String.eqb_refl in Hin.
Qed.

Lemma read_errors_none imread tiles :
  (forall t, In t tiles -> unusable imread t = false) -> read_errors imread tiles = [].
Proof.
  unfold read_errors. induction tiles as [|t tiles IH]; intros Hall; [reflexivity |].
  rewrite filter_cons. destruct (decide _) as [Htrue | _].
  - rewrite (Hall t) in Htrue by now left. destruct Htrue.
  - apply IH. intros u Hu. apply Hall. now right.
Qed.

Lemma squeeze_leading_pair a b : squeeze_leading [a; b] = [a; b].
Proof. destruct a as [|[p|p|]|p]; reflexivity. Qed.

Section RoundTrip.

Variable sha256_hexdigest : list Z -> string.
Variables (fits_basename : string) (image_data : ndarray).
Variables height width tile_size : Z.

Local Abbreviation tile_record_of :=
  (cell_tile_record sha256_hexdigest fits_basename image_data height width tile_size).

(** The rectangle of a cell holds the samples whose row and column it is. *)
Lemma inside_cell i j y x :
  0 < tile_size ->
  inside (tile_record_of (i, j)) y x <-> i = y / tile_size /\ j = x / tile_size.
Proof.
  intros HT. unfold inside. cbn [cell_tile_record rec_y_start rec_y_end rec_x_start
    rec_x_end fst snd]. split.
  - intros [Hy Hx]. split.
    + apply (Z.div_unique y tile_size i (y - i * tile_size)); lia.
    + apply (Z.div_unique x tile_size j (x - j * tile_size)); lia.
  - intros [-> ->].
    pose proof (Z.div_mod y tile_size ltac:(lia)).
    pose proof (Z.mod_pos_bound y tile_size HT).
    pose proof (Z.div_mod x tile_size ltac:(lia)).
    pose proof (Z.mod_pos_bound x tile_size HT). lia.
Qed.

Lemma cells_non_overlapping cells :
  0 < tile_size -> NoDup cells -> non_overlapping (map tile_record_of cells).
Proof.
  intros HT. induction cells as [|[i j] cells IH]; intros Hnd; cbn [map non_overlapping].
  - exact I.
  - apply NoDup_cons in Hnd as [Hc Hnd]. split; [| now apply IH].
    intros u y x Hu Hin Hin'. apply in_map_iff in Hu as ([i' j'] & <- & Hc').
    apply inside_cell in Hin, Hin'; try assumption.
    destruct Hin as [-> ->], Hin' as [-> ->].
    apply Hc. now apply list_elem_of_In.
Qed.

Lemma cells_well_placed rows cols t :
  0 < tile_size -> In t (map tile_record_of (grid_cells rows cols)) -> well_placed t.
Proof.
  intros HT Hin. apply in_map_iff in Hin as ([i j] & <- & Hcell).
  apply grid_cells_in in Hcell. unfold well_placed. cbn. nia.
Qed.

Lemma cells_greatest rows cols :
  0 < tile_size -> 0 < rows -> 0 < cols ->
  greatest rec_y_end (map tile_record_of (grid_cells rows cols)) (rows * tile_size)
  /\ greatest rec_x_end (map tile_record_of (grid_cells rows cols)) (cols * tile_size).
Proof.
  intros HT Hrows Hcols. split; split.
  - intros t Hin. apply in_map_iff in Hin as ([i j] & <- & Hcell).
    apply grid_cells_in in Hcell. cbn. nia.
  - exists (tile_record_of (rows - 1, 0)). split.
    + apply in_map, grid_cells_in. lia.
    + cbn. f_equal. lia.
  - intros t Hin. apply in_map_iff in Hin as ([i j] & <- & Hcell).
    apply grid_cells_in in Hcell. cbn. nia.
  - exists (tile_record_of (0, cols - 1)). split.
    + apply in_map, grid_cells_in. lia.
    + cbn. f_equal. lia.
Qed.

(** The block the reconstruction reads for a cell is the tile written for
    it, taken whole. *)
Lemma cell_tile_block files i j :
  0 < tile_size -> 0 <= i < height / tile_size -> 0 <= j < width / tile_size ->
  NoDup (map fst files) ->
  In (cell_file fits_basename image_data height width tile_size (i, j)) files ->
  tile_block (read_png files) (tile_record_of (i, j))
  = Some (cell_image image_data height width tile_size (i, j), (tile_size, tile_size)).
Proof.
  intros HT Hi Hj Hnd Hin. unfold tile_block.
  cbn [cell_tile_record rec_filename rec_y_start rec_y_end rec_x_start rec_x_end fst snd].
  rewrite (read_png_written files _ (cell_image image_data height width tile_size (i, j)))
    by assumption.
  destruct (cell_image_shape image_data height width tile_size i j HT Hi Hj) as [-> _].
  replace ((i + 1) * tile_size - i * tile_size) with tile_size by lia.
  replace ((j + 1) * tile_size - j * tile_size) with tile_size by lia.
  unfold broadcast2. rewrite squeeze_leading_pair, Z.eqb_refl. reflexivity.
Qed.

(** The sample of a tile written, as the reconstruction takes it. *)
Lemma cell_broadcast_item i j dy dx :
  0 < tile_size -> 0 <= dy < tile_size -> 0 <= dx < tile_size ->
  broadcast_item (cell_image image_data height width tile_size (i, j))
    tile_size tile_size dy dx mod 65536
  = Np.item2 (cell_image image_data height width tile_size (i, j)) tile_size dy dx.
Proof.
  intros HT Hdy Hdx. unfold broadcast_item, Np.item2.
  assert ((if tile_size =? 1 then 0 else dy) = dy) as ->.
  { destruct (Z.eqb_spec tile_size 1); lia. }
  assert ((if tile_size =? 1 then 0 else dx) = dx) as ->.
  { destruct (Z.eqb_spec tile_size 1); lia. }
  apply Z.mod_small.
  pose proof (normalized_tile_samples
                (tile_at image_data height width tile_size i j) tile_size) as Hall.
  unfold cell_image. cbn [fst snd].
  destruct (nth_in_or_default (Z.to_nat (dy * tile_size + dx))
              (buffer (normalized_tile (tile_at image_data height width tile_size i j)
                         tile_size)) 0) as [Hin | ->]; [| lia].
  rewrite Forall_forall in Hall. apply list_elem_of_In, Hall in Hin.
  unfold is_uint16 in Hin. lia.
Qed.

(** Splitting a raster of 16-bit samples and reconstructing from the files
    written gives the mosaic of the normalized tiles, not the raster: the
    image has the height and the width of the grid (what is left of the
    raster beyond the last full tile is dropped), each of its samples is the
    sample of the tile file of its cell, the reconstruction logs no error,
    and the image is saved under the base name of the source. *)
Theorem split_then_reconstruct (metadata_file : string) :
  shape image_data = [height; width] ->
  0 < tile_size -> tile_size <= height -> tile_size <= width ->
  (forall y x, 0 <= y < height -> 0 <= x < width ->
     is_uint16 (Np.item2 image_data width y x)) ->
  exists w document canvas,
    fits_to_tiles sha256_hexdigest fits_basename (PrimaryHDU (Some image_data))
      tile_size start = (Ok tt, w)
    /\ manifest_written w = Some document
    /\ reconstruct_image_from_tiles metadata_file (Some document)
         (read_png (written w)) start
       = (Ok tt,
          {| logs := [Info_reconstructed_saved
                        ("reconstructed_" +:+ Py.basename fits_basename +:+ ".png")];
             written := [("reconstructed_" +:+ Py.basename fits_basename +:+ ".png",
                          Png canvas)] |})
    /\ shape canvas = [height / tile_size * tile_size; width / tile_size * tile_size]
    /\ forall y x,
         0 <= y < height / tile_size * tile_size ->
         0 <= x < width / tile_size * tile_size ->
         Np.item2 canvas (width / tile_size * tile_size) y x
         = Np.item2 (cell_image image_data height width tile_size
                       (y / tile_size, x / tile_size))
             tile_size (y mod tile_size) (x mod tile_size).
Proof.
  intros Hshape HT Hfh Hfw _.
  rewrite (fits_to_tiles_grid _ _ _ _ _ _ Hshape HT Hfh Hfw). cbv zeta.
  set (rows := height / tile_size). set (cols := width / tile_size).
  set (cells := grid_cells rows cols).
  assert (0 < rows) as Hrows by (apply Z.div_str_pos; lia).
  assert (0 < cols) as Hcols by (apply Z.div_str_pos; lia).
  set (files := map (cell_file fits_basename image_data height width tile_size) cells
                ++ [(fits_basename +:+ "_metadata.json",
                     JsonFile (metadata_dict fits_basename tile_size
                       (map (cell_record sha256_hexdigest fits_basename image_data
                               height width tile_size) cells)))]).
  assert (NoDup (map fst files)) as Hnames.
  { apply cell_files_NoDup; [apply grid_cells_NoDup | right; eauto]. }
  set (tiles := map tile_record_of cells).
  assert (tiles <> []) as Hne.
  { assert (In (tile_record_of (0, 0)) tiles) as Hin
      by (apply in_map, grid_cells_in; lia).
    intros Hnil. rewrite Hnil in Hin. destruct Hin. }
  destruct (reconstruct_places_tiles metadata_file
              [("fits_file", JStr fits_basename); ("tile_size", JInt tile_size);
               ("tiles", JList (map tile_json tiles))]
              (JInt tile_size) tiles (read_png files) eq_refl eq_refl Hne
              (fun t => cells_well_placed rows cols t HT))
    as (h & w & Hgy & Hgx & Hrun).
  destruct (cells_greatest rows cols HT Hrows Hcols) as [Hgy' Hgx'].
  pose proof (greatest_unique _ _ _ _ Hgy Hgy') as ->.
  pose proof (greatest_unique _ _ _ _ Hgx Hgx') as ->.
  assert (forall i j, 0 <= i < rows -> 0 <= j < cols ->
            tile_block (read_png files) (tile_record_of (i, j))
            = Some (cell_image image_data height width tile_size (i, j),
                    (tile_size, tile_size))) as Hblock.
  { intros i j Hi Hj. apply cell_tile_block; try assumption.
    apply in_or_app. left. apply in_map, grid_cells_in. auto. }
  assert (read_errors (read_png files) tiles = []) as Herrors.
  { apply read_errors_none. intros t Hin.
    apply in_map_iff in Hin as ([i j] & <- & Hcell). apply grid_cells_in in Hcell.
    unfold unusable. now rewrite Hblock. }
  rewrite Herrors in Hrun. cbv zeta in Hrun.
  change (Py.assoc "fits_file" _) with (Some (JStr fits_basename)) in Hrun.
  cbv iota beta in Hrun. cbn [app] in Hrun.
  assert ((rows * tile_size =? 0) || (cols * tile_size =? 0) = false) as Hsamples.
  { apply orb_false_iff. rewrite !Z.eqb_neq. nia. }
  rewrite Hsamples in Hrun.
  eexists _, _, _. split; [reflexivity |]. split.
  { unfold manifest_written. cbn [written]. unfold files. rewrite last_snoc. reflexivity. }
  cbn [written]. rewrite cell_tile_record_json. fold tiles.
  split; [exact Hrun |]. split.
  { now rewrite fold_painted_shape. }
  intros y x Hy Hx.
  assert (0 <= y / tile_size < rows) as Hi.
  { split; [apply Z.div_pos; lia | apply Z.div_lt_upper_bound; lia]. }
  assert (0 <= x / tile_size < cols) as Hj.
  { split; [apply Z.div_pos; lia | apply Z.div_lt_upper_bound; lia]. }
  rewrite (canvas_inside (read_png files) (rows * tile_size) (cols * tile_size) tiles
             (tile_record_of (y / tile_size, x / tile_size)) y x Hy Hx).
  - rewrite Hblock by assumption.
    cbn [cell_tile_record rec_y_start rec_x_start fst snd].
    replace (y - y / tile_size * tile_size) with (y mod tile_size)
      by (rewrite Z.mod_eq; lia).
    replace (x - x / tile_size * tile_size) with (x mod tile_size)
      by (rewrite Z.mod_eq; lia).
    apply cell_broadcast_item; try assumption; apply Z.mod_pos_bound; assumption.
  - apply cells_non_overlapping; [assumption | apply grid_cells_NoDup].
  - apply in_map, grid_cells_in. auto.
  - now apply inside_cell.
  - cbn [blank_canvas buffer]. rewrite repeat_length. f_equal. lia.
Qed.

End RoundTrip.

(** ** The scan of arbitrary files *)

Lemma for_each_app {St A S} (xs ys : list A) (body : A -> S -> M St S) (s : S) (w : St) :
  for_each (xs ++ ys) body s w
  = (let* s' := for_each xs body s in for_each ys body s') w.
Proof.
  revert s w. induction xs as [|x xs IH]; intros s w; [reflexivity |].
  cbn [app for_each]. unfold bind.
  destruct (body x s w) as [[s1 | e] w1]; [| reflexivity].
  rewrite IH. reflexivity.
Qed.

Lemma scan_tile_logs tile s : scan_logs (scan_tile tile s).2 = scan_logs s.
Proof.
  unfold scan_tile, bind, lift.
  destruct (Py.getitem tile "hash") as [tile_hash | e]; [| reflexivity].
  destruct (Py.getitem tile "tile_id") as [tile_id | e]; [| reflexivity].
  destruct (hashable tile_hash) as [key | e]; [| reflexivity].
  destruct (hash_dict s !! key) as [first |];
    destruct (Py.getitem tile "filename") as [filename | e]; reflexivity.
Qed.

Lemma scan_tiles_logs items :
  forall s, scan_logs (for_each items (fun tile _ => scan_tile tile) tt s).2 = scan_logs s.
Proof.
  induction items as [|tile items IH]; intros s; [reflexivity |].
  cbn [for_each]. unfold bind.
  pose proof (scan_tile_logs tile s) as Hlog.
  destruct (scan_tile tile s) as [[[] | e] s1]; cbn [snd] in *.
  - now rewrite IH.
  - exact Hlog.
Qed.

(** One file never stops the scan: whatever it holds, the exception of
    its [try] block is logged and the scan goes on. *)
Lemma scan_file_returns entry s :
  exists s',
    scan_file entry s = (Ok tt, s')
    /\ (scan_logs s' = scan_logs s /\ entry.2 <> None
        \/ scan_logs s' = scan_logs s ++ [Error_reading_metadata entry.1]).
Proof.
  unfold scan_file, try_except.
  match goal with |- context [match ?body s with _ => _ end] => set (run := body s) end.
  assert (scan_logs run.2 = scan_logs s) as Hlog.
  { subst run. unfold bind, lift.
    destruct (load entry.2) as [metadata | e]; [| reflexivity].
    destruct (Py.get_default metadata "tiles" (JList [])) as [tiles | e]; [| reflexivity].
    destruct (Py.iter tiles) as [items | e]; [| reflexivity].
    apply scan_tiles_logs. }
  assert (entry.2 = None -> exists e, run.1 = Raise e) as Hnone.
  { intros Hn. subst run. unfold bind, lift. rewrite Hn. cbn. eauto. }
  destruct run as [[[] | e] s1]; cbn [fst snd] in *.
  - exists s1. split; [reflexivity |]. left. split; [exact Hlog |].
    intros Hn. destruct (Hnone Hn) as [e He]. discriminate.
  - eexists. split; [reflexivity |]. right. cbn. now rewrite Hlog.
Qed.

Lemma scan_files_return files :
  forall s, exists s' failed,
    for_each files (fun entry _ => scan_file entry) tt s = (Ok tt, s')
    /\ sublist failed (map fst files)
    /\ (forall path, In (path, None) files -> In path failed)
    /\ scan_logs s' = scan_logs s ++ map Error_reading_metadata failed.
Proof.
  induction files as [|entry files IH]; intros s.
  - exists s, []. cbn. rewrite app_nil_r. repeat split; [constructor | tauto].
  - destruct (scan_file_returns entry s) as (s1 & Hrun1 & Hlog1).
    destruct (IH s1) as (s2 & failed & Hrun2 & Hsub & Hnone & Hlog2).
    cbn [for_each map]. unfold bind. rewrite Hrun1, Hrun2.
    destruct Hlog1 as [[Hlog1 Hsome] | Hlog1].
    + exists s2, failed. split; [reflexivity |]. split; [now constructor |]. split.
      * intros path [Heq | Hin]; [| now apply Hnone].
        subst entry. cbn in Hsome. congruence.
      * now rewrite Hlog2, Hlog1.
    + exists s2, (entry.1 :: failed). split; [reflexivity |].
      split; [now constructor |]. split.
      * intros path [Heq | Hin]; [left; now subst entry | right; now apply Hnone].
      * rewrite Hlog2, Hlog1, <- app_assoc. reflexivity.
Qed.

Lemma scan_log_all (ds : list duplicate) :
  forall s,
    for_each ds (fun d _ => scan_log (Info_duplicate d)) tt s
    = (Ok tt, {| hash_dict := hash_dict s; duplicates := duplicates s;
                 scan_logs := scan_logs s ++ map Info_duplicate ds |}).
Proof.
  induction ds as [|d ds IH]; intros s.
  - cbn. rewrite app_nil_r. now destruct s.
  - cbn [for_each]. unfold bind, scan_log at 1. rewrite IH. cbn. now rewrite <- app_assoc.
Qed.

(** The end of [find_duplicates]: the report of the pairs collected. *)
Lemma find_duplicates_report files s1 :
  for_each files (fun entry _ => scan_file entry) tt scan_start = (Ok tt, s1) ->
  find_duplicates files scan_start
  = (Ok tt, {| hash_dict := hash_dict s1; duplicates := duplicates s1;
               scan_logs := scan_logs s1 ++ duplicates_report (duplicates s1) |}).
Proof.
  intros Hrun. unfold find_duplicates, bind. rewrite Hrun.
  destruct (duplicates s1) as [|d ds] eqn:Hds.
  - unfold scan_log. now rewrite Hds.
  - unfold scan_log at 1. rewrite scan_log_all. cbn. now rewrite Hds, <- app_assoc.
Qed.







(** ** A manifest with a malformed tile *)

Lemma pairs_after_app seen records more :
  pairs_after seen (records ++ more)
  = pairs_after seen records ++ pairs_after (seen ++ records) more.
Proof.
  revert seen. induction records as [|t records IH]; intros seen.
  - cbn. now rewrite app_nil_r.
  - cbn [app pairs_after]. rewrite IH, <- app_assoc. cbn [app].
    destruct (first_seen seen (rec_hash t)); reflexivity.
Qed.

(** The scan of a manifest stops at the first tile without a hash: the
    tiles before it are indexed, one error is logged, and what follows the
    tile is not looked at. *)
Lemma scan_file_malformed path fields good bad rest seen s e :
  Py.assoc "tiles" fields = Some (JList (map tile_json good ++ bad :: rest)) ->
  Py.getitem bad "hash" = Raise e ->
  index_of seen s ->
  exists s',
    scan_file (path, Some (JObj fields)) s = (Ok tt, s')
    /\ index_of (seen ++ good) s'
    /\ duplicates s' = duplicates s ++ map pair_json (pairs_after seen good)
    /\ scan_logs s' = scan_logs s ++ [Error_reading_metadata path].
Proof.
  intros Htiles Hbad Hidx.
  destruct (scan_tiles_records good seen s Hidx) as (s1 & Hrun1 & Hidx1 & Hdup1 & Hlog1).
  unfold scan_file, try_except, bind at 1, lift at 1. cbn [load snd fst].
  unfold bind at 1, lift at 1. cbn [Py.get_default]. rewrite Htiles.
  unfold bind at 1, lift at 1. cbn [Py.iter].
  rewrite for_each_app. unfold bind at 1. rewrite Hrun1.
  cbn [for_each]. unfold bind at 1.
  assert (scan_tile bad s1 = (Raise e, s1)) as ->.
  { unfold scan_tile, bind, lift. now rewrite Hbad. }
  eexists. split; [reflexivity |]. cbn [hash_dict duplicates scan_logs].
  split; [exact Hidx1 |]. split; [exact Hdup1 |]. now rewrite Hlog1.
Qed.

(** A tile entry without a hash hides the rest of its manifest from the
    duplicate detector: the pairs reported are those of the records of the
    other manifests and of the records that precede the entry, whatever
    follows it, and the file is logged as an error. *)
Theorem malformed_tile_hides_later_tiles
    (before after : list (string * option manifest))
    (path fits_basename : string) (tile_size : Z)
    (good : list tile_record) (bad : json) (rest : list json) (e : exn) :
  Py.getitem bad "hash" = Raise e ->
  exists s,
    find_duplicates
      (corpus_files before
       ++ (path, Some (metadata_dict fits_basename tile_size
                         (map tile_json good ++ bad :: rest)))
          :: corpus_files after)
      scan_start = (Ok tt, s)
    /\ duplicates s
       = map pair_json
           (reference_pairs (corpus_records before ++ good ++ corpus_records after))
    /\ In (Error_reading_metadata path) (scan_logs s).
Proof.
  intros Hbad.
  destruct (scan_files_corpus before [] scan_start) as (s1 & Hrun1 & Hidx1 & Hdup1).
  { intros [k | h]; cbn; apply lookup_empty. }
  cbn [app] in Hidx1.
  destruct (scan_file_malformed path
              [("fits_file", JStr fits_basename); ("tile_size", JInt tile_size);
               ("tiles", JList (map tile_json good ++ bad :: rest))]
              good bad rest _ s1 e eq_refl Hbad Hidx1)
    as (s2 & Hrun2 & Hidx2 & Hdup2 & Hlog2).
  destruct (scan_files_corpus after _ s2 Hidx2) as (s3 & Hrun3 & _ & Hdup3).
  destruct (scan_files_return (corpus_files after) s2) as (s3' & failed & Hrun3' & _ & _ & Hlog3).
  rewrite Hrun3 in Hrun3'. injection Hrun3' as <-.
  eexists. split.
  - apply find_duplicates_report.
    rewrite for_each_app. unfold bind at 1. rewrite Hrun1.
    cbn [for_each]. unfold bind at 1.
    change (metadata_dict fits_basename tile_size (map tile_json good ++ bad :: rest))
      with (JObj [("fits_file", JStr fits_basename); ("tile_size", JInt tile_size);
                  ("tiles", JList (map tile_json good ++ bad :: rest))]).
    rewrite Hrun2. exact Hrun3.
  - cbn [duplicates scan_logs]. split.
    + rewrite Hdup3, Hdup2, Hdup1. cbn [duplicates scan_start app].
      rewrite reference_pairs_after, !pairs_after_app, !map_app. cbn [app].
      now rewrite <- app_assoc.
    + rewrite Hlog3, Hlog2. rewrite !in_app_iff. left. left. right. now left.
Qed.

(** ** A raster of uniform tiles *)

Lemma pairs_after_same_hash (first : tile_record) (records : list tile_record) :
  (forall t, In t records -> rec_hash t = rec_hash first) ->
  forall seen,
    pairs_after (first :: seen) records = map (fun t => (t, first)) records.
Proof.
  intros Hsame. induction records as [|t records IH]; intros seen; [reflexivity |].
  cbn [pairs_after map]. unfold first_seen at 1. cbn [find].
  rewrite (Hsame t) by now left. rewrite String.eqb_refl.
  f_equal. apply (IH (fun u Hu => Hsame u (or_intror Hu)) (seen ++ [t])).
Qed.

Section UniformRaster.

Variable sha256_hexdigest : list Z -> string.
Variables (fits_basename : string) (image_data : ndarray).
Variables height width tile_size : Z.

(** When every tile of a raster is uniform (a blank frame), the scan of its
    manifest reports every tile but the first as a duplicate of the first:
    one pair less than there are tiles. *)
Theorem uniform_raster_reports_every_later_tile (path : string) :
  shape image_data = [height; width] ->
  0 < tile_size -> tile_size <= height -> tile_size <= width ->
  (forall i j, 0 <= i < height / tile_size -> 0 <= j < width / tile_size ->
     uniform (tile_at image_data height width tile_size i j) = true) ->
  exists w document s later,
    fits_to_tiles sha256_hexdigest fits_basename (PrimaryHDU (Some image_data))
      tile_size start = (Ok tt, w)
    /\ manifest_written w = Some document
    /\ find_duplicates [(path, Some document)] scan_start = (Ok tt, s)
    /\ grid_cells (height / tile_size) (width / tile_size) = (0, 0) :: later
    /\ duplicates s
       = map (fun cell => (JStr (tile_id_of fits_basename cell.1 cell.2),
                           JStr (cell_filename fits_basename cell),
                           JStr (tile_id_of fits_basename 0 0),
                           JStr (cell_filename fits_basename (0, 0))))
           later
    /\ Z.of_nat (length (duplicates s))
       = height / tile_size * (width / tile_size) - 1.
Proof.
  intros Hshape HT Hfh Hfw Huniform.
  rewrite (fits_to_tiles_grid _ _ _ _ _ _ Hshape HT Hfh Hfw). cbv zeta.
  set (rows := height / tile_size) in *. set (cols := width / tile_size) in *.
  assert (0 < rows) as Hrows by (apply Z.div_str_pos; lia).
  assert (0 < cols) as Hcols by (apply Z.div_str_pos; lia).
  pose proof (grid_cells_lookup rows cols 0 0 ltac:(lia) ltac:(lia)) as Hfirst.
  pose proof (grid_cells_length rows cols ltac:(lia) ltac:(lia)) as Hlen.
  pose proof (fun i j => proj1 (grid_cells_in rows cols i j)) as Hcells.
  destruct (grid_cells rows cols) as [|first later] eqn:Hgrid; [discriminate |].
  cbn in Hfirst. injection Hfirst as ->.
  set (record := cell_tile_record sha256_hexdigest fits_basename image_data
                   height width tile_size).
  set (m := {| m_fits_file := fits_basename; m_tile_size := tile_size;
               m_tiles := map record ((0, 0) :: later) |}).
  destruct (find_duplicates_corpus [(path, Some m)]) as (s & Hscan & Hdup).
  eexists _, _, s, later. split; [reflexivity |]. split.
  { unfold manifest_written. cbn [written]. rewrite last_snoc. reflexivity. }
  rewrite (cell_tile_record_json sha256_hexdigest fits_basename image_data
             height width tile_size).
  split; [exact Hscan |]. split; [reflexivity |].
  assert (forall cell, In cell ((0, 0) :: later) ->
            rec_hash (record cell) = rec_hash (record (0, 0))) as Hsame.
  { assert (forall cell, In cell ((0, 0) :: later) ->
              cell_image image_data height width tile_size cell = zero_tile tile_size)
      as Hzero.
    { intros [i j] Hin. apply Hcells in Hin as [Hi Hj]. unfold cell_image. cbn [fst snd].
      apply uniform_normalized_zero. now apply Huniform. }
    intros cell Hin. subst record. cbn [cell_tile_record rec_hash].
    rewrite (Hzero cell Hin), (Hzero (0, 0)) by now left. reflexivity. }
  assert (duplicates s
          = map (fun cell => (JStr (tile_id_of fits_basename cell.1 cell.2),
                              JStr (cell_filename fits_basename cell),
                              JStr (tile_id_of fits_basename 0 0),
                              JStr (cell_filename fits_basename (0, 0)))) later) as Hpairs.
  { rewrite Hdup. cbn [corpus_records flat_map snd m m_tiles map app]. rewrite app_nil_r.
    cbn [pairs_after first_seen find app].
    rewrite (pairs_after_same_hash (record (0, 0)) (map record later)).
    - rewrite !map_map. reflexivity.
    - intros t Hin. apply in_map_iff in Hin as (cell & <- & Hin).
      apply Hsame. now right. }
  split; [exact Hpairs |].
  rewrite Hpairs, length_map. cbn [length] in Hlen. lia.
Qed.

End UniformRaster.

(** ** A manifest without the name of its source *)

(** A manifest object without the key [fits_file] (one that names its
    source otherwise, say) is rejected only after every tile has been
    placed: the errors of the tiles are logged, then [KeyError] is raised
    and no image is written. *)
Theorem reconstruct_needs_fits_file (metadata_file : string)
    (fields : list (string * json)) (tile_size_value : json)
    (tiles : list tile_record) (imread : string -> option ndarray) :
  Py.assoc "tile_size" fields = Some tile_size_value ->
  Py.assoc "tiles" fields = Some (JList (map tile_json tiles)) ->
  Py.assoc "fits_file" fields = None ->
  tiles <> [] ->
  (forall t, In t tiles -> well_placed t) ->
  reconstruct_image_from_tiles metadata_file (Some (JObj fields)) imread start
  = (Raise KeyError, {| logs := read_errors imread tiles; written := [] |}).
Proof.
  intros Hsize Htiles Hname Hne Hplaced.
  destruct (reconstruct_places_tiles metadata_file fields tile_size_value tiles imread
              Hsize Htiles Hne Hplaced) as (height & width & _ & _ & Hrun).
  rewrite Hrun, Hname. reflexivity.
Qed.

(** ** Tile sizes that are not positive *)

Lemma div_pos_neg a b : 0 < a -> b < 0 -> a / b < 0.
Proof.
  intros Ha Hb.
  pose proof (Z.div_mod a b ltac:(lia)).
  pose proof (Z.mod_neg_bound a b Hb). nia.
Qed.

Section TileSize.

Variable sha256_hexdigest : list Z -> string.
Variables (fits_basename : string) (image_data : ndarray).
Variables height width tile_size : Z.

(** A tile size of zero stops the run at the first division. A negative
    tile size does not: no tile is cut, yet the run reports a positive
    number of tiles as completed and writes a manifest without tiles,
    which the reconstruction then rejects with [ValueError]. *)
Theorem fits_to_tiles_nonpositive_tile_size :
  shape image_data = [height; width] -> 0 < height -> 0 < width ->
  tile_size <= 0 ->
  fits_to_tiles sha256_hexdigest fits_basename (PrimaryHDU (Some image_data))
    tile_size start
  = (if tile_size =? 0 then (Raise ZeroDivisionError, start)
     else (Ok tt,
           {| logs := [Info_completed (width / tile_size * (height / tile_size));
                       Info_metadata_saved (fits_basename +:+ "_metadata.json")];
              written := [(fits_basename +:+ "_metadata.json",
                           JsonFile (metadata_dict fits_basename tile_size []))] |}))
  /\ (tile_size < 0 ->
      0 < width / tile_size * (height / tile_size)
      /\ forall metadata_file imread,
           reconstruct_image_from_tiles metadata_file
             (Some (metadata_dict fits_basename tile_size [])) imread start
           = (Raise ValueError, start)).
Proof.
  intros Hshape Hh Hw HT.
  assert (tile_size < 0 -> 0 < width / tile_size * (height / tile_size)) as Htotal.
  { intros Hneg.
    pose proof (div_pos_neg height tile_size Hh Hneg).
    pose proof (div_pos_neg width tile_size Hw Hneg). nia. }
  split.
  - unfold fits_to_tiles. rewrite Hshape. unfold Py.floordiv.
    destruct (Z.eqb_spec tile_size 0) as [| Hne]; [reflexivity |].
    unfold bind at 1. unfold lift at 1. unfold bind at 1. unfold lift at 1.
    unfold bind at 1.
    rewrite empty_grid_loop by (left; apply div_nonneg_neg; lia).
    unfold bind, lift, log, write, Py.truediv_raises.
    destruct (Z.eqb_spec (width / tile_size * (height / tile_size)) 0) as [Hzero |];
      [specialize (Htotal ltac:(lia)); lia | reflexivity].
  - intros Hneg. split; [now apply Htotal | reflexivity].
Qed.

End TileSize.

(** ** Tiles that overlap *)

Section Overlap.

Variable imread : string -> option ndarray.
Variables height width : Z.

(** Tiles that cannot be used leave the canvas as it is. *)
Lemma canvas_untouched tiles y x :
  0 <= y < height -> 0 <= x < width ->
  (forall u, In u tiles -> inside u y x -> unusable imread u = true) ->
  forall c, length (buffer c) = Z.to_nat (height * width) ->
    Np.item2 (fold_left (painted imread width) tiles c) width y x = Np.item2 c width y x.
Proof.
  intros Hy Hx. induction tiles as [|t tiles IH]; intros Hskip c Hlen; [reflexivity |].
  cbn [fold_left]. rewrite IH.
  - rewrite (painted_item imread height width) by assumption.
    pose proof (Hskip t (or_introl eq_refl)) as Ht. unfold unusable in Ht.
    destruct (tile_block imread t) as [[tile_image [sh sw]] |]; [| reflexivity].
    destruct (_ && _) eqn:Hin; [| reflexivity].
    apply inside_test in Hin. now apply Ht in Hin.
  - intros u Hu. apply Hskip. now right.
  - now rewrite painted_length.
Qed.

End Overlap.

(** Where the rectangles of a manifest overlap, the last usable tile of
    the manifest wins: a sample under a usable tile that no later usable
    tile covers is the sample of that tile, whatever the earlier tiles
    hold there. The image is saved under the base name of the source. *)
Theorem reconstruct_last_tile_wins (metadata_file : string) (m : manifest)
    (imread : string -> option ndarray)
    (before after : list tile_record) (t : tile_record)
    (tile_image : ndarray) (sh sw y x : Z) :
  m_tiles m = before ++ t :: after ->
  (forall u, In u (m_tiles m) -> well_placed u) ->
  tile_block imread t = Some (tile_image, (sh, sw)) ->
  inside t y x ->
  (forall u, In u after -> inside u y x -> unusable imread u = true) ->
  exists width canvas,
    reconstruct_image_from_tiles metadata_file (Some (manifest_json m)) imread start
    = (Ok tt,
       {| logs := read_errors imread (m_tiles m)
                  ++ [Info_reconstructed_saved
                        ("reconstructed_" +:+ Py.basename (m_fits_file m) +:+ ".png")];
          written := [("reconstructed_" +:+ Py.basename (m_fits_file m) +:+ ".png",
                       Png canvas)] |})
    /\ greatest rec_x_end (m_tiles m) width
    /\ Np.item2 canvas width y x
       = broadcast_item tile_image sh sw (y - rec_y_start t) (x - rec_x_start t)
         mod 65536.
Proof.
  intros Htiles Hplaced Hblock Hinside Hlater.
  assert (m_tiles m <> []) as Hne by (rewrite Htiles; now destruct before).
  destruct (reconstruct_places_tiles metadata_file
              [("fits_file", JStr (m_fits_file m)); ("tile_size", JInt (m_tile_size m));
               ("tiles", JList (map tile_json (m_tiles m)))]
              (JInt (m_tile_size m)) (m_tiles m) imread eq_refl eq_refl Hne Hplaced)
    as (height & width & Hgy & Hgx & Hrun).
  assert (In t (m_tiles m)) as Hin by (rewrite Htiles; apply in_elt).
  destruct (Hplaced t Hin) as [Hty Htx]. destruct Hinside as [Hiy Hix].
  pose proof (proj1 Hgy t Hin) as Hye. pose proof (proj1 Hgx t Hin) as Hxe.
  assert (0 <= y < height) as Hy by lia. assert (0 <= x < width) as Hx by lia.
  assert ((height =? 0) || (width =? 0) = false) as Hsamples.
  { apply orb_false_iff. rewrite !Z.eqb_neq. lia. }
  cbv zeta in Hrun. cbn [Py.assoc String.eqb Ascii.eqb Bool.eqb] in Hrun.
  rewrite Hsamples in Hrun.
  exists width. eexists. split; [exact Hrun |]. split; [exact Hgx |].
  assert (length (buffer (blank_canvas height width)) = Z.to_nat (height * width)) as Hlen.
  { cbn [blank_canvas buffer]. rewrite repeat_length. f_equal. lia. }
  rewrite Htiles, fold_left_app. cbn [fold_left].
  rewrite (canvas_untouched imread height width after y x Hy Hx Hlater).
  - rewrite (painted_item imread height width) by
      (rewrite ?fold_painted_length; assumption).
    rewrite Hblock.
    assert ((rec_y_start t <=? y) && (y <? rec_y_end t)
            && (rec_x_start t <=? x) && (x <? rec_x_end t) = true) as ->.
    { apply inside_test. split; assumption. }
    reflexivity.
  - now rewrite painted_length, fold_painted_length.
Qed.

(** ** The depth and the padding of the Merkle recursion *)

Section MerkleDepth.

Variable sha256_hexdigest : list Z -> string.

Lemma pair_level_padding (hashes : list string) :
  Nat.odd (length hashes) = true ->
  pair_level sha256_hexdigest (hashes ++ [""]) = pair_level sha256_hexdigest hashes.
Proof.
  induction hashes as [hashes IH] using (induction_ltof1 _ (@length string)).
  unfold ltof in IH.
  destruct hashes as [|a [|b rest]]; [discriminate | reflexivity |].
  intros Hodd. cbn [app pair_level]. f_equal. apply IH; [cbn; lia |].
  cbn [length] in Hodd. now rewrite Nat.odd_succ_succ in Hodd.
Qed.

(** An odd number of hashes, three or more, has the Merkle root of the same
    hashes followed by the empty string: the padding of the last pair
    cannot be told from an input. *)
Theorem create_merkle_root_padding (depth : nat) (hashes : list string) :
  Nat.odd (length hashes) = true -> (3 <= length hashes)%nat ->
  create_merkle_root sha256_hexdigest depth (hashes ++ [""])
  = create_merkle_root sha256_hexdigest depth hashes.
Proof.
  intros Hodd Hlen. destruct depth as [|depth]; [reflexivity |].
  cbn [create_merkle_root]. rewrite !new_hashes_pair_level, length_app. cbn [length].
  destruct (Nat.eqb_spec (length hashes + 1) 1); [lia |].
  destruct (Nat.eqb_spec (length hashes) 1); [lia |].
  now rewrite pair_level_padding.
Qed.

Lemma log2_up_level n :
  (2 <= n -> Nat.log2_up n <= S (Nat.log2_up (Nat.div2 (S n))))%nat.
Proof.
  intros Hn.
  pose proof (div2_S_bounds n Hn) as Hm.
  assert (Nat.div2 (S n) <= 2 ^ Nat.log2_up (Nat.div2 (S n)))%nat as Hup.
  { apply Nat.log2_up_le_pow2; lia. }
  apply Nat.log2_up_le_pow2; [lia |].
  rewrite Nat.pow_succ_r'.
  pose proof (Nat.div2_odd (S n)) as Ho.
  destruct (Nat.odd (S n)); cbn [Nat.b2n] in Ho; lia.
Qed.

Lemma create_merkle_root_shallow depth :
  forall hashes, (depth <= Nat.log2_up (length hashes))%nat ->
    create_merkle_root sha256_hexdigest depth hashes = Raise RecursionError.
Proof.
  induction depth as [|depth IH]; intros hashes Hdepth; [reflexivity |].
  cbn [create_merkle_root].
  destruct (Nat.eqb_spec (length hashes) 1) as [H1 | H1].
  - rewrite H1 in Hdepth. cbn in Hdepth. lia.
  - rewrite new_hashes_pair_level. apply IH. rewrite pair_level_length.
    assert (2 <= length hashes)%nat as H2.
    { destruct (length hashes) as [|[|n]]; cbn in Hdepth; lia. }
    pose proof (log2_up_level _ H2). lia.
Qed.

(** The recursion on [n >= 1] hashes needs exactly [ceil(log2 n) + 1]
    frames: with that many or more it returns a root, with fewer it ends
    in [RecursionError]. *)
Theorem create_merkle_root_depth (depth : nat) (hashes : list string) :
  hashes <> [] ->
  if (Nat.log2_up (length hashes) <? depth)%nat
  then exists root, create_merkle_root sha256_hexdigest depth hashes = Ok root
  else create_merkle_root sha256_hexdigest depth hashes = Raise RecursionError.
Proof.
  intros Hne.
  assert (1 <= length hashes)%nat as H1 by (destruct hashes; [congruence | cbn; lia]).
  destruct (Nat.ltb_spec (Nat.log2_up (length hashes)) depth) as [Hdeep | Hshallow].
  - destruct (create_merkle_root_runs sha256_hexdigest depth hashes H1 Hdeep)
      as (root & Hrun & _).
    eauto.
  - now apply create_merkle_root_shallow.
Qed.

End MerkleDepth.

(** ** The bytes hashed *)

Lemma uint16_bytes v v' :
  is_uint16 v -> is_uint16 v' ->
  v mod 256 = v' mod 256 -> (v / 256) mod 256 = (v' / 256) mod 256 -> v = v'.
Proof.
  unfold is_uint16. intros Hv Hv' Hlow Hhigh.
  pose proof (Z.div_mod v 256 ltac:(lia)). pose proof (Z.div_mod v' 256 ltac:(lia)).
  rewrite (Z.mod_small (v / 256)) in Hhigh
    by (split; [apply Z.div_pos; lia | apply Z.div_lt_upper_bound; lia]).
  rewrite (Z.mod_small (v' / 256)) in Hhigh
    by (split; [apply Z.div_pos; lia | apply Z.div_lt_upper_bound; lia]).
  lia.
Qed.

(** The bytes [calculate_hash] hashes are the samples and nothing else:
    two bytes for each sample, and two arrays of [uint16] samples with the
    same bytes have the same samples. *)
Theorem tobytes_determines_samples (a b : ndarray) :
  Forall is_uint16 (buffer a) -> Forall is_uint16 (buffer b) ->
  Np.tobytes a = Np.tobytes b ->
  buffer a = buffer b.
Proof.
  unfold Np.tobytes. generalize (buffer b) as vs'. generalize (buffer a) as vs.
  induction vs as [|v vs IH]; intros [|v' vs'] Ha Hb Heq; try discriminate; [reflexivity |].
  apply Forall_cons in Ha as [Hv Ha]. apply Forall_cons in Hb as [Hv' Hb].
  cbn [flat_map app] in Heq. injection Heq as Hlow Hhigh Hrest.
  f_equal; [now apply uint16_bytes | now apply IH].
Qed.

(** ** Rasters of 8-bit samples *)

Lemma floor_sample_monotone tile_min tile_max v v' :
  tile_min < tile_max -> v <= v' ->
  floor_sample tile_min tile_max v <= floor_sample tile_min tile_max v'.
Proof.
  intros Hlt Hle. unfold floor_sample. apply Z.div_le_mono; nia.
Qed.

Section EightBit.

Variable sha256_hexdigest : list Z -> string.
Variables (fits_basename : string) (image_data : ndarray).
Variables height width tile_size : Z.

(** On a cell of 8-bit samples that is not uniform the [float64]
    computation is exact: each sample of the tile file is the integer part
    of [(v - min) * 65535 / (max - min)], so that the tile keeps the order
    of the samples of the raster. *)
Theorem normalized_tile_8bit_exact (i j tile_min tile_max : Z) :
  shape image_data = [height; width] ->
  0 < tile_size -> 0 <= i < height / tile_size -> 0 <= j < width / tile_size ->
  (forall dy dx, 0 <= dy < tile_size -> 0 <= dx < tile_size ->
     0 <= window_sample image_data width tile_size i j dy dx <= 255
     /\ tile_min <= window_sample image_data width tile_size i j dy dx <= tile_max) ->
  (exists dy dx, 0 <= dy < tile_size /\ 0 <= dx < tile_size
                 /\ window_sample image_data width tile_size i j dy dx = tile_min) ->
  (exists dy dx, 0 <= dy < tile_size /\ 0 <= dx < tile_size
                 /\ window_sample image_data width tile_size i j dy dx = tile_max) ->
  tile_min < tile_max ->
  exists w tile,
    fits_to_tiles sha256_hexdigest fits_basename (PrimaryHDU (Some image_data))
      tile_size start = (Ok tt, w)
    /\ In (tile_id_of fits_basename i j +:+ ".png", Png tile) (written w)
    /\ (forall dy dx, 0 <= dy < tile_size -> 0 <= dx < tile_size ->
          Np.item2 tile tile_size dy dx
          = floor_sample tile_min tile_max
              (window_sample image_data width tile_size i j dy dx))
    /\ (forall dy dx dy' dx',
          0 <= dy < tile_size -> 0 <= dx < tile_size ->
          0 <= dy' < tile_size -> 0 <= dx' < tile_size ->
          window_sample image_data width tile_size i j dy dx
          <= window_sample image_data width tile_size i j dy' dx' ->
          Np.item2 tile tile_size dy dx <= Np.item2 tile tile_size dy' dx').
Proof.
  intros Hshape HT Hi Hj Hbounds Hmin Hmax Hlt.
  pose proof (cell_fits tile_size height i HT Hi) as Hh.
  pose proof (cell_fits tile_size width j HT Hj) as Hw.
  rewrite (fits_to_tiles_grid _ _ _ _ _ _ Hshape HT Hh Hw). cbv zeta.
  destruct (tile_at_range image_data height width tile_size i j HT Hi Hj
              tile_min tile_max) as [Emin Emax];
    [intros; now apply Hbounds | exact Hmin | exact Hmax |].
  assert (0 <= tile_min /\ tile_max <= 255) as [Hlo Hhi].
  { destruct Hmin as (y0 & x0 & Hy0 & Hx0 & Hmin).
    destruct Hmax as (y1 & x1 & Hy1 & Hx1 & Hmax).
    pose proof (Hbounds y0 x0 Hy0 Hx0) as [Hmin8 _]. rewrite Hmin in Hmin8.
    pose proof (Hbounds y1 x1 Hy1 Hx1) as [Hmax8 _]. rewrite Hmax in Hmax8. lia. }
  assert (forall dy dx, 0 <= dy < tile_size -> 0 <= dx < tile_size ->
            Np.item2 (cell_image image_data height width tile_size (i, j)) tile_size dy dx
            = floor_sample tile_min tile_max
                (window_sample image_data width tile_size i j dy dx)) as Hitem.
  { intros dy dx Hdy Hdx.
    rewrite (cell_image_item _ _ _ _ _ _ tile_min tile_max) by (assumption || lia).
    destruct (Hbounds dy dx Hdy Hdx) as [_ Hv].
    apply normalize_sample_floor_8bit; lia. }
  eexists _, _. split; [reflexivity |]. cbn [written]. split; [| split].
  - apply in_or_app. left. apply in_map_iff. exists (i, j). split.
    + reflexivity.
    + apply grid_cells_in. lia.
  - exact Hitem.
  - intros dy dx dy' dx' Hdy Hdx Hdy' Hdx' Hle.
    rewrite !Hitem by assumption. now apply floor_sample_monotone.
Qed.

End EightBit.

(** ** The log and the hashes of a split *)

Section SplitLog.

Variable sha256_hexdigest : list Z -> string.
Variables (fits_basename : string) (image_data : ndarray).
Variables height width tile_size : Z.

Lemma cell_warnings_filter cells :
  flat_map (cell_warning image_data height width tile_size) cells
  = map (fun cell => Warning_uniform_tile cell.1 cell.2)
      (List.filter (fun cell => uniform (tile_at image_data height width tile_size
                                           cell.1 cell.2)) cells).
Proof.
  induction cells as [|cell cells IH]; [reflexivity |].
  cbn [flat_map List.filter]. unfold cell_warning at 1.
  destruct (uniform _); cbn [map app]; now rewrite IH.
Qed.

(** The log of a split: one warning for each uniform tile and for no
    other, in row-major order, then the two closing records; no error is
    logged. *)
Theorem warnings_name_the_uniform_tiles :
  shape image_data = [height; width] ->
  0 < tile_size -> tile_size <= height -> tile_size <= width ->
  exists w,
    fits_to_tiles sha256_hexdigest fits_basename (PrimaryHDU (Some image_data))
      tile_size start = (Ok tt, w)
    /\ logs w
       = map (fun cell => Warning_uniform_tile cell.1 cell.2)
           (List.filter (fun cell => uniform (tile_at image_data height width tile_size
                                                cell.1 cell.2))
              (grid_cells (height / tile_size) (width / tile_size)))
         ++ [Info_completed (width / tile_size * (height / tile_size));
             Info_metadata_saved (fits_basename +:+ "_metadata.json")]
    /\ Forall (fun r => level r <> ERROR) (logs w).
Proof.
  intros Hshape HT Hfh Hfw.
  rewrite (fits_to_tiles_grid _ _ _ _ _ _ Hshape HT Hfh Hfw). cbv zeta.
  eexists. split; [reflexivity |]. cbn [logs]. rewrite cell_warnings_filter.
  split; [reflexivity |].
  apply Forall_app. split.
  - apply Forall_forall. intros r Hin. apply list_elem_of_In, in_map_iff in Hin
      as (cell & <- & _). discriminate.
  - repeat constructor; discriminate.
Qed.

(** The manifest of a split can be checked against the tile files: every
    record names a file the run has written, and its hash is the hash of
    the samples of that file. *)
Theorem manifest_hashes_match_files :
  shape image_data = [height; width] ->
  0 < tile_size -> tile_size <= height -> tile_size <= width ->
  exists w tiles,
    fits_to_tiles sha256_hexdigest fits_basename (PrimaryHDU (Some image_data))
      tile_size start = (Ok tt, w)
    /\ manifest_written w
       = Some (manifest_json {| m_fits_file := fits_basename;
                                m_tile_size := tile_size;
                                m_tiles := tiles |})
    /\ Z.of_nat (length tiles) = height / tile_size * (width / tile_size)
    /\ forall t, In t tiles ->
         exists image,
           read_png (written w) (rec_filename t) = Some image
           /\ rec_hash t = calculate_hash sha256_hexdigest image.
Proof.
  intros Hshape HT Hfh Hfw.
  rewrite (fits_to_tiles_grid _ _ _ _ _ _ Hshape HT Hfh Hfw). cbv zeta.
  set (rows := height / tile_size). set (cols := width / tile_size).
  assert (0 < rows) as Hrows by (apply Z.div_str_pos; lia).
  assert (0 < cols) as Hcols by (apply Z.div_str_pos; lia).
  eexists _, (map (cell_tile_record sha256_hexdigest fits_basename image_data
                     height width tile_size) (grid_cells rows cols)).
  split; [reflexivity |]. split; [| split].
  - unfold manifest_written. cbn [written]. rewrite last_snoc.
    now rewrite cell_tile_record_json.
  - rewrite length_map, grid_cells_length by lia. lia.
  - intros t Hin. apply in_map_iff in Hin as (cell & <- & Hcell).
    exists (cell_image image_data height width tile_size cell). split; [| reflexivity].
    cbn [written cell_tile_record rec_filename].
    apply read_png_written.
    + apply cell_files_NoDup; [apply grid_cells_NoDup | right; eauto].
    + apply in_or_app. left.
      change (cell_filename fits_basename cell,
              Png (cell_image image_data height width tile_size cell))
        with (cell_file fits_basename image_data height width tile_size cell).
      now apply in_map.
Qed.

End SplitLog.

(** ** The grayscale batch *)

Section BatchFacts.

Variable sha256_hexdigest : list Z -> string.
Variable array : Type.
Variables log1p_scaled clipped scaled_to_uint8 equalized : array -> outcome array.
Variable tobytes : array -> list Z.

Local Abbreviation processing :=
  (apply_image_processing array log1p_scaled clipped scaled_to_uint8 equalized).
Local Abbreviation processed :=
  (processed_of array log1p_scaled clipped scaled_to_uint8 equalized).
Local Abbreviation file_body :=
  (process_file sha256_hexdigest array log1p_scaled clipped scaled_to_uint8 equalized
     tobytes).
Local Abbreviation batch :=
  (process_fits_to_grayscale sha256_hexdigest array log1p_scaled clipped scaled_to_uint8
     equalized tobytes).
Local Abbreviation hashes_of := (batch_hashes sha256_hexdigest array tobytes).
Local Abbreviation logs_of := (batch_logs sha256_hexdigest array tobytes).
Local Abbreviation saved_of := (batch_saved sha256_hexdigest array tobytes).
Local Abbreviation processed_well :=
  (well_processed array log1p_scaled clipped scaled_to_uint8 equalized).

Lemma apply_image_processing_run cfg image_data processed_data w :
  processed cfg image_data = Ok processed_data ->
  processing image_data cfg w
  = (Ok processed_data,
     {| gray_logs := gray_logs w ++ processing_logs cfg; gray_saved := gray_saved w |}).
Proof.
  unfold processed_of, apply_image_processing, processing_logs, bind, lift, ret, gray_log.
  destruct (apply_log_scale cfg), (apply_clipping cfg), (apply_clahe cfg);
    repeat match goal with
           | |- context [match ?step ?a with Ok _ => _ | Raise _ => _ end] =>
               destruct (step a); cbn [gray_logs gray_saved]
           end;
    intros [= <-] || discriminate || idtac;
    cbn [gray_logs gray_saved app]; rewrite <- ?app_assoc, ?app_nil_r;
    try reflexivity; destruct w; reflexivity.
Qed.

Lemma process_batch cfg files :
  Forall (processed_well cfg) files ->
  forall hashes w,
    for_each (map batch_entry files) (file_body cfg) hashes w
    = (Ok (hashes ++ hashes_of files),
       {| gray_logs := gray_logs w ++ logs_of cfg files;
          gray_saved := gray_saved w ++ saved_of files |}).
Proof.
  induction files as [|f files IH]; intros Hwell hashes w.
  - cbn. rewrite !app_nil_r. now destruct w.
  - apply Forall_cons in Hwell as [Hf Hwell]. cbn [map for_each]. unfold bind at 1.
    destruct f as [fits_file | fits_file image_data processed_data].
    + unfold process_file at 1. cbn [batch_entry fst snd].
      unfold bind at 1, gray_log at 1, ret at 1.
      rewrite (IH Hwell). cbn [gray_logs gray_saved batch_hashes batch_logs batch_saved
        flat_map app]. now rewrite <- app_assoc.
    + unfold process_file at 1. cbn [batch_entry fst snd].
      unfold bind at 1. rewrite (apply_image_processing_run _ _ processed_data) by exact Hf.
      unfold save_metadata_json, bind, gray_save, gray_log, ret.
      cbn [gray_logs gray_saved].
      rewrite (IH Hwell). cbn [gray_logs gray_saved batch_hashes batch_logs batch_saved
        flat_map app]. rewrite <- !app_assoc. reflexivity.
Qed.

(** The number of files of a batch: [config['num_images']] when it is
    positive, all the files otherwise. *)
Lemma process_fits_to_grayscale_run depth fits_files output_directory cfg files :
  take (Z.to_nat (if 0 <? num_images cfg then num_images cfg
                  else Z.of_nat (length fits_files))) fits_files
  = map batch_entry files ->
  Forall (processed_well cfg) files ->
  batch depth fits_files output_directory cfg gray_start
  = let done :=
      {| gray_logs := [Info_output_directory output_directory;
                       Info_configured (if 0 <? num_images cfg then num_images cfg
                                        else Z.of_nat (length fits_files))]
                      ++ logs_of cfg files;
         gray_saved := saved_of files |} in
    match create_merkle_root sha256_hexdigest depth (hashes_of files) with
    | Ok root =>
        (Ok tt, {| gray_logs := gray_logs done ++ [Info_merkle_root root];
                   gray_saved := gray_saved done |})
    | Raise e => (Raise e, done)
    end.
Proof.
  intros Hselected Hwell. unfold process_fits_to_grayscale.
  unfold bind at 1, gray_log at 1. unfold bind at 1, gray_log at 1.
  unfold bind at 1. rewrite Hselected, (process_batch cfg files Hwell).
  cbn [gray_logs gray_saved gray_start app]. unfold bind, lift, gray_log.
  destruct (create_merkle_root _ _ _); reflexivity.
Qed.

Lemma create_merkle_root_nil depth :
  create_merkle_root sha256_hexdigest depth [] = Raise RecursionError.
Proof.
  induction depth as [|depth IH]; [reflexivity |].
  cbn [create_merkle_root length Nat.eqb]. exact IH.
Qed.


Lemma files_without_data cfg names :
  hashes_of (map No_data names) = []
  /\ saved_of (map No_data names) = []
  /\ logs_of cfg (map No_data names) = map Error_no_data names.
Proof.
  induction names as [|n names (IHh & IHs & IHl)]; [repeat split |].
  split; [exact IHh |]. split; [exact IHs |].
  cbn [map]. rewrite <- IHl. reflexivity.
Qed.

(** A batch in which no selected file has data (an empty batch among
    them) ends in [RecursionError], whatever the recursion limit: the
    errors of the files are logged, no Merkle root is. *)
Theorem batch_without_data_exhausts_stack depth fits_files output_directory cfg names :
  take (Z.to_nat (if 0 <? num_images cfg then num_images cfg
                  else Z.of_nat (length fits_files))) fits_files
  = map (fun fits_file => (fits_file, Opened None)) names ->
  batch depth fits_files output_directory cfg gray_start
  = (Raise RecursionError,
     {| gray_logs := [Info_output_directory output_directory;
                      Info_configured (if 0 <? num_images cfg then num_images cfg
                                       else Z.of_nat (length fits_files))]
                     ++ map Error_no_data names;
        gray_saved := [] |}).
Proof.
  intros Hselected.
  rewrite (process_fits_to_grayscale_run depth fits_files output_directory cfg
             (map No_data names)).
  - destruct (files_without_data cfg names) as (-> & -> & ->).
    cbv zeta. now rewrite create_merkle_root_nil.
  - rewrite Hselected, map_map. reflexivity.
  - apply Forall_forall. intros f Hin. apply list_elem_of_In, in_map_iff in Hin
      as (n & <- & _). exact I.
Qed.


End BatchFacts.

(** ** The bytes of an image hash *)

Lemma utf8_bytes b : is_byte b -> Forall is_byte (utf8 b).
Proof.
  unfold is_byte, utf8. intros Hb. destruct (Z.ltb_spec b 128).
  - repeat constructor; lia.
  - pose proof (Z.mod_pos_bound b 64 ltac:(lia)).
    assert (2 <= b / 64 < 4)
      by (split; [apply Z.div_le_lower_bound | apply Z.div_lt_upper_bound]; lia).
    repeat constructor; lia.
Qed.

Lemma encode_bytes bytes :
  Forall is_byte bytes ->
  encode (string_of_list_ascii (map (fun b => ascii_of_N (Z.to_N b)) bytes)) = bytes.
Proof.
  intros Hbytes. unfold encode. rewrite list_ascii_of_string_of_list_ascii, map_map.
  induction Hbytes as [|b bytes Hb _ IH]; [reflexivity |].
  cbn [map]. rewrite IH. f_equal.
  unfold is_byte in Hb. rewrite N_ascii_embedding by lia. lia.
Qed.

Lemma utf8_length bytes :
  length (flat_map utf8 bytes)
  = (length bytes + length (List.filter (fun b => (128 <=? b)%Z) bytes))%nat.
Proof.
  induction bytes as [|b bytes IH]; [reflexivity |].
  cbn [flat_map List.filter]. rewrite length_app, IH. unfold utf8.
  destruct (Z.ltb_spec b 128), (Z.leb_spec 128 b); try lia; cbn [length]; lia.
Qed.

Section ImageHash.

Variable sha256_hexdigest : list Z -> string.
Variable array : Type.
Variable tobytes : array -> list Z.

(** The hash of an image is not the SHA-256 of its bytes: the bytes are
    decoded as ISO-8859-1 and the string is encoded as UTF-8, so that every
    byte from 128 on is hashed as two bytes; the bytes hashed are the bytes
    of the image only when all of them are below 128. *)
Theorem image_hash_input (processed_data : array) :
  Forall is_byte (tobytes processed_data) ->
  image_hash_of sha256_hexdigest array tobytes processed_data
  = sha256_hexdigest (flat_map utf8 (tobytes processed_data))
  /\ length (flat_map utf8 (tobytes processed_data))
     = (length (tobytes processed_data)
        + length (List.filter (fun b => (128 <=? b)%Z) (tobytes processed_data)))%nat
  /\ (flat_map utf8 (tobytes processed_data) = tobytes processed_data
      <-> Forall (fun b => b < 128) (tobytes processed_data)).
Proof.
  intros Hbytes. split; [| split].
  - unfold image_hash_of, hash_file_name, decode_latin1. f_equal.
    apply encode_bytes. induction Hbytes as [|b bytes Hb _ IH]; [constructor |].
    cbn [flat_map]. apply Forall_app. split; [now apply utf8_bytes | exact IH].
  - apply utf8_length.
  - split.
    + intros Heq. apply (f_equal (@length Z)) in Heq. rewrite utf8_length in Heq.
      assert (List.filter (fun b => (128 <=? b)%Z) (tobytes processed_data) = []) as Hnone.
      { destruct (List.filter _ _); [reflexivity | cbn in Heq; lia]. }
      apply Forall_forall. intros b Hin. apply list_elem_of_In in Hin.
      destruct (Z.ltb_spec b 128) as [| Hge]; [assumption |]. exfalso.
      assert (In b (List.filter (fun b => (128 <=? b)%Z) (tobytes processed_data))) as Hb.
      { apply filter_In. split; [exact Hin | now apply Z.leb_le]. }
      rewrite Hnone in Hb. destruct Hb.
    + intros Hlow. induction Hlow as [|b bytes Hb _ IH]; [reflexivity |].
      cbn [flat_map]. unfold utf8 at 1. destruct (Z.ltb_spec b 128); [| lia].
      cbn [app]. f_equal. apply IH. now apply Forall_cons in Hbytes as [_ ?].
Qed.

End ImageHash.

(** ** [main] of grayscaler.py *)

Section MainFacts.

Variable sha256_hexdigest : list Z -> string.
Variable array : Type.
Variables log1p_scaled clipped scaled_to_uint8 equalized : array -> outcome array.
Variable tobytes : array -> list Z.

Local Abbreviation main :=
  (grayscaler_main sha256_hexdigest array log1p_scaled clipped scaled_to_uint8 equalized
     tobytes).

(** In a directory without a name that ends in [.FIT] (the test is case
    sensitive: [.fit] and [.fits] do not count) [main] finds no file and
    ends in [RecursionError], whatever the recursion limit. *)
Theorem main_without_fit_files (depth : nat) (listing : list (string * hdul array)) :
  (forall entry, In entry listing -> endswith entry.1 ".FIT" = false) ->
  main depth listing gray_start
  = (Raise RecursionError,
     {| gray_logs := [Info_initiating; Info_found_fits 0;
                      Info_output_directory "processed_images"; Info_configured 1];
        gray_saved := [] |}).
Proof.
  intros Hnone. unfold grayscaler_main.
  assert (List.filter (fun entry : string * hdul array => endswith entry.1 ".FIT") listing
          = []) as ->.
  { induction listing as [|entry listing IH]; [reflexivity |].
    cbn [List.filter]. rewrite (Hnone entry) by now left.
    apply IH. intros e He. apply Hnone. now right. }
  unfold bind at 1, gray_log at 1. unfold bind at 1, gray_log at 1.
  unfold process_fits_to_grayscale. unfold bind, gray_log, lift.
  rewrite take_nil. cbn [for_each gray_logs gray_saved gray_start app]. unfold ret.
  now rewrite (create_merkle_root_nil sha256_hexdigest depth).
Qed.

(** With the configuration of the script ([num_images] is 1) [main]
    processes the first [.FIT] file of the listing only: when it has data
    that can be processed, one image and its metadata are saved and the
    Merkle root logged is the hash of that image itself, however many
    files follow. *)
Theorem main_processes_first_fit_file (depth : nat) (listing : list (string * hdul array))
    (fits_file : string) (image_data processed_data : array)
    (rest : list (string * hdul array)) :
  List.filter (fun entry => endswith entry.1 ".FIT") listing
  = (fits_file, Opened (Some image_data)) :: rest ->
  processed_of array log1p_scaled clipped scaled_to_uint8 equalized config image_data
  = Ok processed_data ->
  main (S depth) listing gray_start
  = let image_hash := image_hash_of sha256_hexdigest array tobytes processed_data in
    (Ok tt,
     {| gray_logs := [Info_initiating; Info_found_fits (S (length rest));
                      Info_output_directory "processed_images"; Info_configured 1;
                      Info_log_scaling_applied; Info_clipping_applied; Info_clahe_applied;
                      Info_grayscale_saved (image_hash +:+ ".png");
                      Info_metadata_json_saved;
                      Info_merkle_root image_hash];
        gray_saved := [Saved_image (image_hash +:+ ".png") processed_data;
                       Saved_metadata fits_file (image_hash +:+ ".png")] |}).
Proof.
  intros Hfiles Hprocessed. unfold grayscaler_main. rewrite Hfiles.
  unfold bind at 1, gray_log at 1. unfold bind at 1, gray_log at 1.
  unfold process_fits_to_grayscale.
  unfold bind at 1, gray_log at 1. unfold bind at 1, gray_log at 1.
  unfold bind at 1.
  change (take _ ((fits_file, Opened (Some image_data)) :: rest))
    with (map batch_entry [With_data fits_file image_data processed_data]).
  rewrite (process_batch sha256_hexdigest array log1p_scaled clipped scaled_to_uint8
             equalized tobytes config)
    by (repeat constructor; exact Hprocessed).
  reflexivity.
Qed.

End MainFacts.

(** * Examples *)

(** The run of C1 on a 3 x 3 raster with tiles of 500. *)
Lemma fits_to_tiles_without_full_tile_example :
  fits_to_tiles byte_sum_digest "small.fits" (PrimaryHDU (Some small_raster)) 500 start
  = (Raise ZeroDivisionError, start).
Proof.
  apply (fits_to_tiles_without_full_tile byte_sum_digest "small.fits" small_raster 3 3 500);
    [reflexivity | lia | lia | lia | left; lia].
Defined.

(** C2 on the 2 x 2 raster of minimum 0 and maximum 4: its sample 1 becomes
    16383, the integer part of 16383.75. *)
Lemma normalized_sample_is_truncated_example :
  exists w tile,
    fits_to_tiles byte_sum_digest "g.fits" (PrimaryHDU (Some ramp_raster)) 2 start
    = (Ok tt, w)
    /\ In ("g.fits_tile_0_0.png", Png tile) (written w)
    /\ Np.item2 tile 2 0 1 = 16383.
Proof.
  destruct (normalized_sample_is_truncated byte_sum_digest "g.fits" ramp_raster 2 2 2
              0 0 0 4) as (w & tile & Hrun & Hin & _ & Hsample).
  - reflexivity.
  - lia.
  - split; [lia | reflexivity].
  - split; [lia | reflexivity].
  - intros dy dx Hdy Hdx.
    assert (dy = 0 \/ dy = 1) as [-> | ->] by lia;
      assert (dx = 0 \/ dx = 1) as [-> | ->] by lia;
      vm_compute; repeat split; discriminate.
  - exists 0, 0. repeat split; lia.
  - exists 1, 0. repeat split; lia.
  - lia.
  - exists w, tile. split; [exact Hrun |]. split; [exact Hin |].
    rewrite (Hsample 0 1) by lia. reflexivity.
Defined.

(** C2 as stated fails there: the nearest integer to 16383.75 is 16384. *)
Lemma normalized_sample_is_not_rounded :
  exists w tile,
    fits_to_tiles byte_sum_digest "g.fits" (PrimaryHDU (Some ramp_raster)) 2 start
    = (Ok tt, w)
    /\ In ("g.fits_tile_0_0.png", Png tile) (written w)
    /\ Np.min ramp_raster = Ok 0
    /\ Np.max ramp_raster = Ok 4
    /\ Np.item2 ramp_raster 2 0 1 = 1
    /\ rounded_sample 0 4 1 = 16384
    /\ Np.item2 tile 2 0 1 = 16383.
Proof.
  exists (fits_to_tiles byte_sum_digest "g.fits" (PrimaryHDU (Some ramp_raster)) 2 start).2,
         {| shape := [2; 2]; buffer := [0; 16383; 65535; 65535] |}.
  split; [vm_compute; reflexivity |]. split; [vm_compute; left; reflexivity |].
  repeat split.
Qed.

(** C4 on three hashes. *)
Lemma create_merkle_root_reference_example :
  exists root,
    merkle_root byte_sum_digest ["a"; "b"; "c"] root
    /\ create_merkle_root byte_sum_digest 3 ["a"; "b"; "c"] = Ok root.
Proof.
  destruct (create_merkle_root_reference byte_sum_digest ["a"; "b"; "c"])
    as (root & Hroot & _ & Hrun & _); [discriminate |].
  exists root. split; [exact Hroot | apply Hrun; vm_compute; lia].
Defined.

(** C5 on two tiles whose second file is missing: one error, the first
    rectangle holds its block, the second is zero. *)
Lemma reconstruct_tolerates_unusable_tiles_example :
  exists height width canvas,
    reconstruct_image_from_tiles "a.fits_metadata.json"
      (Some (manifest_json two_tiles)) first_tile_only start
    = (Ok tt,
       {| logs := [Error_reading_tile "a.fits_tile_0_1.png";
                   Info_reconstructed_saved "reconstructed_a.fits.png"];
          written := [("reconstructed_a.fits.png", Png canvas)] |})
    /\ shape canvas = [height; width]
    /\ Np.item2 canvas width 1 1 = 40
    /\ Np.item2 canvas width 1 2 = 0.
Proof.
  destruct (reconstruct_tolerates_unusable_tiles "a.fits_metadata.json" two_tiles
              first_tile_only)
    as (height & width & canvas & Hgy & Hgx & Hrun & Hshape & Hin & _).
  - discriminate.
  - intros t [<- | [<- | []]]; unfold well_placed; cbn; lia.
  - cbn. split; [| split; [| exact I]].
    + intros u y x [<- | []]. unfold inside. cbn. lia.
    + intros u y x [].
  - assert (height = 2) as ->.
    { destruct Hgy as [_ (t & [<- | [<- | []]] & <-)]; reflexivity. }
    assert (width = 4) as ->.
    { destruct Hgx as [Hle (t & Ht & Heq)].
      pose proof (Hle _ (or_intror (or_introl eq_refl))) as Hlast. cbn in Hlast.
      destruct Ht as [<- | [<- | []]]; cbn in Heq; lia. }
    exists 2, 4, canvas. split; [exact Hrun |]. split; [exact Hshape |]. split.
    + rewrite (Hin {| rec_tile_id := "a.fits_tile_0_0";
                      rec_filename := "a.fits_tile_0_0.png"; rec_hash := "h0";
                      rec_x_start := 0; rec_y_start := 0;
                      rec_x_end := 2; rec_y_end := 2 |} 1 1).
      * reflexivity.
      * left. reflexivity.
      * unfold inside. cbn. lia.
    + rewrite (Hin {| rec_tile_id := "a.fits_tile_0_1";
                      rec_filename := "a.fits_tile_0_1.png"; rec_hash := "h1";
                      rec_x_start := 2; rec_y_start := 0;
                      rec_x_end := 4; rec_y_end := 2 |} 1 2).
      * reflexivity.
      * right. left. reflexivity.
      * unfold inside. cbn. lia.
Defined.

(** C5 as stated fails on a tile file of the wrong size that numpy can
    broadcast: the 1 x 1 image is no 2 x 2 tile, yet no error is logged and
    its rectangle is filled with the one sample, not left zero. *)
Lemma reconstruct_broadcasts_mismatched_tile :
  one_pixel_store "b.fits_tile_0_0.png" = Some {| shape := [1; 1]; buffer := [7] |}
  /\ m_tile_size one_tile = 2
  /\ reconstruct_image_from_tiles "b.fits_metadata.json"
       (Some (manifest_json one_tile)) one_pixel_store start
     = (Ok tt,
        {| logs := [Info_reconstructed_saved "reconstructed_b.fits.png"];
           written := [("reconstructed_b.fits.png",
                        Png {| shape := [2; 2]; buffer := [7; 7; 7; 7] |})] |}).
Proof. repeat split. Qed.

(** A manifest whose one rectangle is empty gives a canvas without samples:
    [cv2.imwrite] refuses it, the error of the save is logged under the
    base name of the source, and nothing is written. *)
Lemma reconstruct_empty_canvas_is_not_saved :
  reconstruct_image_from_tiles "d.fits_metadata.json"
    (Some (manifest_json
             {| m_fits_file := "sub/b.fits"; m_tile_size := 2;
                m_tiles := [{| rec_tile_id := "t"; rec_filename := "t.png";
                               rec_hash := "h";
                               rec_x_start := 0; rec_y_start := 0;
                               rec_x_end := 0; rec_y_end := 0 |}] |}))
    one_pixel_store start
  = (Ok tt,
     {| logs := [Error_saving_reconstructed "reconstructed_b.fits.png"];
        written := [] |}).
Proof. reflexivity. Qed.

(** A manifest with no tile has no greatest coordinate: [max] of the empty
    list raises [ValueError] outside every [try], and nothing is written. *)
Lemma reconstruct_empty_manifest_raises (imread : string -> option ndarray) :
  reconstruct_image_from_tiles "c.fits_metadata.json"
    (Some (manifest_json {| m_fits_file := "c.fits"; m_tile_size := 2; m_tiles := [] |}))
    imread start
  = (Raise ValueError, start).
Proof. reflexivity. Qed.


(** C8 on the manifest of the 2 x 2 raster. *)
Lemma manifest_written_has_schema_example :
  manifest_schema "fits_file"
    (metadata_dict "g.fits" 2
       [tile_metadata "g.fits_tile_0_0" "g.fits_tile_0_0.png"
          (byte_sum_digest [0; 0; 255; 63; 255; 255; 255; 255]) 0 0 2])
  = true.
Proof.
  apply (manifest_written_has_schema byte_sum_digest "g.fits" 2
           (PrimaryHDU (Some ramp_raster))
           (fits_to_tiles byte_sum_digest "g.fits" (PrimaryHDU (Some ramp_raster)) 2 start).1
           (fits_to_tiles byte_sum_digest "g.fits" (PrimaryHDU (Some ramp_raster)) 2 start).2
           "g.fits_metadata.json").
  - apply surjective_pairing.
  - vm_compute. right. left. reflexivity.
Defined.

(** C8 as stated fails there: the manifest has no field [source_name]; its
    first field is [fits_file]. *)
Lemma manifest_has_no_source_name :
  exists w document,
    fits_to_tiles byte_sum_digest "g.fits" (PrimaryHDU (Some ramp_raster)) 2 start
    = (Ok tt, w)
    /\ In ("g.fits_metadata.json", JsonFile document) (written w)
    /\ Py.getitem document "source_name" = Raise KeyError
    /\ manifest_schema "source_name" document = false.
Proof.
  exists (fits_to_tiles byte_sum_digest "g.fits" (PrimaryHDU (Some ramp_raster)) 2 start).2,
         (metadata_dict "g.fits" 2
            [tile_metadata "g.fits_tile_0_0" "g.fits_tile_0_0.png"
               (byte_sum_digest [0; 0; 255; 63; 255; 255; 255; 255]) 0 0 2]).
  split; [vm_compute; reflexivity |].
  split; [vm_compute; right; left; reflexivity |].
  split; reflexivity.
Qed.

(** C9 on a data cube. *)
Lemma fits_to_tiles_rejects_non_2d_example :
  fits_to_tiles byte_sum_digest "cube.fits" (PrimaryHDU (Some cube)) 500 start
  = (Ok tt, {| logs := [Error_not_2d]; written := [] |}).
Proof.
  apply (fits_to_tiles_rejects_non_2d byte_sum_digest "cube.fits" cube 500 start).
  cbn. lia.
Defined.


(** Grid coverage on the 2 x 4 raster with tiles of 2: two records. *)
Lemma grid_coverage_when_a_tile_fits_example :
  exists w tiles,
    fits_to_tiles byte_sum_digest "a.fits" (PrimaryHDU (Some half_flat_raster)) 2 start
    = (Ok tt, w)
    /\ manifest_written w = Some (metadata_dict "a.fits" 2 tiles)
    /\ length tiles = 2%nat.
Proof.
  destruct (grid_coverage_when_a_tile_fits byte_sum_digest "a.fits" half_flat_raster 2 4 2)
    as (w & tiles & Hrun & Hm & Hlen & _); [reflexivity | lia | lia | lia |].
  exists w, tiles. split; [exact Hrun |]. split; [exact Hm | exact Hlen].
Defined.

(** The tile of the 2 x 2 raster is a 2 x 2 array of 16-bit samples. *)
Lemma tile_files_are_uint16_tiles_example :
  In ("g.fits_tile_0_0.png", Png {| shape := [2; 2]; buffer := [0; 16383; 65535; 65535] |})
    (written (fits_to_tiles byte_sum_digest "g.fits" (PrimaryHDU (Some ramp_raster)) 2
                start).2)
  /\ Forall is_uint16 [0; 16383; 65535; 65535].
Proof.
  assert (In ("g.fits_tile_0_0.png",
              Png {| shape := [2; 2]; buffer := [0; 16383; 65535; 65535] |})
            (written (fits_to_tiles byte_sum_digest "g.fits"
                        (PrimaryHDU (Some ramp_raster)) 2 start).2)) as Hin
    by (vm_compute; left; reflexivity).
  split; [exact Hin |].
  apply (tile_files_are_uint16_tiles byte_sum_digest "g.fits" ramp_raster 2 2 2
           (fits_to_tiles byte_sum_digest "g.fits" (PrimaryHDU (Some ramp_raster)) 2 start).1
           (fits_to_tiles byte_sum_digest "g.fits" (PrimaryHDU (Some ramp_raster)) 2 start).2
           "g.fits_tile_0_0.png"
           {| shape := [2; 2]; buffer := [0; 16383; 65535; 65535] |});
    [reflexivity | lia | lia | apply surjective_pairing | exact Hin].
Defined.

(** On the 2 x 2 raster of minimum 0 and maximum 4 the sample 0 is written
    as 0 and the samples 4 as 65535. *)
Lemma normalized_tile_spans_full_range_example :
  exists w tile,
    fits_to_tiles byte_sum_digest "g.fits" (PrimaryHDU (Some ramp_raster)) 2 start
    = (Ok tt, w)
    /\ In ("g.fits_tile_0_0.png", Png tile) (written w)
    /\ Np.item2 tile 2 0 0 = 0
    /\ Np.item2 tile 2 1 0 = 65535.
Proof.
  destruct (normalized_tile_spans_full_range byte_sum_digest "g.fits" ramp_raster 2 2 2
              0 0 0 4) as (w & tile & Hrun & Hin & Hends).
  - reflexivity.
  - lia.
  - split; [lia | reflexivity].
  - split; [lia | reflexivity].
  - intros dy dx Hdy Hdx.
    assert (dy = 0 \/ dy = 1) as [-> | ->] by lia;
      assert (dx = 0 \/ dx = 1) as [-> | ->] by lia;
      vm_compute; repeat split; discriminate.
  - exists 0, 0. repeat split; lia.
  - exists 1, 0. repeat split; lia.
  - lia.
  - exists w, tile. split; [exact Hrun |]. split; [exact Hin |]. split.
    + apply (Hends 0 0); [lia | lia | reflexivity].
    + apply (Hends 1 0); [lia | lia | reflexivity].
Defined.

(** The three files of the split of the 2 x 4 raster have three names. *)
Lemma written_file_names_distinct_example :
  NoDup (map fst (written (fits_to_tiles byte_sum_digest "a.fits"
                             (PrimaryHDU (Some half_flat_raster)) 2 start).2)).
Proof.
  apply (written_file_names_distinct byte_sum_digest "a.fits" half_flat_raster 2 4 2
           (fits_to_tiles byte_sum_digest "a.fits" (PrimaryHDU (Some half_flat_raster)) 2
              start).1);
    [reflexivity | lia | lia | apply surjective_pairing].
Defined.

(** The 2 x 4 raster split and reconstructed: a 2 x 4 image, no error. *)
Lemma split_then_reconstruct_example :
  exists w document canvas,
    fits_to_tiles byte_sum_digest "a.fits" (PrimaryHDU (Some half_flat_raster)) 2 start
    = (Ok tt, w)
    /\ manifest_written w = Some document
    /\ reconstruct_image_from_tiles "a.fits_metadata.json" (Some document)
         (read_png (written w)) start
       = (Ok tt,
          {| logs := [Info_reconstructed_saved "reconstructed_a.fits.png"];
             written := [("reconstructed_a.fits.png", Png canvas)] |})
    /\ shape canvas = [2; 4]
    /\ Np.item2 canvas 4 0 1
       = Np.item2 (cell_image half_flat_raster 2 4 2 (0, 0)) 2 0 1.
Proof.
  destruct (split_then_reconstruct byte_sum_digest "a.fits" half_flat_raster 2 4 2
              "a.fits_metadata.json")
    as (w & document & canvas & Hrun & Hm & Hrec & Hshape & Hitem);
    [reflexivity | lia | lia | lia | |].
  { intros y x Hy Hx.
    assert (y = 0 \/ y = 1) as [-> | ->] by lia;
      assert (x = 0 \/ x = 1 \/ x = 2 \/ x = 3) as [-> | [-> | [-> | ->]]] by lia;
      vm_compute; split; discriminate. }
  exists w, document, canvas. split; [exact Hrun |]. split; [exact Hm |].
  split; [exact Hrec |]. split; [exact Hshape |].
  apply (Hitem 0 1); split; (lia || reflexivity).
Defined.

(** A manifest whose second entry has no hash: the entry after it is not
    seen, so the tile that repeats the first one is not reported. *)
Lemma malformed_tile_hides_later_tiles_example :
  exists s,
    find_duplicates
      [("b/b.fits_metadata.json",
        Some (metadata_dict "b.fits" 2
                (map tile_json (m_tiles one_tile)
                 ++ hashless_tile :: map tile_json (m_tiles one_tile))))]
      scan_start = (Ok tt, s)
    /\ duplicates s = []
    /\ In (Error_reading_metadata "b/b.fits_metadata.json") (scan_logs s).
Proof.
  destruct (malformed_tile_hides_later_tiles [] [] "b/b.fits_metadata.json" "b.fits" 2
              (m_tiles one_tile) hashless_tile (map tile_json (m_tiles one_tile))
              KeyError eq_refl) as (s & Hrun & Hdup & Hlog).
  exists s. split; [exact Hrun |]. split; [exact Hdup | exact Hlog].
Defined.

(** The two tiles of the blank 2 x 4 frame: the second is reported as a
    duplicate of the first. *)
Lemma uniform_raster_reports_every_later_tile_example :
  exists w document s,
    fits_to_tiles byte_sum_digest "d.fits" (PrimaryHDU (Some blank_frame)) 2 start
    = (Ok tt, w)
    /\ manifest_written w = Some document
    /\ find_duplicates [("d/d.fits_metadata.json", Some document)] scan_start = (Ok tt, s)
    /\ duplicates s
       = [(JStr "d.fits_tile_0_1", JStr "d.fits_tile_0_1.png",
           JStr "d.fits_tile_0_0", JStr "d.fits_tile_0_0.png")].
Proof.
  destruct (uniform_raster_reports_every_later_tile byte_sum_digest "d.fits" blank_frame
              2 4 2 "d/d.fits_metadata.json")
    as (w & document & s & later & Hrun & Hm & Hscan & Hgrid & Hdup & _).
  - reflexivity.
  - lia.
  - lia.
  - lia.
  - intros i j Hi Hj.
    assert (i = 0) as -> by (change (2 / 2) with 1 in Hi; lia).
    assert (j = 0 \/ j = 1) as [-> | ->] by (change (4 / 2) with 2 in Hj; lia);
      reflexivity.
  - exists w, document, s. split; [exact Hrun |]. split; [exact Hm |].
    split; [exact Hscan |]. rewrite Hdup.
    vm_compute in Hgrid. injection Hgrid as <-. reflexivity.
Defined.

(** The manifest that names its source [source_name]: its tile is placed,
    then the reconstruction stops with [KeyError] and writes nothing. *)
Lemma reconstruct_needs_fits_file_example :
  reconstruct_image_from_tiles "b.fits_metadata.json" (Some (JObj renamed_manifest))
    one_pixel_store start
  = (Raise KeyError, {| logs := []; written := [] |}).
Proof.
  apply (reconstruct_needs_fits_file "b.fits_metadata.json" renamed_manifest (JInt 2)
           (m_tiles one_tile) one_pixel_store);
    [reflexivity | reflexivity | reflexivity | discriminate |].
  intros t [<- | []]. unfold well_placed. cbn. lia.
Defined.

(** The 3 x 3 raster with a tile size of -2: four tiles are reported, none
    is written, and the manifest has no tile. *)
Lemma fits_to_tiles_nonpositive_tile_size_example :
  fits_to_tiles byte_sum_digest "small.fits" (PrimaryHDU (Some small_raster)) (-2) start
  = (Ok tt,
     {| logs := [Info_completed 4; Info_metadata_saved "small.fits_metadata.json"];
        written := [("small.fits_metadata.json",
                     JsonFile (metadata_dict "small.fits" (-2) []))] |}).
Proof.
  apply (proj1 (fits_to_tiles_nonpositive_tile_size byte_sum_digest "small.fits"
                  small_raster 3 3 (-2) eq_refl ltac:(lia) ltac:(lia) ltac:(lia))).
Defined.

(** Two tiles on one rectangle: the image holds the samples of the second. *)
Lemma reconstruct_last_tile_wins_example :
  exists width canvas,
    reconstruct_image_from_tiles "s.fits_metadata.json"
      (Some (manifest_json stacked_tiles)) stacked_store start
    = (Ok tt,
       {| logs := [Info_reconstructed_saved "reconstructed_s.fits.png"];
          written := [("reconstructed_s.fits.png", Png canvas)] |})
    /\ Np.item2 canvas width 1 1 = 8.
Proof.
  destruct (reconstruct_last_tile_wins "s.fits_metadata.json" stacked_tiles stacked_store
              [{| rec_tile_id := "s.fits_tile_0_0"; rec_filename := "lower.png";
                  rec_hash := "h0";
                  rec_x_start := 0; rec_y_start := 0; rec_x_end := 2; rec_y_end := 2 |}]
              []
              {| rec_tile_id := "s.fits_tile_0_0"; rec_filename := "upper.png";
                 rec_hash := "h1";
                 rec_x_start := 0; rec_y_start := 0; rec_x_end := 2; rec_y_end := 2 |}
              {| shape := [2; 2]; buffer := [5; 6; 7; 8] |} 2 2 1 1)
    as (width & canvas & Hrun & _ & Hitem).
  - reflexivity.
  - intros u [<- | [<- | []]]; unfold well_placed; cbn; lia.
  - reflexivity.
  - unfold inside. cbn. lia.
  - intros u [].
  - exists width, canvas. split; [exact Hrun | exact Hitem].
Defined.

(** Three hashes and the same three followed by the empty string. *)
Lemma create_merkle_root_padding_example :
  create_merkle_root byte_sum_digest 3 ["a"; "b"; "c"; ""]
  = create_merkle_root byte_sum_digest 3 ["a"; "b"; "c"].
Proof.
  apply (create_merkle_root_padding byte_sum_digest 3 ["a"; "b"; "c"]);
    [reflexivity | cbn; lia].
Defined.

(** Three hashes need three frames: two are not enough. *)
Lemma create_merkle_root_depth_example :
  create_merkle_root byte_sum_digest 2 ["a"; "b"; "c"] = Raise RecursionError.
Proof.
  apply (create_merkle_root_depth byte_sum_digest 2 ["a"; "b"; "c"]). discriminate.
Defined.

(** A 2 x 2 and a 4 x 1 array with the same bytes have the same samples. *)
Lemma tobytes_determines_samples_example :
  buffer {| shape := [2; 2]; buffer := [1; 2; 3; 4] |}
  = buffer {| shape := [4; 1]; buffer := [1; 2; 3; 4] |}.
Proof.
  apply (tobytes_determines_samples {| shape := [2; 2]; buffer := [1; 2; 3; 4] |}
           {| shape := [4; 1]; buffer := [1; 2; 3; 4] |});
    [repeat constructor; unfold is_uint16; lia
    | repeat constructor; unfold is_uint16; lia
    | reflexivity].
Defined.

(** On the 2 x 2 raster of minimum 0 and maximum 4 the sample 1 becomes
    [1 * 65535 / 4 = 16383]. *)
Lemma normalized_tile_8bit_exact_example :
  exists w tile,
    fits_to_tiles byte_sum_digest "g.fits" (PrimaryHDU (Some ramp_raster)) 2 start
    = (Ok tt, w)
    /\ In ("g.fits_tile_0_0.png", Png tile) (written w)
    /\ Np.item2 tile 2 0 1 = 16383.
Proof.
  destruct (normalized_tile_8bit_exact byte_sum_digest "g.fits" ramp_raster 2 2 2
              0 0 0 4) as (w & tile & Hrun & Hin & Hfloor & _).
  - reflexivity.
  - lia.
  - split; [lia | reflexivity].
  - split; [lia | reflexivity].
  - intros dy dx Hdy Hdx.
    assert (dy = 0 \/ dy = 1) as [-> | ->] by lia;
      assert (dx = 0 \/ dx = 1) as [-> | ->] by lia;
      vm_compute; repeat split; discriminate.
  - exists 0, 0. repeat split; lia.
  - exists 1, 0. repeat split; lia.
  - lia.
  - exists w, tile. split; [exact Hrun |]. split; [exact Hin |].
    rewrite (Hfloor 0 1) by lia. reflexivity.
Defined.

(** The log of the split of the 2 x 4 raster: one warning, for its right
    tile. *)
Lemma warnings_name_the_uniform_tiles_example :
  exists w,
    fits_to_tiles byte_sum_digest "a.fits" (PrimaryHDU (Some half_flat_raster)) 2 start
    = (Ok tt, w)
    /\ logs w = [Warning_uniform_tile 0 1; Info_completed 2;
                 Info_metadata_saved "a.fits_metadata.json"].
Proof.
  destruct (warnings_name_the_uniform_tiles byte_sum_digest "a.fits" half_flat_raster 2 4 2)
    as (w & Hrun & Hlogs & _); [reflexivity | lia | lia | lia |].
  exists w. split; [exact Hrun |]. rewrite Hlogs. reflexivity.
Defined.

(** The record of the tile of the 2 x 2 raster and its file. *)
Lemma manifest_hashes_match_files_example :
  exists w tiles,
    fits_to_tiles byte_sum_digest "g.fits" (PrimaryHDU (Some ramp_raster)) 2 start
    = (Ok tt, w)
    /\ manifest_written w
       = Some (manifest_json {| m_fits_file := "g.fits"; m_tile_size := 2;
                                m_tiles := tiles |})
    /\ length tiles = 1%nat
    /\ Forall (fun t => exists image,
                 read_png (written w) (rec_filename t) = Some image
                 /\ rec_hash t = calculate_hash byte_sum_digest image) tiles.
Proof.
  destruct (manifest_hashes_match_files byte_sum_digest "g.fits" ramp_raster 2 2 2)
    as (w & tiles & Hrun & Hm & Hlen & Hfiles); [reflexivity | lia | lia | lia |].
  exists w, tiles. split; [exact Hrun |]. split; [exact Hm |]. split.
  - change (2 / 2 * (2 / 2)) with 1 in Hlen. lia.
  - apply Forall_forall. intros t Hin. apply Hfiles. now apply list_elem_of_In.
Defined.


(** A batch of one file without data. *)
Lemma batch_without_data_exhausts_stack_example :
  process_fits_to_grayscale byte_sum_digest ndarray unchanged unchanged unchanged
    unchanged Np.tobytes 1000 [("y.FIT", Opened None)] "out" every_file gray_start
  = (Raise RecursionError,
     {| gray_logs := [Info_output_directory "out"; Info_configured 1; Error_no_data "y.FIT"];
        gray_saved := [] |}).
Proof.
  apply (batch_without_data_exhausts_stack byte_sum_digest ndarray unchanged unchanged
           unchanged unchanged Np.tobytes 1000 [("y.FIT", Opened None)] "out" every_file
           ["y.FIT"]).
  reflexivity.
Defined.


(** A directory of lower-case names only. *)
Lemma main_without_fit_files_example :
  grayscaler_main byte_sum_digest ndarray unchanged unchanged unchanged unchanged
    Np.tobytes 1000
    [("m31.fit", Opened (Some ramp_raster)); ("m42.fits", Opened (Some ramp_raster))]
    gray_start
  = (Raise RecursionError,
     {| gray_logs := [Info_initiating; Info_found_fits 0;
                      Info_output_directory "processed_images"; Info_configured 1];
        gray_saved := [] |}).
Proof.
  apply (main_without_fit_files byte_sum_digest ndarray unchanged unchanged unchanged
           unchanged Np.tobytes 1000).
  intros entry [<- | [<- | []]]; reflexivity.
Defined.

(** A directory of two [.FIT] files: the second is not processed. *)
Lemma main_processes_first_fit_file_example :
  exists w,
    grayscaler_main byte_sum_digest ndarray unchanged unchanged unchanged unchanged
      Np.tobytes 1
      [("notes.txt", Unopened); ("A.FIT", Opened (Some ramp_raster));
       ("B.FIT", Opened (Some small_raster))]
      gray_start = (Ok tt, w)
    /\ last (gray_logs w)
       = Some (Info_merkle_root
                 (image_hash_of byte_sum_digest ndarray Np.tobytes ramp_raster))
    /\ length (gray_saved w) = 2%nat.
Proof.
  eexists. split.
  - apply (main_processes_first_fit_file byte_sum_digest ndarray unchanged unchanged
             unchanged unchanged Np.tobytes 0
             [("notes.txt", Unopened); ("A.FIT", Opened (Some ramp_raster));
              ("B.FIT", Opened (Some small_raster))]
             "A.FIT" ramp_raster ramp_raster [("B.FIT", Opened (Some small_raster))]);
      reflexivity.
  - split; reflexivity.
Defined.

(** The bytes 200 and 0 of the image are hashed as 195, 136 and 0. *)
Lemma image_hash_input_example :
  image_hash_of byte_sum_digest ndarray Np.tobytes bright_pixel
  = byte_sum_digest [195; 136; 0].
Proof.
  assert (Forall is_byte (Np.tobytes bright_pixel)) as Hbytes.
  { apply List.Forall_cons; [vm_compute; split; discriminate |].
    apply List.Forall_cons; [vm_compute; split; discriminate |]. apply List.Forall_nil. }
  exact (proj1 (image_hash_input byte_sum_digest ndarray Np.tobytes bright_pixel Hbytes)).
Defined.
